(** * prices-roulette: the price aggregation engine

    A shallow embedding of the TypeScript sources

      - [src/lib/types.ts]            the records,
      - [src/lib/productCatalog.ts]   the static catalog,
      - [src/crawlers/shufersal.ts]   locator, crawl loop, dedupe, fuzzy search,
      - the earlier crawler (fetchFileList), kept in module [Legacy],
      - [src/lib/priceService.ts]     matcher, aggregator, cache, rating,
      - the GET handler of /api/products,

    followed by the properties the specification states about them.

    Conventions.
      - A JS [string] is a Rocq [string]: a sequence of bytes, UTF-8 for text
        outside ASCII.  Equality, [includes] and [startsWith] on well-formed
        text do not depend on the encoding.
      - A JS [number] is an instance of the class [Number] below.  The code is
        written once against the class and read at two instances: [ExactNum]
        (rationals, arithmetic without rounding error) for properties that
        only compare numbers, and [Float64] (IEEE-754 binary64, the
        arithmetic the program really runs on) to evaluate it on given
        inputs and, through the specification of the operations in
        [FloatAxioms], for properties of all doubles.
      - [undefined] in an optional field is [None]; a [Date] is its instant
        in milliseconds.
      - A [throw] is the [Err] case of [Result]; [await] is sequencing, except
        in module [EventLoop], where the interleaving of calls in flight is
        modelled.
      - The network is a [World]: what a listing page answers and, for each
        file URL, what [downloadPriceFile] followed by [parseXMLPrices]
        yields.  Console output is left out. *)

From Stdlib Require Import ZArith QArith Qround Qabs Qminmax Lqa Lia.
From Stdlib Require Import List String Ascii Bool Permutation.
From Stdlib Require Import PrimFloat FloatOps SpecFloat FloatAxioms Uint63.
Import ListNotations.

Local Open Scope string_scope.
Local Open Scope list_scope.

(** ** Numbers *)

(** The operations of JS [number] that the sources use. *)
Class Number (num : Type) : Type := {
  lit : Q -> num;                (* a decimal or integer literal of the source *)
  add : num -> num -> num;       (* a + b *)
  sub : num -> num -> num;       (* a - b *)
  mul : num -> num -> num;       (* a * b *)
  div : num -> num -> num;       (* a / b *)
  ltb : num -> num -> bool;      (* a < b *)
  leb : num -> num -> bool;      (* a <= b *)
  eqb : num -> num -> bool;      (* a === b *)
  Math_round : num -> num        (* Math.round(a): nearest integer, ties upward *)
}.

(** a > b *)
Definition gtb {num} `{Number num} (a b : num) : bool := ltb b a.

(** Exact arithmetic: the rationals. *)
#[export] Instance ExactNum : Number Q := {
  lit q := q;
  add := Qplus;
  sub := Qminus;
  mul := Qmult;
  div := Qdiv;
  ltb a b := negb (Qle_bool b a);
  leb := Qle_bool;
  eqb := Qeq_bool;
  Math_round a := inject_Z (Qfloor (a + (1 # 2))%Q)
}.

Module Float64.

(** An integer as a double (exact below 2^53 in absolute value). *)
Definition of_Z (z : Z) : float :=
  match z with
  | Z0 => PrimFloat.zero
  | Zpos _ => PrimFloat.of_uint63 (Uint63.of_Z z)
  | Zneg p => PrimFloat.opp (PrimFloat.of_uint63 (Uint63.of_Z (Zpos p)))
  end.

(** A literal [n/d] of the source is the double nearest to it: the division
    of two exactly represented integers is correctly rounded. *)
Definition of_Q (q : Q) : float :=
  PrimFloat.div (of_Z (Qnum q)) (of_Z (Zpos (Qden q))).

(** [Math.round]: the integer nearest to [x], a tie going to the larger one;
    integers, zeros, infinities and NaN are returned as they are.  A finite
    [x] is [m * 2^e]; when [e < 0] the result is [floor (x + 1/2)], computed
    on the integers as [floor ((2m + 2^-e) / 2^(1-e))], and it is below 2^53. *)
Definition round (x : float) : float :=
  match Prim2SF x with
  | S754_finite s m e =>
      if (0 <=? e)%Z then x
      else
        let sm := if s then Zneg m else Zpos m in
        let n := ((2 * sm + 2 ^ (- e)) / 2 ^ (1 - e))%Z in
        if (n =? 0)%Z then (if s then PrimFloat.neg_zero else PrimFloat.zero)
        else of_Z n
  | _ => x
  end.

End Float64.

(** IEEE-754 binary64, as the JavaScript engine computes. *)
#[export] Instance FloatNum : Number float := {
  lit := Float64.of_Q;
  add := PrimFloat.add;
  sub := PrimFloat.sub;
  mul := PrimFloat.mul;
  div := PrimFloat.div;
  ltb := PrimFloat.ltb;
  leb := PrimFloat.leb;
  eqb := PrimFloat.eqb;
  Math_round := Float64.round
}.

(** ** Exceptions *)

(** A computation that returns [a] or throws an [Error] with a message. *)
Inductive Result (A : Type) : Type :=
| Ok (a : A)
| Err (message : string).
Arguments Ok {A} a.
Arguments Err {A} message.

Definition bind {A B} (r : Result A) (f : A -> Result B) : Result B :=
  match r with
  | Ok a => f a
  | Err e => Err e
  end.

Notation "x <- r ;; k" := (bind r (fun x => k))
  (at level 61, r at next level, right associativity).

(** ** Strings *)

Module JsString.

Definition dquote : ascii := ascii_of_nat 34.
Definition squote : ascii := ascii_of_nat 39.

(** s.startsWith(p) *)
Definition startsWith (s p : string) : bool := String.prefix p s.

(** s.includes(t) *)
Fixpoint includes (s t : string) : bool :=
  String.prefix t s ||
  match s with
  | EmptyString => false
  | String _ s' => includes s' t
  end.

Definition lowerChar (c : ascii) : ascii :=
  let n := nat_of_ascii c in
  if (65 <=? n)%nat && (n <=? 90)%nat then ascii_of_nat (n + 32) else c.

(** s.toLowerCase(), on the letters A-Z.  Letters outside ASCII are left as
    they are: the catalog's search terms are Hebrew (caseless) and ASCII. *)
Fixpoint toLowerCase (s : string) : string :=
  match s with
  | EmptyString => EmptyString
  | String c s' => String (lowerChar c) (toLowerCase s')
  end.

(** Equality of two texts up to the case of A-Z (the regex flag [i]). *)
Definition eqbI (a b : string) : bool := String.eqb (toLowerCase a) (toLowerCase b).

Fixpoint take (n : nat) (s : string) : string :=
  match n, s with
  | S n', String c s' => String c (take n' s')
  | _, _ => EmptyString
  end.

Fixpoint drop (n : nat) (s : string) : string :=
  match n, s with
  | S n', String _ s' => drop n' s'
  | _, _ => s
  end.

(** s.replace(/pat/g, rep) for a literal, non-empty [pat]: [skip] counts the
    characters of an occurrence still to be passed over. *)
Fixpoint replaceFrom (pat rep : string) (skip : nat) (s : string) : string :=
  match s with
  | EmptyString => EmptyString
  | String c s' =>
      match skip with
      | S n => replaceFrom pat rep n s'
      | O =>
          if String.prefix pat s
          then rep ++ replaceFrom pat rep (String.length pat - 1) s'
          else String c (replaceFrom pat rep 0 s')
      end
  end.

Definition replaceAll (pat rep s : string) : string := replaceFrom pat rep 0 s.

(** s.split(sep).pop(): the text after the last [sep] ([acc] is the segment
    being read). *)
Fixpoint lastSegmentFrom (sep : ascii) (acc s : string) : string :=
  match s with
  | EmptyString => acc
  | String c s' =>
      if Ascii.eqb c sep then lastSegmentFrom sep EmptyString s'
      else lastSegmentFrom sep (acc ++ String c EmptyString) s'
  end.

Definition lastSegment (sep : ascii) (s : string) : string :=
  lastSegmentFrom sep EmptyString s.

(** Whether a white-space character of the regex class [\s] starts at the
    head of [s]: tab, line feed, vertical tab, form feed, carriage return,
    space, and in UTF-8 U+00A0, U+1680, U+2000..U+200A, U+2028, U+2029,
    U+202F, U+205F, U+3000 and U+FEFF. *)
Definition startsWithSpace (s : string) : bool :=
  match s with
  | EmptyString => false
  | String c s' =>
      let b0 := nat_of_ascii c in
      let b1 := match s' with String d _ => nat_of_ascii d | _ => O end in
      let b2 := match s' with String _ (String d _) => nat_of_ascii d | _ => O end in
      ((9 <=? b0) && (b0 <=? 13) || (b0 =? 32) ||
       (b0 =? 194) && (b1 =? 160) ||
       (b0 =? 225) && (b1 =? 154) && (b2 =? 128) ||
       (b0 =? 226) && (b1 =? 128) &&
         ((128 <=? b2) && (b2 <=? 138) || (b2 =? 168) || (b2 =? 169) || (b2 =? 175)) ||
       (b0 =? 226) && (b1 =? 129) && (b2 =? 159) ||
       (b0 =? 227) && (b1 =? 128) && (b2 =? 128) ||
       (b0 =? 239) && (b1 =? 187) && (b2 =? 191))%nat
  end.

Definition headIs (c : ascii) (s : string) : bool :=
  match s with
  | String d _ => Ascii.eqb c d
  | EmptyString => false
  end.

End JsString.

(** ** Regular expressions *)

Module Regex.

(** The constructs the sources use.  [NotClass bad] is a negated character
    class: it takes one character unless [bad] holds of the text there. *)
Inductive regex : Type :=
| Lit (s : string)
| LitI (s : string)
| NotClass (bad : string -> bool)
| Seq (r1 r2 : regex)
| Alt (r1 r2 : regex)
| Star (r : regex)
| Group (r : regex).

(** r+ *)
Definition Plus (r : regex) : regex := Seq r (Star r).

Section Matcher.
Context {A : Type}.

(** Backtracking matcher in continuation style: [k] receives the text
    left and the capture group; alternatives are tried left to right and
    a star takes as many rounds as it can first (greedy).  A round of a
    star must take at least one character, so [length s] rounds are
    enough. *)
Fixpoint run (r : regex) (s : string) (cap : option string)
    (k : string -> option string -> option A) {struct r} : option A :=
  match r with
  | Lit p =>
      if String.prefix p s then k (JsString.drop (String.length p) s) cap else None
  | LitI p =>
      if JsString.eqbI p (JsString.take (String.length p) s)
      then k (JsString.drop (String.length p) s) cap else None
  | NotClass bad =>
      match s with
      | EmptyString => None
      | String _ s' => if bad s then None else k s' cap
      end
  | Seq r1 r2 => run r1 s cap (fun s1 c1 => run r2 s1 c1 k)
  | Alt r1 r2 =>
      match run r1 s cap k with
      | Some a => Some a
      | None => run r2 s cap k
      end
  | Star r1 =>
      (fix rounds (n : nat) (s : string) (cap : option string) : option A :=
         match n with
         | O => k s cap
         | S n' =>
             match run r1 s cap (fun s1 c1 =>
                     if (String.length s1 <? String.length s)%nat
                     then rounds n' s1 c1 else None) with
             | Some a => Some a
             | None => k s cap
             end
         end) (String.length s) s cap
  | Group r1 =>
      run r1 s cap (fun s1 _ =>
        k s1 (Some (JsString.take (String.length s - String.length s1) s)))
  end.
End Matcher.

(** A match of [r] at the head of [s]: the matched text and the capture. *)
Definition matchHere (r : regex) (s : string) : option (string * option string) :=
  run r s None (fun rest cap =>
    Some (JsString.take (String.length s - String.length rest) s, cap)).

(** s.match(r) with flag [g]: every match, left to right, the search
    resuming where the previous match ended. *)
Fixpoint matchAllFrom (r : regex) (skip : nat) (s : string) : list string :=
  match skip, s with
  | S n, String _ s' => matchAllFrom r n s'
  | _, EmptyString =>
      match matchHere r s with
      | Some (m, _) => [m]
      | None => []
      end
  | O, String _ s' =>
      match matchHere r s with
      | Some (m, _) => m :: matchAllFrom r (String.length m - 1) s'
      | None => matchAllFrom r 0 s'
      end
  end.

Definition matchAll (r : regex) (s : string) : list string := matchAllFrom r 0 s.

(** s.match(r) without flag [g]: the capture group of the leftmost match. *)
Fixpoint matchFirst (r : regex) (s : string) : option (option string) :=
  match matchHere r s with
  | Some (_, cap) => Some cap
  | None =>
      match s with
      | EmptyString => None
      | String _ s' => matchFirst r s'
      end
  end.

End Regex.

(** ** [Map]: string keys in insertion order *)

Module JsMap.

Definition t (V : Type) : Type := list (string * V).

Definition empty {V} : t V := [].

(** m.get(k) *)
Fixpoint get {V} (m : t V) (k : string) : option V :=
  match m with
  | [] => None
  | (k', v) :: m' => if String.eqb k' k then Some v else get m' k
  end.

(** m.set(k, v): a key already present keeps its place. *)
Fixpoint set {V} (m : t V) (k : string) (v : V) : t V :=
  match m with
  | [] => [(k, v)]
  | (k', v') :: m' =>
      if String.eqb k' k then (k', v) :: m' else (k', v') :: set m' k v
  end.

(** m.size *)
Definition size {V} (m : t V) : nat := List.length m.

(** Array.from(m.values()) *)
Definition values {V} (m : t V) : list V := List.map snd m.

End JsMap.

(** ** The records of [types.ts] and [productCatalog.ts] *)

Set Implicit Arguments.

Module StorePrice.
Record t (num : Type) : Type := mk {
  storeName : string;
  storeChain : string;
  price : num;
  priceUpdateDate : option string
}.
End StorePrice.

Module RawStoreItem.
Record t (num : Type) : Type := mk {
  itemCode : string;
  itemName : string;
  itemPrice : num;
  unitOfMeasure : string;
  quantity : num;
  unitOfMeasurePrice : option num;
  priceUpdateDate : option string
}.
End RawStoreItem.

Module CrawlerResult.
Record t (num : Type) : Type := mk {
  success : bool;
  storeName : string;
  items : list (RawStoreItem.t num);
  error : option string;
  fetchedAt : Z                      (* the instant, in milliseconds *)
}.
End CrawlerResult.

Module Product.
Record t (num : Type) : Type := mk {
  id : string;
  name : string;
  nameHebrew : string;
  category : string;
  unit : string;
  barcode : option string;
  averagePrice : num;
  lowPrice : num;
  highPrice : num;
  image : string;
  lastUpdated : option Z;            (* the instant, in milliseconds *)
  storePrices : option (list (StorePrice.t num))
}.
End Product.

Module CatalogProduct.
Record t : Type := mk {
  id : string;
  name : string;
  nameHebrew : string;
  category : string;
  unit : string;
  image : string;
  barcodes : list string;
  searchTerms : list string
}.
End CatalogProduct.

Unset Implicit Arguments.

(** [productCatalog] *)
Definition productCatalog : list CatalogProduct.t :=
  let dq := String JsString.dquote EmptyString in
  let mk := CatalogProduct.mk in
  [
    mk "1" "Tomatoes" "עגבניות" "ירקות"
       ("1 ק" ++ dq ++ "ג")%string "🍅"
       ["2000010000002"; "2000011000001"]
       ["עגבניות"; "עגבניה"; "tomato"];
    mk "2" "Cucumbers" "מלפפונים" "ירקות"
       ("1 ק" ++ dq ++ "ג")%string "🥒"
       ["2000020000001"]
       ["מלפפון"; "מלפפונים"; "cucumber"];
    mk "3" "Potatoes" "תפוחי אדמה" "ירקות"
       ("1 ק" ++ dq ++ "ג")%string "🥔"
       ["2000030000000"]
       ["תפוח אדמה"; "תפוחי אדמה"; "potato"];
    mk "4" "Onions" "בצל" "ירקות"
       ("1 ק" ++ dq ++ "ג")%string "🧅"
       ["2000040000009"]
       ["בצל"; "onion"];
    mk "5" "Carrots" "גזר" "ירקות"
       ("1 ק" ++ dq ++ "ג")%string "🥕"
       ["2000050000008"]
       ["גזר"; "carrot"];
    mk "6" "Bell Pepper" "פלפל" "ירקות"
       ("1 ק" ++ dq ++ "ג")%string "🫑"
       ["2000060000007"]
       ["פלפל"; "pepper"];
    mk "7" "Lettuce" "חסה" "ירקות"
       "יחידה" "🥬"
       ["2000070000006"]
       ["חסה"; "lettuce"];
    mk "8" "Apples" "תפוחים" "פירות"
       ("1 ק" ++ dq ++ "ג")%string "🍎"
       ["2000080000005"]
       ["תפוח"; "תפוחים"; "apple"];
    mk "9" "Bananas" "בננות" "פירות"
       ("1 ק" ++ dq ++ "ג")%string "🍌"
       ["2000090000004"]
       ["בננה"; "בננות"; "banana"];
    mk "10" "Oranges" "תפוזים" "פירות"
       ("1 ק" ++ dq ++ "ג")%string "🍊"
       ["2000100000003"]
       ["תפוז"; "תפוזים"; "orange"];
    mk "11" "Grapes" "ענבים" "פירות"
       ("1 ק" ++ dq ++ "ג")%string "🍇"
       ["2000110000002"]
       ["ענבים"; "ענב"; "grape"];
    mk "12" "Watermelon" "אבטיח" "פירות"
       ("1 ק" ++ dq ++ "ג")%string "🍉"
       ["2000120000001"]
       ["אבטיח"; "watermelon"];
    mk "13" "Milk 3%" "חלב 3%" "חלב וביצים"
       "1 ליטר" "🥛"
       ["7290000066318"; "7290000066325"; "7290102990017"]
       ["חלב"; "milk"; "3%"];
    mk "14" "Eggs" "ביצים" "חלב וביצים"
       "12 יחידות" "🥚"
       ["7290000129617"; "7290000129624"]
       ["ביצים"; "ביצה"; "eggs"; "תריסר"];
    mk "15" "Cottage Cheese" "קוטג'" "חלב וביצים"
       "250 גרם" "🧀"
       ["7290000051234"; "7290000051241"]
       ["קוטג"; "cottage"; "גבינה לבנה"];
    mk "16" "Yellow Cheese" "גבינה צהובה" "חלב וביצים"
       "200 גרם" "🧀"
       ["7290000078231"; "7290000078248"]
       ["גבינה צהובה"; "עמק"; "cheese"];
    mk "17" "Butter" "חמאה" "חלב וביצים"
       "200 גרם" "🧈"
       ["7290000045678"]
       ["חמאה"; "butter"];
    mk "18" "White Bread" "לחם לבן" "לחם ומאפים"
       "יחידה" "🍞"
       ["7290000123456"; "7290008700016"]
       ["לחם לבן"; "לחם"; "bread"; "אנג'ל"];
    mk "19" "Pita" "פיתה" "לחם ומאפים"
       "6 יחידות" "🫓"
       ["7290000234567"]
       ["פיתה"; "פיתות"; "pita"];
    mk "20" "Challah" "חלה" "לחם ומאפים"
       "יחידה" "🍞"
       ["7290000345678"]
       ["חלה"; "challah"];
    mk "21" "Chicken Breast" "חזה עוף" "בשר ועוף"
       ("1 ק" ++ dq ++ "ג")%string "🍗"
       ["2000210000005"]
       ["חזה עוף"; "עוף"; "chicken breast"];
    mk "22" "Ground Beef" "בשר טחון" "בשר ועוף"
       ("1 ק" ++ dq ++ "ג")%string "🥩"
       ["2000220000004"]
       ["בשר טחון"; "ground beef"; "בקר טחון"];
    mk "23" "Chicken Thighs" "ירכיים עוף" "בשר ועוף"
       ("1 ק" ++ dq ++ "ג")%string "🍗"
       ["2000230000003"]
       ["ירכיים"; "ירך עוף"; "chicken thigh"];
    mk "24" "Salmon Fillet" "פילה סלמון" "דגים"
       ("1 ק" ++ dq ++ "ג")%string "🐟"
       ["2000240000002"]
       ["סלמון"; "salmon"; "פילה"];
    mk "25" "Tilapia" "אמנון" "דגים"
       ("1 ק" ++ dq ++ "ג")%string "🐟"
       ["2000250000001"]
       ["אמנון"; "tilapia"; "דג"];
    mk "26" "Tuna Can" "טונה" "שימורים"
       "160 גרם" "🥫"
       ["7290000567890"; "7290000567891"]
       ["טונה"; "tuna"; "שימורים"];
    mk "27" "Corn Can" "תירס" "שימורים"
       "400 גרם" "🌽"
       ["7290000678901"]
       ["תירס"; "corn"; "שימורים"];
    mk "28" "Chickpeas" "חומוס" "שימורים"
       "400 גרם" "🥫"
       ["7290000789012"]
       ["חומוס"; "גרגירי חומוס"; "chickpeas"];
    mk "29" "Coca Cola" "קוקה קולה" "משקאות"
       "1.5 ליטר" "🥤"
       ["5000112611779"; "5449000000996"; "5449000214591"]
       ["קוקה קולה"; "קולה"; "coca cola"; "coke"];
    mk "30" "Orange Juice" "מיץ תפוזים" "משקאות"
       "1 ליטר" "🧃"
       ["7290000890123"; "7290000890124"]
       ["מיץ תפוזים"; "מיץ"; "orange juice"; "פריגת"];
    mk "31" "Mineral Water" "מים מינרלים" "משקאות"
       "1.5 ליטר" "💧"
       ["7290000901234"; "7290000901235"]
       ["מים"; "מינרלים"; "נביעות"; "water"];
    mk "32" "Bamba" "במבה" "חטיפים"
       "80 גרם" "🥜"
       ["7290000012346"; "7290000012353"]
       ["במבה"; "bamba"; "אוסם"];
    mk "33" "Bissli" "ביסלי" "חטיפים"
       "70 גרם" "🍿"
       ["7290000023456"; "7290000023463"]
       ["ביסלי"; "bissli"; "אוסם"];
    mk "34" "Dish Soap" "סבון כלים" "ניקיון"
       ("750 מ" ++ dq ++ "ל")%string "🧴"
       ["7290000345678"; "7290000345679"]
       ["סבון כלים"; "נוזל כלים"; "dish soap"; "פיירי"];
    mk "35" "Laundry Detergent" "אבקת כביסה" "ניקיון"
       ("3 ק" ++ dq ++ "ג")%string "🧺"
       ["7290000456789"; "7290000456790"]
       ["אבקת כביסה"; "כביסה"; "laundry"; "סנו"]
  ].

(** ** The network *)

(** What [fetch(url)] answers: it rejects (a network error), or there is a
    response with its [ok] flag, its status code and text, and a body whose
    reading ([response.text()]) can itself fail. *)
Inductive Fetched : Type :=
| Rejected (message : string)
| Responded (ok : bool) (status statusText : string) (text : Result string).

(** [page url] is the answer to fetching a listing page; [priceFile url] is
    the outcome of [downloadPriceFile(url)] followed by [parseXMLPrices]: the
    records of the file, or the error that the download throws (a network
    error, a status that is not ok, a payload that does not decompress). *)
Record World (num : Type) : Type := {
  page : string -> Fetched;
  priceFile : string -> Result (list (RawStoreItem.t num))
}.
Arguments page {num} w url.
Arguments priceFile {num} w url.

(** ** [crawlers/shufersal.ts] *)

Definition SHUFERSAL_URL : string := "https://prices.shufersal.co.il/".

(** The class of the characters that are neither a quote (double or single)
    nor white space. *)
Definition urlChar : Regex.regex :=
  Regex.NotClass (fun s =>
    JsString.headIs JsString.dquote s || JsString.headIs JsString.squote s
    || JsString.startsWithSpace s).

(** The regular expression of [fetchPriceFileUrls], flag g: the blob host,
    one or more [urlChar], the text .gz, any number of [urlChar]. *)
Definition urlRegex : Regex.regex :=
  Regex.Seq (Regex.Lit "https://pricesprodpublic.blob.core.windows.net/")
    (Regex.Seq (Regex.Plus urlChar)
       (Regex.Seq (Regex.Lit ".gz") (Regex.Star urlChar))).

(** Decode HTML entities in URLs: the three [replace] calls, in their order. *)
Definition decodeEntities (url : string) : string :=
  JsString.replaceAll "&gt;" ">"
    (JsString.replaceAll "&lt;" "<" (JsString.replaceAll "&amp;" "&" url)).

(** [...new Set(urls)]: each value once, at its first occurrence. *)
Fixpoint uniqueFrom (seen : list string) (urls : list string) : list string :=
  match urls with
  | [] => []
  | url :: rest =>
      if existsb (String.eqb url) seen then uniqueFrom seen rest
      else url :: uniqueFrom (url :: seen) rest
  end.

Definition unique (urls : list string) : list string := uniqueFrom [] urls.

Section Crawler.
Context {num : Type} `{Number num}.

Import RawStoreItem.

Definition fetchPriceFileUrls (w : World num) : Result (list string) :=
  match page w SHUFERSAL_URL with
  | Rejected message => Err message
  | Responded ok status statusText text =>
      if negb ok then Err ("Failed to fetch: " ++ status ++ " " ++ statusText)
      else
        html <- text ;;
        let matches := Regex.matchAll urlRegex html in
        let urls := List.map decodeEntities matches in
        let uniqueUrls := unique urls in
        Ok uniqueUrls
  end.

(** The download loop of [crawlShufersal]: a file that fails is skipped, a
    file without records adds nothing and is not counted. *)
Fixpoint processFiles (w : World num) (filesToProcess : list string)
    (items : list (RawStoreItem.t num)) (successCount : nat)
    : list (RawStoreItem.t num) * nat :=
  match filesToProcess with
  | [] => (items, successCount)
  | url :: rest =>
      match priceFile w url with
      | Ok parsed =>
          if (0 <? List.length parsed)%nat
          then processFiles w rest (items ++ parsed) (S successCount)
          else processFiles w rest items successCount
      | Err _ => processFiles w rest items successCount
      end
  end.

(** One round of the deduplication loop. *)
Definition dedupeStep (uniqueItems : JsMap.t (RawStoreItem.t num))
    (item : RawStoreItem.t num) : JsMap.t (RawStoreItem.t num) :=
  match JsMap.get uniqueItems (itemCode item) with
  | None => JsMap.set uniqueItems (itemCode item) item
  | Some existing =>
      if ltb (itemPrice item) (itemPrice existing)
      then JsMap.set uniqueItems (itemCode item) item
      else uniqueItems
  end.

(** Deduplicate by item code, keeping lowest price. *)
Definition dedupe (items : list (RawStoreItem.t num))
    : JsMap.t (RawStoreItem.t num) :=
  fold_left dedupeStep items JsMap.empty.

(** The second loop, which tracks the highest price of each code; the map
    it builds is local to [crawlShufersal] and not part of the result. *)
Definition highPrices (items : list (RawStoreItem.t num)) : JsMap.t num :=
  fold_left (fun hp item =>
    let current :=
      match JsMap.get hp (itemCode item) with
      | Some p => p
      | None => lit 0
      end in
    if gtb (itemPrice item) current
    then JsMap.set hp (itemCode item) (itemPrice item) else hp)
    items JsMap.empty.

(** [crawlShufersal], started at instant [now]. *)
Definition crawlShufersal (w : World num) (now : Z) : CrawlerResult.t num :=
  let result : CrawlerResult.t num :=
    CrawlerResult.mk false "Shufersal" [] None now in
  let attempt : Result (CrawlerResult.t num) :=
    urls <- fetchPriceFileUrls w ;;
    if (List.length urls =? 0)%nat then Err "No price files found"
    else
      let filesToProcess := firstn 5 urls in
      let '(collected, successCount) := processFiles w filesToProcess [] 0 in
      let uniqueItems := dedupe collected in
      let items := JsMap.values uniqueItems in
      Ok (CrawlerResult.mk
            ((0 <? successCount)%nat && (0 <? List.length items)%nat)
            (CrawlerResult.storeName result) items None
            (CrawlerResult.fetchedAt result))
  in
  match attempt with
  | Ok r => r
  | Err message =>
      CrawlerResult.mk (CrawlerResult.success result)
        (CrawlerResult.storeName result) (CrawlerResult.items result)
        (Some message) (CrawlerResult.fetchedAt result)
  end.

(** Search for items matching given terms (barcode or name). *)
Definition searchItems (items : list (RawStoreItem.t num))
    (searchTerms : list string) : list (RawStoreItem.t num) :=
  filter (fun item =>
    let itemNameLower := JsString.toLowerCase (itemName item) in
    existsb (fun term =>
      String.eqb (itemCode item) term
      || JsString.includes (itemCode item) term
      || JsString.includes itemNameLower (JsString.toLowerCase term))
      searchTerms)
    items.

End Crawler.

(** ** The earlier crawler: [fetchFileList]

    Its deduplication loop is the loop of [dedupe], word for word. *)

Module Legacy.

Definition SHUFERSAL_BASE_URL : string :=
  "http://prices.shufersal.co.il/FileObject/UpdateCategory".

Record ShufersalFileInfo : Type := {
  url : string;
  fileName : string;
  fileType : string
}.

(** The class of the characters other than the double quote. *)
Definition notQuote : Regex.regex :=
  Regex.NotClass (JsString.headIs JsString.dquote).

Definition hrefOpen : string := "href=" ++ String JsString.dquote EmptyString.

(** The regular expression of the link search, flags g and i: href= and a
    double quote, then the group (any [notQuote], PriceFull or Prices, any
    [notQuote], .gz), then a double quote. *)
Definition linkRegex : Regex.regex :=
  Regex.Seq (Regex.LitI hrefOpen)
    (Regex.Seq
       (Regex.Group
          (Regex.Seq (Regex.Star notQuote)
             (Regex.Seq (Regex.Alt (Regex.LitI "PriceFull") (Regex.LitI "Prices"))
                (Regex.Seq (Regex.Star notQuote) (Regex.LitI ".gz")))))
       (Regex.Lit (String JsString.dquote EmptyString))).

(** The regular expression that takes the link out of a match, flag i:
    href= and a double quote, the group (any [notQuote]), a double quote. *)
Definition hrefRegex : Regex.regex :=
  Regex.Seq (Regex.LitI hrefOpen)
    (Regex.Seq (Regex.Group (Regex.Star notQuote))
       (Regex.Lit (String JsString.dquote EmptyString))).

(** The body of the loop over [linkMatches]. *)
Fixpoint collect (linkMatches : list string) (files : list ShufersalFileInfo)
    : Result (list ShufersalFileInfo) :=
  match linkMatches with
  | [] => Ok files
  | m :: rest =>
      match Regex.matchFirst hrefRegex m with
      | None => collect rest files
      | Some None => Err "Cannot read properties of undefined"
      | Some (Some u) =>
          let u :=
            if JsString.startsWith u "http" then u
            else ("http://prices.shufersal.co.il"
                  ++ (if JsString.startsWith u "/" then "" else "/") ++ u)%string in
          collect rest
            (files ++ [ {| url := u;
                           fileName := JsString.lastSegment "/" u;
                           fileType := if JsString.includes u "PriceFull"
                                       then "full" else "prices" |} ])
      end
  end.

(** The [try] block of [fetchFileList]. *)
Definition fetchFileListTry {num} (w : World num) : Result (list ShufersalFileInfo) :=
  match page w SHUFERSAL_BASE_URL with
  | Rejected message => Err message
  | Responded ok status statusText text =>
      if negb ok then Err ("HTTP " ++ status ++ ": " ++ statusText)
      else
        html <- text ;;
        collect (Regex.matchAll linkRegex html) []
  end.

(** [fetchFileList]: whatever is thrown is caught and answered by []. *)
Definition fetchFileList {num} (w : World num) : list ShufersalFileInfo :=
  match fetchFileListTry w with
  | Ok files => files
  | Err _ => []
  end.

End Legacy.

(** ** [lib/priceService.ts] *)

Set Implicit Arguments.

(** The result of [calculatePriceStats]. *)
Module PriceStats.
Record t (num : Type) : Type := mk {
  averagePrice : num;
  lowPrice : num;
  highPrice : num
}.
End PriceStats.

(** An entry of the fallback table. *)
Module FallbackPrice.
Record t (num : Type) : Type := mk {
  average : num;
  low : num;
  high : num
}.
End FallbackPrice.

(** The module state: [priceCache] and [lastCrawlTime]. *)
Module CacheState.
Record t (num : Type) : Type := mk {
  priceCache : JsMap.t (list (StorePrice.t num));
  lastCrawlTime : option Z
}.
End CacheState.

Unset Implicit Arguments.

Inductive PriceRating : Type := great | good | average | high | expensive.

Definition CACHE_DURATION_MS : Z := 1000 * 60 * 60.

Section PriceService.
Context {num : Type} `{Number num}.

(** The price point pushed for a matching record. *)
Definition toStorePrice (m : RawStoreItem.t num) : StorePrice.t num :=
  StorePrice.mk "Shufersal" "Shufersal"
    (RawStoreItem.itemPrice m) (RawStoreItem.priceUpdateDate m).

(** The records whose code is one of the barcodes: for each barcode in
    turn, the records with that code in their order. *)
Definition barcodeMatches (barcodes : list string)
    (allItems : list (RawStoreItem.t num)) : list (StorePrice.t num) :=
  flat_map (fun barcode =>
    List.map toStorePrice
      (filter (fun item => String.eqb (RawStoreItem.itemCode item) barcode) allItems))
    barcodes.

(** Find matching prices for a catalog product. *)
Definition findPricesForProduct (product : CatalogProduct.t)
    (allItems : list (RawStoreItem.t num)) : list (StorePrice.t num) :=
  let prices := barcodeMatches (CatalogProduct.barcodes product) allItems in
  if (List.length prices =? 0)%nat then
    let matchedItems :=
      searchItems
        (List.map (fun i =>
           RawStoreItem.mk (RawStoreItem.itemCode i) (RawStoreItem.itemName i)
             (RawStoreItem.itemPrice i) "" (lit 1)
             (RawStoreItem.unitOfMeasurePrice i) (RawStoreItem.priceUpdateDate i))
           allItems)
        (CatalogProduct.searchTerms product) in
    prices ++ List.map toStorePrice (firstn 5 matchedItems)
  else prices.

(** Math.min(v, ...vs) and Math.max(v, ...vs) of numbers that are not NaN. *)
Definition Math_min (v : num) (vs : list num) : num :=
  fold_left (fun m x => if ltb x m then x else m) vs v.

Definition Math_max (v : num) (vs : list num) : num :=
  fold_left (fun m x => if ltb m x then x else m) vs v.

(** Math.round(x * 10) / 10 *)
Definition roundToTenth (x : num) : num :=
  div (Math_round (mul x (lit 10))) (lit 10).

Definition noStats : PriceStats.t num := PriceStats.mk (lit 0) (lit 0) (lit 0).

(** Calculate price statistics from a list of prices. *)
Definition calculatePriceStats (prices : list (StorePrice.t num)) : PriceStats.t num :=
  if (List.length prices =? 0)%nat then noStats
  else
    let priceValues :=
      filter (fun p => gtb p (lit 0)) (List.map (@StorePrice.price num) prices) in
    match priceValues with
    | [] => noStats
    | v :: vs =>
        let sum := fold_left add priceValues (lit 0) in
        let avg := div sum (lit (inject_Z (Z.of_nat (List.length priceValues)))) in
        let min := Math_min v vs in
        let max := Math_max v vs in
        PriceStats.mk (roundToTenth avg) (roundToTenth min) (roundToTenth max)
    end.

(** The table of [getFallbackPrice]. *)
Definition fallbackPrices : JsMap.t (FallbackPrice.t num) :=
  let e (a l h : Q) := FallbackPrice.mk (lit a) (lit l) (lit h) in
  [ ("1", e 8.9 5.9 14.9);    ("2", e 6.9 3.9 9.9);     ("3", e 5.5 3.5 8.9);
    ("4", e 4.9 2.9 7.9);     ("5", e 5.9 3.9 8.9);     ("6", e 12.9 7.9 19.9);
    ("7", e 6.9 4.9 9.9);     ("8", e 9.9 6.9 14.9);    ("9", e 7.9 5.9 11.9);
    ("10", e 6.9 4.9 9.9);    ("11", e 19.9 12.9 29.9); ("12", e 4.9 2.9 7.9);
    ("13", e 6.9 5.9 7.9);    ("14", e 23.9 19.9 29.9); ("15", e 7.9 5.9 9.9);
    ("16", e 18.9 14.9 24.9); ("17", e 12.9 9.9 16.9);  ("18", e 8.9 6.9 12.9);
    ("19", e 7.9 5.9 10.9);   ("20", e 14.9 10.9 19.9); ("21", e 39.9 29.9 49.9);
    ("22", e 54.9 44.9 69.9); ("23", e 29.9 22.9 39.9); ("24", e 89.9 69.9 119.9);
    ("25", e 44.9 34.9 54.9); ("26", e 9.9 6.9 14.9);   ("27", e 7.9 4.9 10.9);
    ("28", e 6.9 4.9 9.9);    ("29", e 8.9 5.9 11.9);   ("30", e 12.9 9.9 16.9);
    ("31", e 4.9 2.9 6.9);    ("32", e 6.9 4.9 8.9);    ("33", e 6.9 4.9 8.9);
    ("34", e 14.9 9.9 19.9);  ("35", e 39.9 29.9 54.9) ].

(** Fallback prices when crawling fails. *)
Definition getFallbackPrice (productId : string) : FallbackPrice.t num :=
  match JsMap.get fallbackPrices productId with
  | Some prices => prices
  | None => FallbackPrice.mk (lit 10) (lit 5) (lit 15)
  end.

(** Get products with fallback prices (no crawling). *)
Definition getFallbackProducts : list (Product.t num) :=
  List.map (fun catalogProduct =>
    let prices := getFallbackPrice (CatalogProduct.id catalogProduct) in
    Product.mk
      (CatalogProduct.id catalogProduct)
      (CatalogProduct.name catalogProduct)
      (CatalogProduct.nameHebrew catalogProduct)
      (CatalogProduct.category catalogProduct)
      (CatalogProduct.unit catalogProduct)
      (hd_error (CatalogProduct.barcodes catalogProduct))
      (FallbackPrice.average prices)
      (FallbackPrice.low prices)
      (FallbackPrice.high prices)
      (CatalogProduct.image catalogProduct)
      None None)
    productCatalog.

(** Build Product array from cached prices. *)
Definition buildProductsFromCache (st : CacheState.t num) : list (Product.t num) :=
  List.map (fun catalogProduct =>
    let storePrices :=
      match JsMap.get (CacheState.priceCache st) (CatalogProduct.id catalogProduct) with
      | Some l => l
      | None => []
      end in
    let stats := calculatePriceStats storePrices in
    let hasRealData :=
      (0 <? List.length storePrices)%nat && gtb (PriceStats.averagePrice stats) (lit 0) in
    let fallback := getFallbackPrice (CatalogProduct.id catalogProduct) in
    Product.mk
      (CatalogProduct.id catalogProduct)
      (CatalogProduct.name catalogProduct)
      (CatalogProduct.nameHebrew catalogProduct)
      (CatalogProduct.category catalogProduct)
      (CatalogProduct.unit catalogProduct)
      (hd_error (CatalogProduct.barcodes catalogProduct))
      (if hasRealData then PriceStats.averagePrice stats else FallbackPrice.average fallback)
      (if hasRealData then PriceStats.lowPrice stats else FallbackPrice.low fallback)
      (if hasRealData then PriceStats.highPrice stats else FallbackPrice.high fallback)
      (CatalogProduct.image catalogProduct)
      (CacheState.lastCrawlTime st)
      (if hasRealData then Some storePrices else None))
    productCatalog.

(** The cache check at the head of [fetchAllPrices], read at instant [now]. *)
Definition cacheIsFresh (now : Z) (st : CacheState.t num) : bool :=
  match CacheState.lastCrawlTime st with
  | Some t =>
      (now - t <? CACHE_DURATION_MS)%Z && (0 <? JsMap.size (CacheState.priceCache st))%nat
  | None => false
  end.

(** The cache after [priceCache.clear()] and one [set] per catalog product. *)
Definition matchCatalog (items : list (RawStoreItem.t num))
    : JsMap.t (list (StorePrice.t num)) :=
  fold_left (fun cache catalogProduct =>
    JsMap.set cache (CatalogProduct.id catalogProduct)
      (findPricesForProduct catalogProduct items))
    productCatalog JsMap.empty.

(** [fetchAllPrices] from the point where [crawlShufersal] has answered
    [shufersalResult]; [finished] is the instant of [new Date()]. *)
Definition afterCrawl (shufersalResult : CrawlerResult.t num) (finished : Z)
    (st : CacheState.t num) : list (Product.t num) * CacheState.t num :=
  if negb (CrawlerResult.success shufersalResult) then (getFallbackProducts, st)
  else
    let st' := CacheState.mk (matchCatalog (CrawlerResult.items shufersalResult))
                 (Some finished) in
    (buildProductsFromCache st', st').

(** Fetch and process all prices: the products returned and the module
    state left behind. *)
Definition fetchAllPrices (w : World num) (now finished : Z)
    (st : CacheState.t num) : list (Product.t num) * CacheState.t num :=
  if cacheIsFresh now st then (buildProductsFromCache st, st)
  else afterCrawl (crawlShufersal w now) finished st.

(** Get price rating for a given price. *)
Definition getPriceRating (price : num) (product : Product.t num) : PriceRating :=
  let range := sub (Product.highPrice product) (Product.lowPrice product) in
  if eqb range (lit 0) then average
  else
    let position := div (sub price (Product.lowPrice product)) range in
    if leb position (lit 0.1) then great
    else if leb position (lit 0.35) then good
    else if leb position (lit 0.65) then average
    else if leb position (lit 0.85) then high
    else expensive.

End PriceService.

(** ** The GET handler of /api/products *)

Module Route.

(** The JSON body of the response. *)
Record ApiResponse (num : Type) : Type := {
  success : bool;
  products : list (Product.t num);
  source : string;
  error : option string;
  timestamp : Z
}.
Arguments success {num} a.
Arguments products {num} a.
Arguments source {num} a.
Arguments error {num} a.
Arguments timestamp {num} a.

Section Handler.
Context {num : Type} `{Number num}.

(** [GET]: [fallback] is [searchParams.get] of that name, [now] the
    instant of the cache check, [finished] the instant the crawl ends and
    [responded] the instant of the response.  The [try] block is the
    [Result]; nothing in it throws, and the [catch] branch is kept as the
    source has it. *)
Definition GET (fallback : option string) (w : World num)
    (now finished responded : Z) (st : CacheState.t num)
    : ApiResponse num * CacheState.t num :=
  let skipCrawl :=
    match fallback with
    | Some v => String.eqb v "true"
    | None => false
    end in
  let attempt : Result (list (Product.t num) * CacheState.t num) :=
    if skipCrawl then Ok (getFallbackProducts, st)
    else Ok (fetchAllPrices w now finished st) in
  match attempt with
  | Ok (products, st') =>
      ({| success := true;
          products := products;
          source := if skipCrawl then "fallback" else "crawled";
          error := None;
          timestamp := responded |}, st')
  | Err message =>
      ({| success := true;
          products := getFallbackProducts;
          source := "fallback";
          error := Some message;
          timestamp := responded |}, st)
  end.
End Handler.

End Route.

(** ** Calls of [fetchAllPrices] in flight together

    An async function runs without interruption up to its first [await] and
    again from the answer of the awaited promise to its end.  [fetchAllPrices]
    has one [await], on [crawlShufersal()]: a call either returns from the
    cache at once, or starts a crawl and is suspended until the crawl answers,
    when the rest of its body runs on the module state as it is then. *)

Module EventLoop.

(** The module state, the crawls in flight (each with the answer it will
    give) and the number of crawls started so far. *)
Record Server (num : Type) : Type := {
  state : CacheState.t num;
  inFlight : list (CrawlerResult.t num);
  crawlsStarted : nat
}.
Arguments state {num} s.
Arguments inFlight {num} s.
Arguments crawlsStarted {num} s.

Inductive Event (num : Type) : Type :=
| Call (w : World num) (now : Z)      (* fetchAllPrices() is called *)
| Answer (i : nat) (finished : Z).    (* the i-th crawl in flight answers *)
Arguments Call {num} w now.
Arguments Answer {num} i finished.

Section Steps.
Context {num : Type} `{Number num}.

Fixpoint removeAt {A} (i : nat) (l : list A) : list A :=
  match i, l with
  | _, [] => []
  | O, _ :: l' => l'
  | S i', x :: l' => x :: removeAt i' l'
  end.

Definition step (s : Server num) (e : Event num) : Server num :=
  match e with
  | Call w now =>
      if cacheIsFresh now (state s) then s
      else {| state := state s;
              inFlight := inFlight s ++ [crawlShufersal w now];
              crawlsStarted := S (crawlsStarted s) |}
  | Answer i finished =>
      match nth_error (inFlight s) i with
      | None => s
      | Some shufersalResult =>
          {| state := snd (afterCrawl shufersalResult finished (state s));
             inFlight := removeAt i (inFlight s);
             crawlsStarted := crawlsStarted s |}
      end
  end.

Definition run (events : list (Event num)) (s : Server num) : Server num :=
  fold_left step events s.

(** The server at process start. *)
Definition boot : Server num :=
  {| state := CacheState.mk JsMap.empty None;
     inFlight := [];
     crawlsStarted := 0 |}.
End Steps.

End EventLoop.

(** ** Inputs used in the statements below *)

(** A product whose range is [low .. high]. *)
Definition productWithRange {num : Type} `{Number num} (low high : Q) : Product.t num :=
  Product.mk "1" "Tomatoes" "" "" "" None
    (lit ((low + high) / 2)%Q) (lit low) (lit high) "" None None.

(** [rate price product] of the specification, on a product of range
    [low .. high]. *)
Definition rate {num : Type} `{Number num} (price low high : Q) : PriceRating :=
  getPriceRating (lit price) (productWithRange low high).

(** A price point as the matcher builds it. *)
Definition pricePoint {num : Type} `{Number num} (p : Q) : StorePrice.t num :=
  StorePrice.mk "Shufersal" "Shufersal" (lit p) None.

(** ** Deduplication, key by key *)

Section Representative.
Context {num : Type} `{Number num}.

(** What the deduplication loop does to the entry of the one code [k]: a
    record with another code leaves it alone, the first record with code [k]
    is kept, a later one replaces the kept record when its price is lower. *)
Definition keep (k : string) (kept : option (RawStoreItem.t num))
    (item : RawStoreItem.t num) : option (RawStoreItem.t num) :=
  if String.eqb (RawStoreItem.itemCode item) k then
    match kept with
    | None => Some item
    | Some existing =>
        if ltb (RawStoreItem.itemPrice item) (RawStoreItem.itemPrice existing)
        then Some item else kept
    end
  else kept.

Definition representative (k : string) (items : list (RawStoreItem.t num))
    : option (RawStoreItem.t num) :=
  fold_left (keep k) items None.

(** The claim of order independence: a permutation of the records leaves the
    mapping from code to representative record as it is. *)
Definition dedupe_order_independent : Prop :=
  forall (l l' : list (RawStoreItem.t num)) (k : string),
    Permutation l l' -> JsMap.get (dedupe l) k = JsMap.get (dedupe l') k.

(** A record of the milk barcode. *)
Definition milk (name : string) (p : Q) : RawStoreItem.t num :=
  RawStoreItem.mk "7290000066318" name (lit p) "" (lit 1) None None.

End Representative.

(** No two different records of one code have equal prices. *)
Definition NoTies (l : list (RawStoreItem.t Q)) : Prop :=
  forall x y, In x l -> In y l ->
    RawStoreItem.itemCode x = RawStoreItem.itemCode y ->
    (RawStoreItem.itemPrice x == RawStoreItem.itemPrice y)%Q -> x = y.

(** ** Matching *)

(** The catalog product [product] with other search terms. *)
Definition withSearchTerms (product : CatalogProduct.t) (terms : list string)
    : CatalogProduct.t :=
  CatalogProduct.mk
    (CatalogProduct.id product) (CatalogProduct.name product)
    (CatalogProduct.nameHebrew product) (CatalogProduct.category product)
    (CatalogProduct.unit product) (CatalogProduct.image product)
    (CatalogProduct.barcodes product) terms.

(** Whether the code of [item] is one of [barcodes]. *)
Definition hasBarcode {num : Type} (barcodes : list string)
    (item : RawStoreItem.t num) : bool :=
  existsb (String.eqb (RawStoreItem.itemCode item)) barcodes.

(** Whether the strings of a list are pairwise different. *)
Fixpoint distinct (l : list string) : bool :=
  match l with
  | [] => true
  | x :: rest => negb (existsb (String.eqb x) rest) && distinct rest
  end.

(** The fuzzy tier of the matcher: the first five records found by
    [searchItems], as price points. *)
Definition fuzzyMatches {num : Type} `{Number num} (searchTerms : list string)
    (allItems : list (RawStoreItem.t num)) : list (StorePrice.t num) :=
  List.map toStorePrice
    (firstn 5
       (searchItems
          (List.map (fun i =>
             RawStoreItem.mk (RawStoreItem.itemCode i) (RawStoreItem.itemName i)
               (RawStoreItem.itemPrice i) "" (lit 1)
               (RawStoreItem.unitOfMeasurePrice i) (RawStoreItem.priceUpdateDate i))
             allItems)
          searchTerms)).

(** A record with a code, a name and a price. *)
Definition record {num : Type} `{Number num} (code name : string) (p : Q)
    : RawStoreItem.t num :=
  RawStoreItem.mk code name (lit p) "" (lit 1) None None.

(** ** Worlds and states *)

Section Samples.
Context {num : Type} `{Number num}.

(** The module state at process start. *)
Definition emptyState : CacheState.t num := CacheState.mk JsMap.empty None.

(** A listing page that answers 200 with [html]; every file download fails. *)
Definition listingWorld (html : string) : World num :=
  {| page := fun _ => Responded true "200" "OK" (Ok html);
     priceFile := fun _ => Err "Download failed: 404" |}.

(** A listing page that answers with a status that is not ok. *)
Definition unavailableWorld : World num :=
  {| page := fun _ => Responded false "503" "Service Unavailable" (Ok "");
     priceFile := fun _ => Err "Download failed: 503" |}.

(** No network at all. *)
Definition offlineWorld : World num :=
  {| page := fun _ => Rejected "fetch failed";
     priceFile := fun _ => Err "fetch failed" |}.

(** One file on the listing page, holding [records]. *)
Definition oneFileWorld (records : list (RawStoreItem.t num)) : World num :=
  {| page := fun _ =>
       Responded true "200" "OK"
         (Ok "https://pricesprodpublic.blob.core.windows.net/price/Price7290027600007-001-202401010300.gz?sv=1");
     priceFile := fun _ => Ok records |}.

(** A state left by a crawl that succeeded at instant 0 and found one price
    for milk. *)
Definition milkState : CacheState.t num :=
  CacheState.mk (matchCatalog [record "7290000066318" "Milk 3%" 6.9]) (Some 0%Z).

(** Whether the listing fetch of [url] fails: the fetch rejects, the status
    is not ok, or the body cannot be read. *)
Definition listingFails (w : World num) (url : string) : Prop :=
  match page w url with
  | Rejected _ => True
  | Responded ok _ _ text =>
      ok = false \/ exists message, text = Err message
  end.

(** The claim of single-flight refresh: of two calls made one after the
    other, with no answer in between, on a cache that is not fresh, only the
    first starts a crawl. *)
Definition single_flight : Prop :=
  forall (s : EventLoop.Server num) (w1 w2 : World num) (now1 now2 : Z),
    cacheIsFresh now1 (EventLoop.state s) = false ->
    EventLoop.inFlight s = [] ->
    EventLoop.crawlsStarted
      (EventLoop.run [EventLoop.Call w1 now1; EventLoop.Call w2 now2] s)
    = S (EventLoop.crawlsStarted s).

(** The claim that the locator fails softly: a failing listing fetch makes
    it return no URLs. *)
Definition locator_fails_softly : Prop :=
  forall w : World num,
    listingFails w SHUFERSAL_URL -> fetchPriceFileUrls w = Ok [].



End Samples.

(** A listing page with a full-catalog file and an incremental file of the
    same store. *)
Definition fullAndIncrementalHtml : string :=
  "<a href='https://pricesprodpublic.blob.core.windows.net/pricefull/PriceFull7290027600007-001-202401010300.gz?sv=1&amp;sig=a'>full</a>
<a href='https://pricesprodpublic.blob.core.windows.net/price/Price7290027600007-001-202401011200.gz?sv=1&amp;sig=b'>update</a>
<a href='https://pricesprodpublic.blob.core.windows.net/price/Price7290027600007-001-202401011200.gz?sv=1&amp;sig=b'>update</a>".


(** ** Aggregation, as the specification words it *)

(** The nearest integer, a tie going away from zero. *)
Definition roundHalfAwayFromZero (x : Q) : Z :=
  (Z.sgn (Qnum x) * Qfloor (Qabs x + (1 # 2)))%Z.

(** Rounded to one decimal place. *)
Definition roundToOneDecimal (x : Q) : Q :=
  (inject_Z (roundHalfAwayFromZero (x * 10)) / 10)%Q.

(** Arithmetic mean, minimum and maximum of [v :: vs]. *)
Definition mean (v : Q) (vs : list Q) : Q :=
  (fold_right Qplus 0 (v :: vs) / inject_Z (Z.of_nat (List.length (v :: vs))))%Q.

Definition minimum (v : Q) (vs : list Q) : Q := fold_right Qmin v vs.

Definition maximum (v : Q) (vs : list Q) : Q := fold_right Qmax v vs.

(** [summarize]: filter to the strictly positive prices; none gives the
    all-zero summary, otherwise mean, minimum and maximum, each rounded to
    one decimal place. *)
Definition summarize (prices : list (StorePrice.t Q)) : PriceStats.t Q :=
  match filter (fun p => if Qlt_le_dec 0 p then true else false)
               (List.map (@StorePrice.price Q) prices) with
  | [] => PriceStats.mk 0 0 0
  | v :: vs =>
      PriceStats.mk (roundToOneDecimal (mean v vs))
        (roundToOneDecimal (minimum v vs)) (roundToOneDecimal (maximum v vs))
  end.

(** Two summaries with equal numbers. *)
Definition sameStats (a b : PriceStats.t Q) : Prop :=
  (PriceStats.averagePrice a == PriceStats.averagePrice b)%Q /\
  (PriceStats.lowPrice a == PriceStats.lowPrice b)%Q /\
  (PriceStats.highPrice a == PriceStats.highPrice b)%Q.

(** The invariant of a summary: low <= average <= high. *)
Definition ordered {num : Type} `{Number num} (s : PriceStats.t num) : bool :=
  leb (PriceStats.lowPrice s) (PriceStats.averagePrice s)
  && leb (PriceStats.averagePrice s) (PriceStats.highPrice s).

Definition orderedFallback {num : Type} `{Number num} (p : FallbackPrice.t num) : bool :=
  leb (FallbackPrice.low p) (FallbackPrice.average p)
  && leb (FallbackPrice.average p) (FallbackPrice.high p).

(** The positive prices of a list of price points, as [calculatePriceStats]
    filters them. *)
Definition positivePrices {num : Type} `{Number num}
    (prices : list (StorePrice.t num)) : list num :=
  filter (fun p => gtb p (lit 0)) (List.map (@StorePrice.price num) prices).

(** Three tomato products of one file, each at 5.85; none carries a catalog
    barcode, all are found by the search term tomato. *)
Definition threeTomatoes {num : Type} `{Number num} : list (RawStoreItem.t num) :=
  [ record "7290000000111" "Tomato cherry" 5.85;
    record "7290000000112" "Tomatoes 1kg" 5.85;
    record "7290000000113" "TOMATO vine" 5.85 ].

(** The catalog entry of milk (id 13) and a shelf with one record carrying
    one of its barcodes and another that only its search terms find. *)
Definition milkProduct : CatalogProduct.t :=
  nth 12 productCatalog (CatalogProduct.mk "" "" "" "" "" "" [] []).

Definition milkShelf {num : Type} `{Number num} : list (RawStoreItem.t num) :=
  [ record "7290000099999" "Chocolate milk" 9.9;
    record "7290000066318" "Milk 3% carton" 6.9 ].

(** * More of the sources *)

(** ** Text helpers *)

Module JsText.

(** The number of bytes of the white-space character at the head of [s], 0
    when there is none. *)
Definition spaceWidth (s : string) : nat :=
  if JsString.startsWithSpace s then
    match s with
    | String c _ =>
        let b0 := nat_of_ascii c in
        if (b0 <? 128)%nat then 1%nat else if (b0 =? 194)%nat then 2%nat else 3%nat
    | EmptyString => 0%nat
    end
  else 0%nat.

(** s.trimStart(): [skip] counts the bytes of a white-space character still
    to be passed over. *)
Fixpoint trimStartFrom (skip : nat) (s : string) : string :=
  match s with
  | EmptyString => EmptyString
  | String _ s' =>
      match skip with
      | S n => trimStartFrom n s'
      | O =>
          if JsString.startsWithSpace s
          then trimStartFrom (spaceWidth s - 1) s' else s
      end
  end.

Definition trimStart (s : string) : string := trimStartFrom 0 s.

(** Whether [s] is white space only. *)
Fixpoint allSpaceFrom (skip : nat) (s : string) : bool :=
  match s with
  | EmptyString => true
  | String _ s' =>
      match skip with
      | S n => allSpaceFrom n s'
      | O =>
          if JsString.startsWithSpace s
          then allSpaceFrom (spaceWidth s - 1) s' else false
      end
  end.

Definition allSpace (s : string) : bool := allSpaceFrom 0 s.

(** s.trimEnd() *)
Fixpoint trimEnd (s : string) : string :=
  match s with
  | EmptyString => EmptyString
  | String c s' => if allSpace s then EmptyString else String c (trimEnd s')
  end.

(** s.trim() *)
Definition trim (s : string) : string := trimEnd (trimStart s).

(** a || b on strings: the empty string is falsy. *)
Definition orElse (a b : string) : string :=
  match a with
  | EmptyString => b
  | _ => a
  end.

(** Whether [p] occurs in [s], up to the case of A-Z. *)
Fixpoint includesI (s p : string) : bool :=
  JsString.eqbI p (JsString.take (String.length p) s) ||
  match s with
  | EmptyString => false
  | String _ s' => includesI s' p
  end.

Definition digitOf (c : ascii) : option Z :=
  let n := nat_of_ascii c in
  if (48 <=? n)%nat && (n <=? 57)%nat then Some (Z.of_nat (n - 48)) else None.

(** The digits at the head of [s]: their value after [acc], how many there
    are after [count], and the text left. *)
Fixpoint readDigits (s : string) (acc : Z) (count : nat) : Z * nat * string :=
  match s with
  | EmptyString => (acc, count, s)
  | String c s' =>
      match digitOf c with
      | Some d => readDigits s' (10 * acc + d) (S count)
      | None => (acc, count, s)
      end
  end.

Definition readSign (s : string) : bool * string :=
  match s with
  | String c s' =>
      if Ascii.eqb c "-" then (true, s')
      else if Ascii.eqb c "+" then (false, s') else (false, s)
  | EmptyString => (false, s)
  end.

(** 10^e *)
Definition tenTo (e : Z) : Q :=
  match e with
  | Zneg p => (1 / inject_Z (10 ^ Zpos p))%Q
  | _ => inject_Z (10 ^ e)
  end.

(** parseFloat on decimal text: leading white space, a sign, digits with an
    optional fraction, an optional exponent; what follows is ignored; [None]
    is NaN.  The text Infinity, whose value is no rational, is not covered. *)
Definition parseDecimal (s : string) : option Q :=
  let '(negative, s1) := readSign (trimStart s) in
  let '(whole, nWhole, s2) := readDigits s1 0 0 in
  let '(fraction, nFraction, s3) :=
    match s2 with
    | String c r => if Ascii.eqb c "." then readDigits r 0 0 else (0%Z, 0%nat, s2)
    | EmptyString => (0%Z, 0%nat, s2)
    end in
  if (nWhole + nFraction =? 0)%nat then None
  else
    let exponent :=
      match s3 with
      | String c r =>
          if Ascii.eqb c "e" || Ascii.eqb c "E" then
            let '(expNegative, r1) := readSign r in
            let '(e, nExp, _) := readDigits r1 0 0 in
            if (nExp =? 0)%nat then 0%Z else if expNegative then (- e)%Z else e
          else 0%Z
      | EmptyString => 0%Z
      end in
    let mantissa :=
      (inject_Z (whole * 10 ^ Z.of_nat nFraction + fraction)
       / inject_Z (10 ^ Z.of_nat nFraction))%Q in
    let value := (mantissa * tenTo exponent)%Q in
    Some (Qred (if negative then - value else value)%Q).

End JsText.

(** ** [parseXMLPrices] *)

Section Parser.
Context {num : Type} `{Number num}.

(** [parseFloat] of the engine; [None] is NaN. *)
Variable parseFloat : string -> option num.

(** Whether the closing tag of an item starts at the head of [s]. *)
Definition closesItem (s : string) : bool :=
  JsString.eqbI "</Item>" (JsString.take 7 s).

(** The regular expression of the item blocks, flags g and i: the opening
    tag, the shortest text, the closing tag.  The lazy star followed by the
    closing tag ends at the first closing tag, which is where a greedy star
    over the characters at which no closing tag starts ends. *)
Definition itemRegex : Regex.regex :=
  Regex.Seq (Regex.LitI "<Item>")
    (Regex.Seq (Regex.Star (Regex.NotClass closesItem)) (Regex.LitI "</Item>")).

(** The regular expression of [getTagValue], flag i: the opening tag, the
    group of the characters up to the next angle bracket, the closing tag. *)
Definition tagRegex (tag : string) : Regex.regex :=
  Regex.Seq (Regex.LitI ("<" ++ tag ++ ">"))
    (Regex.Seq (Regex.Group (Regex.Star (Regex.NotClass (JsString.headIs "<"))))
       (Regex.LitI ("</" ++ tag ++ ">"))).

Definition getTagValue (itemXml tag : string) : string :=
  match Regex.matchFirst (tagRegex tag) itemXml with
  | Some (Some text) => JsText.trim text
  | _ => EmptyString
  end.

(** x || d on numbers: 0, -0 and NaN are falsy. *)
Definition orNumber (x : option num) (d : num) : num :=
  match x with
  | None => d
  | Some v => if eqb v (lit 0) || negb (eqb v v) then d else v
  end.

(** The body of the loop over the item blocks: the record pushed, if any.  A
    unit price that is NaN is recorded as absent; the field is never read. *)
Definition parseItem (itemXml : string) : option (RawStoreItem.t num) :=
  let itemCode := getTagValue itemXml "ItemCode" in
  let itemName := getTagValue itemXml "ItemName" in
  let priceStr := getTagValue itemXml "ItemPrice" in
  let unitOfMeasure :=
    JsText.orElse (getTagValue itemXml "UnitOfMeasure") (getTagValue itemXml "Quantity") in
  let quantityStr := JsText.orElse (getTagValue itemXml "Quantity") "1" in
  let unitPriceStr := getTagValue itemXml "UnitOfMeasurePrice" in
  let priceUpdateDate := getTagValue itemXml "PriceUpdateDate" in
  let itemPrice := orNumber (parseFloat priceStr) (lit 0) in
  let quantity := orNumber (parseFloat quantityStr) (lit 1) in
  let unitOfMeasurePrice :=
    match unitPriceStr with
    | EmptyString => None
    | _ => parseFloat unitPriceStr
    end in
  if negb (String.eqb itemCode "") && gtb itemPrice (lit 0)
  then Some (RawStoreItem.mk itemCode itemName itemPrice unitOfMeasure quantity
               unitOfMeasurePrice (Some priceUpdateDate))
  else None.

(** Parse XML price data from Shufersal. *)
Definition parseXMLPrices (xmlContent : string) : list (RawStoreItem.t num) :=
  flat_map (fun itemXml =>
    match parseItem itemXml with
    | Some item => [item]
    | None => []
    end)
    (Regex.matchAll itemRegex xmlContent).

(** A world whose files are parsed by [parseXMLPrices]: [download url] is the
    outcome of [downloadPriceFile(url)]. *)
Definition parsedWorld (pages : string -> Fetched)
    (download : string -> Result string) : World num :=
  {| page := pages;
     priceFile := fun url => xmlContent <- download url ;; Ok (parseXMLPrices xmlContent) |}.

End Parser.

(** ** The earlier crawler: [crawlShufersal] and [searchItems] *)

Module LegacyCrawl.

Definition directUrls : list string :=
  [ "http://prices.shufersal.co.il/FileObject/UpdateCategory?catID=2&storeId=1&sort=Time&sortdir=DESC" ].

(** The regular expression of the download links, flag g: http, any number
    of [urlChar], the text .gz. *)
Definition gzRegex : Regex.regex :=
  Regex.Seq (Regex.Lit "http") (Regex.Seq (Regex.Star urlChar) (Regex.Lit ".gz")).

Section Crawl.
Context {num : Type} `{Number num}.

(** The files found by direct access: for each direct URL, the first three
    links of the page; a fetch that rejects or a body that cannot be read is
    passed over, and the status is not looked at. *)
Definition directFiles (w : World num) : list Legacy.ShufersalFileInfo :=
  flat_map (fun u =>
    match page w u with
    | Responded _ _ _ (Ok html) =>
        List.map (fun link =>
          {| Legacy.url := link;
             Legacy.fileName := JsString.lastSegment "/" link;
             Legacy.fileType := "prices" |})
          (firstn 3 (Regex.matchAll gzRegex html))
    | _ => []
    end)
    directUrls.

(** The download loop: the records of every file that downloads. *)
Fixpoint processFiles (w : World num) (filesToProcess : list Legacy.ShufersalFileInfo)
    (items : list (RawStoreItem.t num)) : list (RawStoreItem.t num) :=
  match filesToProcess with
  | [] => items
  | file :: rest =>
      match priceFile w (Legacy.url file) with
      | Ok parsed => processFiles w rest (items ++ parsed)
      | Err _ => processFiles w rest items
      end
  end.

(** [crawlShufersal] of the earlier crawler, started at instant [now]. *)
Definition crawlShufersal (w : World num) (now : Z) : CrawlerResult.t num :=
  let listed := Legacy.fetchFileList w in
  let files :=
    if (List.length listed =? 0)%nat then listed ++ directFiles w else listed in
  let filesToProcess := firstn 3 files in
  let collected := processFiles w filesToProcess [] in
  let items := JsMap.values (dedupe collected) in
  CrawlerResult.mk (0 <? List.length items)%nat "Shufersal" items None now.

(** [searchItems] of the earlier crawler: the loop that pushes the matches. *)
Definition searchItems (items : list (RawStoreItem.t num))
    (searchTerms : list string) : list (RawStoreItem.t num) :=
  fold_left (fun results item =>
    let itemNameLower := JsString.toLowerCase (RawStoreItem.itemName item) in
    let matches :=
      existsb (fun term =>
        String.eqb (RawStoreItem.itemCode item) term
        || JsString.includes (RawStoreItem.itemCode item) term
        || JsString.includes itemNameLower (JsString.toLowerCase term))
        searchTerms in
    if matches then results ++ [item] else results)
    items [].

End Crawl.

End LegacyCrawl.

(** ** [barcodeToProduct] *)

(** The map built by the two nested [forEach] loops over a catalog. *)
Definition barcodeIndex (catalog : list CatalogProduct.t) : JsMap.t CatalogProduct.t :=
  fold_left (fun index product =>
    fold_left (fun index' barcode => JsMap.set index' barcode product)
      (CatalogProduct.barcodes product) index)
    catalog JsMap.empty.

Definition barcodeToProduct : JsMap.t CatalogProduct.t := barcodeIndex productCatalog.

(** ** The page: [filteredProducts] *)

(** The selected category: all of them or one. *)
Inductive CategoryFilter : Type :=
| AllCategories
| OneCategory (category : string).

Definition filteredProducts {num : Type} (products : list (Product.t num))
    (searchQuery : string) (selectedCategory : CategoryFilter)
    : list (Product.t num) :=
  filter (fun product =>
    let matchesSearch :=
      JsString.includes (Product.nameHebrew product) searchQuery
      || JsString.includes (JsString.toLowerCase (Product.name product))
           (JsString.toLowerCase searchQuery) in
    let matchesCategory :=
      match selectedCategory with
      | AllCategories => true
      | OneCategory category => String.eqb (Product.category product) category
      end in
    matchesSearch && matchesCategory)
    products.

(** ** Inputs of the statements on this part *)

(** [parseFloat] on decimal texts, at any instance. *)
Definition parseFloatDecimal {num : Type} `{Number num} (s : string) : option num :=
  option_map lit (JsText.parseDecimal s).

(** A price file with three item blocks: a valid one, one without a price
    and one without a code. *)
Definition sampleXml : string :=
  "<Root><Items>
<Item><ItemCode> 7290000066318 </ItemCode><ItemName>Milk 3%</ItemName><ItemPrice>6.90</ItemPrice><Quantity>1.00</Quantity></Item>
<item><ItemCode>7290000099999</ItemCode><ItemName>Chocolate milk</ItemName><ItemPrice>free</ItemPrice></item>
<Item><ItemName>Bread</ItemName><ItemPrice>8.5</ItemPrice></Item>
</Items></Root>".

(** The records a file contributes to the crawl, none when it fails, and
    whether it is counted as a success. *)
Definition fileRecords {num : Type} (w : World num) (url : string)
    : list (RawStoreItem.t num) :=
  match priceFile w url with
  | Ok parsed => parsed
  | Err _ => []
  end.

Definition fileCounts {num : Type} (w : World num) (url : string) : bool :=
  match priceFile w url with
  | Ok parsed => (0 <? List.length parsed)%nat
  | Err _ => false
  end.

(** What the deduplication loop keeps: the keys are listed once, every
    record sits under its own code and is one of [seen]. *)
Definition wellKeyed {num : Type} (m : JsMap.t (RawStoreItem.t num))
    (seen : RawStoreItem.t num -> Prop) : Prop :=
  NoDup (List.map fst m) /\
  forall k v, In (k, v) m -> RawStoreItem.itemCode v = k /\ seen v.

(** A listing page with six files. *)
Definition sixFilesHtml : string :=
  "https://pricesprodpublic.blob.core.windows.net/price/Price1-001-1.gz
https://pricesprodpublic.blob.core.windows.net/price/Price1-002-1.gz
https://pricesprodpublic.blob.core.windows.net/price/Price1-003-1.gz
https://pricesprodpublic.blob.core.windows.net/price/Price1-004-1.gz
https://pricesprodpublic.blob.core.windows.net/price/Price1-005-1.gz
https://pricesprodpublic.blob.core.windows.net/price/Price1-006-1.gz".

(** The six files hold the milk shelf; [sixthFails] tells whether the sixth
    download fails. *)
Definition sixFilesWorld {num : Type} `{Number num} (sixthFails : bool) : World num :=
  {| page := fun _ => Responded true "200" "OK" (Ok sixFilesHtml);
     priceFile := fun url =>
       if sixthFails
          && String.eqb url "https://pricesprodpublic.blob.core.windows.net/price/Price1-006-1.gz"
       then Err "Download failed: 500" else Ok milkShelf |}.

(** Whether the character [a] occurs in [s]. *)
Fixpoint hasChar (a : ascii) (s : string) : bool :=
  match s with
  | EmptyString => false
  | String c s' => Ascii.eqb a c || hasChar a s'
  end.

Definition blobHost : string := "https://pricesprodpublic.blob.core.windows.net/".

(** Whether [product] lists the barcode [b]. *)
Definition listsBarcode (b : string) (product : CatalogProduct.t) : bool :=
  existsb (String.eqb b) (CatalogProduct.barcodes product).


(** A listing page of the earlier site with a relative link. *)
Definition relativeLinkHtml : string :=
  let q := String JsString.dquote EmptyString in
  "<a href=" ++ q ++ "FileObject/PriceFull7290027600007-001.gz" ++ q ++ ">full</a>".

(** ** Links of the earlier listing page *)





(** * Properties *)

(** ** Rating *)

(** C5. Boundary exactness of the rating: with low = 10 and high = 20,
    11 rates great, 11.01 good, 16.5 average, 16.51 high, 18.5 high and
    18.51 expensive; this holds on IEEE doubles, where the positions are
    computed with rounding, and in exact arithmetic. *)
Theorem rate_boundary_exactness :
  (rate (num := float) 11 10 20 = great /\
   rate (num := float) 11.01 10 20 = good /\
   rate (num := float) 16.5 10 20 = average /\
   rate (num := float) 16.51 10 20 = high /\
   rate (num := float) 18.5 10 20 = high /\
   rate (num := float) 18.51 10 20 = expensive) /\
  (rate (num := Q) 11 10 20 = great /\
   rate (num := Q) 11.01 10 20 = good /\
   rate (num := Q) 16.5 10 20 = average /\
   rate (num := Q) 16.51 10 20 = high /\
   rate (num := Q) 18.5 10 20 = high /\
   rate (num := Q) 18.51 10 20 = expensive).
Proof.
  split; repeat split; vm_compute; reflexivity.
Qed.

(** ** The map *)

Module JsMapFacts.

Lemma get_set_eq {V} (m : JsMap.t V) (k : string) (v : V) :
  JsMap.get (JsMap.set m k v) k = Some v.
Proof.
  induction m as [|[k' v'] m IH]; simpl.
  - now rewrite String.eqb_refl.
  - destruct (String.eqb k' k) eqn:E; simpl; rewrite E; auto.
Qed.

Lemma get_set_ne {V} (m : JsMap.t V) (k k' : string) (v : V) :
  k <> k' -> JsMap.get (JsMap.set m k v) k' = JsMap.get m k'.
Proof.
  intros Hne. induction m as [|[k0 v0] m IH]; simpl.
  - apply String.eqb_neq in Hne. now rewrite Hne.
  - destruct (String.eqb k0 k) eqn:E; simpl.
    + apply String.eqb_eq in E. subst k0.
      apply String.eqb_neq in Hne. now rewrite Hne.
    + destruct (String.eqb k0 k'); auto.
Qed.

Lemma size_set_pos {V} (m : JsMap.t V) (k : string) (v : V) :
  (0 < JsMap.size (JsMap.set m k v))%nat.
Proof.
  destruct m as [|[k' v'] m]; simpl; [lia|].
  destruct (String.eqb k' k); simpl; lia.
Qed.

End JsMapFacts.

(** ** Deduplication *)

Section DedupeLookup.
Context {num : Type} `{Number num}.

(** Looking a code up after one round of the loop. *)
Lemma get_dedupeStep (m : JsMap.t (RawStoreItem.t num)) (x : RawStoreItem.t num)
    (k : string) :
  JsMap.get (dedupeStep m x) k = keep k (JsMap.get m k) x.
Proof.
  unfold dedupeStep, keep.
  destruct (String.eqb (RawStoreItem.itemCode x) k) eqn:E.
  - apply String.eqb_eq in E. subst k.
    destruct (JsMap.get m (RawStoreItem.itemCode x)) as [e|] eqn:G.
    + destruct (ltb _ _); [apply JsMapFacts.get_set_eq | exact G].
    + apply JsMapFacts.get_set_eq.
  - apply String.eqb_neq in E.
    destruct (JsMap.get m (RawStoreItem.itemCode x)) as [e|];
      [destruct (ltb _ _)|]; try reflexivity;
      now apply JsMapFacts.get_set_ne.
Qed.

Lemma get_fold_dedupeStep (l : list (RawStoreItem.t num))
    (m : JsMap.t (RawStoreItem.t num)) (k : string) :
  JsMap.get (fold_left dedupeStep l m) k = fold_left (keep k) l (JsMap.get m k).
Proof.
  revert m. induction l as [|x l IH]; intros m; simpl.
  - reflexivity.
  - rewrite IH. now rewrite get_dedupeStep.
Qed.

(** The entry of [k] in the output is the representative of [k]. *)
Lemma get_dedupe (l : list (RawStoreItem.t num)) (k : string) :
  JsMap.get (dedupe l) k = representative k l.
Proof.
  unfold dedupe, representative. now rewrite get_fold_dedupeStep.
Qed.

End DedupeLookup.

Section DedupeExact.
Import RawStoreItem.

Lemma ltb_exact_true (a b : Q) : ltb a b = true <-> (a < b)%Q.
Proof.
  simpl. rewrite negb_true_iff. split.
  - intros E. apply Qnot_le_lt. intros Hle.
    apply Qle_bool_iff in Hle. congruence.
  - intros Hlt. destruct (Qle_bool b a) eqn:E; auto.
    apply Qle_bool_iff in E. exfalso. exact (Qlt_not_le _ _ Hlt E).
Qed.

Lemma ltb_exact_false (a b : Q) : ltb a b = false <-> (b <= a)%Q.
Proof.
  simpl. rewrite negb_false_iff. apply Qle_bool_iff.
Qed.

(** Once a record [a] of code [k] is kept, the loop ends on a record of [k]
    that is [a] or comes later and whose price is the lowest seen. *)
Lemma keep_from_some (k : string) (l : list (t Q)) (a : t Q) :
  itemCode a = k ->
  exists r, fold_left (keep k) l (Some a) = Some r /\
            itemCode r = k /\ (r = a \/ In r l) /\
            (itemPrice r <= itemPrice a)%Q /\
            (forall x, In x l -> itemCode x = k -> (itemPrice r <= itemPrice x)%Q).
Proof.
  revert a. induction l as [|x l IH]; intros a Ha; simpl.
  - exists a. repeat split; auto using Qle_refl. intros x [].
  - unfold keep at 2. destruct (String.eqb (itemCode x) k) eqn:E.
    + apply String.eqb_eq in E.
      destruct (ltb (itemPrice x) (itemPrice a)) eqn:L.
      * apply ltb_exact_true in L.
        destruct (IH x E) as (r & Hr & Hk & Hin & Hle & Hall).
        exists r. repeat split; auto.
        -- destruct Hin; auto.
        -- apply Qlt_le_weak in L. eapply Qle_trans; eauto.
        -- intros y [<-|Hy] Hyk; auto.
      * apply ltb_exact_false in L.
        destruct (IH a Ha) as (r & Hr & Hk & Hin & Hle & Hall).
        exists r. repeat split; auto.
        -- destruct Hin; auto.
        -- intros y [<-|Hy] Hyk; auto. eapply Qle_trans; eauto.
    + apply String.eqb_neq in E.
      destruct (IH a Ha) as (r & Hr & Hk & Hin & Hle & Hall).
      exists r. repeat split; auto.
      * destruct Hin; auto.
      * intros y [<-|Hy] Hyk; auto. contradiction.
Qed.

(** The representative of [k]: none when no record has code [k], otherwise a
    record of the input with code [k] and the lowest price among them. *)
Lemma representative_lowest (k : string) (l : list (t Q)) :
  match representative k l with
  | Some r =>
      In r l /\ itemCode r = k /\
      forall x, In x l -> itemCode x = k -> (itemPrice r <= itemPrice x)%Q
  | None => forall x, In x l -> itemCode x <> k
  end.
Proof.
  unfold representative. induction l as [|a l IH]; simpl.
  - intros x [].
  - unfold keep at 2. destruct (String.eqb (itemCode a) k) eqn:E.
    + apply String.eqb_eq in E.
      destruct (keep_from_some k l a E) as (r & -> & Hk & Hin & Hle & Hall).
      repeat split; auto.
      * destruct Hin; auto.
      * intros y [<-|Hy] Hyk; auto.
    + apply String.eqb_neq in E.
      destruct (fold_left (keep k) l None) as [r|].
      * destruct IH as (Hin & Hk & Hall). repeat split; auto.
        intros y [<-|Hy] Hyk; auto. contradiction.
      * intros y [<-|Hy]; auto.
Qed.

(** Once a record [a] of code [k] is kept, the loop ends on [a] itself or on
    a later record whose price is strictly below that of [a] and of every
    record of [k] before it: a record is replaced only by a cheaper one. *)
Lemma keep_first_from_some (k : string) (l : list (t Q)) (a : t Q) :
  itemCode a = k ->
  exists r, fold_left (keep k) l (Some a) = Some r /\
            (r = a \/
             exists before after,
               l = before ++ r :: after /\
               (itemPrice r < itemPrice a)%Q /\
               forall x, In x before -> itemCode x = k ->
                 (itemPrice r < itemPrice x)%Q).
Proof.
  revert a. induction l as [|x l IH]; intros a Ha; simpl.
  - exists a. auto.
  - unfold keep at 2. destruct (String.eqb (itemCode x) k) eqn:E.
    + apply String.eqb_eq in E.
      destruct (ltb (itemPrice x) (itemPrice a)) eqn:L.
      * apply ltb_exact_true in L.
        destruct (IH x E) as (r & Hr & [->|(b & c & -> & Hlt & Hb)]).
        -- exists x. split; auto. right. exists [], l. repeat split; auto.
           intros y [].
        -- exists r. split; auto. right. exists (x :: b), c.
           repeat split; auto.
           ++ eapply Qlt_trans; eauto.
           ++ intros y [<-|Hy] Hyk; auto.
      * apply ltb_exact_false in L.
        destruct (IH a Ha) as (r & Hr & [->|(b & c & -> & Hlt & Hb)]).
        -- exists a. auto.
        -- exists r. split; auto. right. exists (x :: b), c.
           repeat split; auto.
           intros y [<-|Hy] Hyk; auto. eapply Qlt_le_trans; eauto.
    + apply String.eqb_neq in E.
      destruct (IH a Ha) as (r & Hr & [->|(b & c & -> & Hlt & Hb)]).
      * exists a. auto.
      * exists r. split; auto. right. exists (x :: b), c.
        repeat split; auto.
        intros y [<-|Hy] Hyk; auto. contradiction.
Qed.

(** The representative of [k] stands in the input after records of [k] that
    all cost strictly more: among the records of the lowest price it is the
    first in input order. *)
Lemma representative_first (k : string) (l : list (t Q)) (r : t Q) :
  representative k l = Some r ->
  exists before after,
    l = before ++ r :: after /\
    forall x, In x before -> itemCode x = k -> (itemPrice r < itemPrice x)%Q.
Proof.
  unfold representative. induction l as [|a l IH]; simpl.
  - discriminate.
  - unfold keep at 2. destruct (String.eqb (itemCode a) k) eqn:E.
    + apply String.eqb_eq in E. intros Hr.
      destruct (keep_first_from_some k l a E)
        as (r' & Hr' & [->|(b & c & -> & Hlt & Hb)]).
      * rewrite Hr' in Hr. injection Hr as <-.
        exists [], l. split; auto. intros y [].
      * rewrite Hr' in Hr. injection Hr as <-.
        exists (a :: b), c. split; auto.
        intros y [<-|Hy] Hyk; auto.
    + apply String.eqb_neq in E. intros Hr.
      destruct (IH Hr) as (b & c & -> & Hb).
      exists (a :: b), c. split; auto.
      intros y [<-|Hy] Hyk; auto. contradiction.
Qed.

End DedupeExact.

(** C2, as stated, fails: two records of one code at the same price, in the
    two orders, give two different representatives (the first one seen). *)
Lemma dedupe_depends_on_order_at_ties :
  ~ dedupe_order_independent (num := Q).
Proof.
  intros Hind.
  specialize (Hind [milk "Milk 3% carton" 6.9; milk "Milk 3% bag" 6.9]
                   [milk "Milk 3% bag" 6.9; milk "Milk 3% carton" 6.9]
                   "7290000066318" (perm_swap _ _ _)).
  vm_compute in Hind. discriminate Hind.
Qed.

(** C2, amended. For every list of records with rational prices (every
    finite double is one, and the loop only compares prices) and every
    permutation of it, the two outputs have the same codes; each code is
    mapped to a record of the input with that code whose price is the lowest
    among them, so the kept price is the same in both; and when no two
    different records of a code tie on the price, it is the same record.
    Which record is kept at a tie is fixed by the order: in each of the two
    lists the kept record stands after records of its code that all cost
    strictly more, so it is the first of those at the lowest price. *)
Theorem dedupe_lowest_price_any_order
    (l l' : list (RawStoreItem.t Q)) (k : string) :
  Permutation l l' ->
  match JsMap.get (dedupe l) k, JsMap.get (dedupe l') k with
  | Some r, Some r' =>
      In r l /\ In r' l /\
      RawStoreItem.itemCode r = k /\ RawStoreItem.itemCode r' = k /\
      (RawStoreItem.itemPrice r == RawStoreItem.itemPrice r')%Q /\
      (forall x, In x l -> RawStoreItem.itemCode x = k ->
         (RawStoreItem.itemPrice r <= RawStoreItem.itemPrice x)%Q) /\
      (NoTies l -> r = r') /\
      (exists before after,
         l = before ++ r :: after /\
         forall x, In x before -> RawStoreItem.itemCode x = k ->
           (RawStoreItem.itemPrice r < RawStoreItem.itemPrice x)%Q) /\
      (exists before after,
         l' = before ++ r' :: after /\
         forall x, In x before -> RawStoreItem.itemCode x = k ->
           (RawStoreItem.itemPrice r' < RawStoreItem.itemPrice x)%Q)
  | None, None => forall x, In x l -> RawStoreItem.itemCode x <> k
  | _, _ => False
  end.
Proof.
  intros HP. rewrite !get_dedupe.
  pose proof (representative_lowest k l) as Hl.
  pose proof (representative_lowest k l') as Hl'.
  assert (Hback : forall x, In x l' -> In x l)
    by (intros x; apply Permutation_in; now apply Permutation_sym).
  assert (Hforth : forall x, In x l -> In x l')
    by (intros x; now apply Permutation_in).
  pose proof (representative_first k l) as Hf.
  pose proof (representative_first k l') as Hf'.
  destruct (representative k l) as [r|], (representative k l') as [r'|].
  - destruct Hl as (Hin & Hk & Hall), Hl' as (Hin' & Hk' & Hall').
    assert (Heq : (RawStoreItem.itemPrice r == RawStoreItem.itemPrice r')%Q)
      by (apply Qle_antisym; auto).
    split; [exact Hin|]. split; [auto|]. split; [exact Hk|].
    split; [exact Hk'|]. split; [exact Heq|]. split; [exact Hall|].
    split; [|split].
    + intros HT. apply HT; auto. congruence.
    + exact (Hf r eq_refl).
    + exact (Hf' r' eq_refl).
  - destruct Hl as (Hin & Hk & _). exact (Hl' r (Hforth r Hin) Hk).
  - destruct Hl' as (Hin' & Hk' & _). exact (Hl r' (Hback r' Hin') Hk').
  - exact Hl.
Qed.

Lemma dedupe_lowest_price_any_order_witness :
  match JsMap.get (dedupe [milk "Milk 3% carton" 6.9; milk "Milk 3% bag" 5.9]) "7290000066318",
        JsMap.get (dedupe [milk "Milk 3% bag" 5.9; milk "Milk 3% carton" 6.9]) "7290000066318" with
  | Some r, Some r' =>
      In r [milk "Milk 3% carton" 6.9; milk "Milk 3% bag" 5.9] /\
      In r' [milk "Milk 3% carton" 6.9; milk "Milk 3% bag" 5.9] /\
      RawStoreItem.itemCode r = "7290000066318" /\
      RawStoreItem.itemCode r' = "7290000066318" /\
      (RawStoreItem.itemPrice r == RawStoreItem.itemPrice r')%Q /\
      (forall x, In x [milk "Milk 3% carton" 6.9; milk "Milk 3% bag" 5.9] ->
         RawStoreItem.itemCode x = "7290000066318" ->
         (RawStoreItem.itemPrice r <= RawStoreItem.itemPrice x)%Q) /\
      (NoTies [milk "Milk 3% carton" 6.9; milk "Milk 3% bag" 5.9] -> r = r') /\
      (exists before after,
         [milk "Milk 3% carton" 6.9; milk "Milk 3% bag" 5.9] = before ++ r :: after /\
         forall x, In x before -> RawStoreItem.itemCode x = "7290000066318" ->
           (RawStoreItem.itemPrice r < RawStoreItem.itemPrice x)%Q) /\
      (exists before after,
         [milk "Milk 3% bag" 5.9; milk "Milk 3% carton" 6.9] = before ++ r' :: after /\
         forall x, In x before -> RawStoreItem.itemCode x = "7290000066318" ->
           (RawStoreItem.itemPrice r' < RawStoreItem.itemPrice x)%Q)
  | None, None =>
      forall x, In x [milk "Milk 3% carton" 6.9; milk "Milk 3% bag" 5.9] ->
        RawStoreItem.itemCode x <> "7290000066318"
  | _, _ => False
  end.
Proof.
  exact (dedupe_lowest_price_any_order
           [milk "Milk 3% carton" 6.9; milk "Milk 3% bag" 5.9]
           [milk "Milk 3% bag" 5.9; milk "Milk 3% carton" 6.9]
           "7290000066318" (perm_swap _ _ _)).
Defined.

(** ** Matcher *)

Section Matcher.
Context {num : Type} `{Number num}.

Lemma hasBarcode_In (barcodes : list string) (item : RawStoreItem.t num) :
  hasBarcode barcodes item = true <-> In (RawStoreItem.itemCode item) barcodes.
Proof.
  unfold hasBarcode. rewrite existsb_exists. split.
  - intros (b & Hb & E). apply String.eqb_eq in E. now subst.
  - intros Hin. exists (RawStoreItem.itemCode item). split; auto.
    apply String.eqb_refl.
Qed.

(** The price points of the barcode tier are those of the records whose code
    is one of the barcodes. *)
Lemma In_barcodeMatches (barcodes : list string)
    (allItems : list (RawStoreItem.t num)) (sp : StorePrice.t num) :
  In sp (barcodeMatches barcodes allItems) <->
  exists item, In item allItems /\
               In (RawStoreItem.itemCode item) barcodes /\ sp = toStorePrice item.
Proof.
  unfold barcodeMatches. rewrite in_flat_map. split.
  - intros (b & Hb & Hsp). apply in_map_iff in Hsp.
    destruct Hsp as (item & <- & Hitem). apply filter_In in Hitem.
    destruct Hitem as (Hin & E). apply String.eqb_eq in E.
    exists item. subst b. auto.
  - intros (item & Hin & Hb & ->).
    exists (RawStoreItem.itemCode item). split; auto.
    apply in_map. apply filter_In. split; auto. apply String.eqb_refl.
Qed.

(** Splitting a filter along two tests that never hold together. *)
Lemma filter_orb_disjoint {A} (f g : A -> bool) (l : list A) :
  (forall x, In x l -> f x = true -> g x = false) ->
  Permutation (filter (fun x => f x || g x) l) (filter f l ++ filter g l).
Proof.
  induction l as [|a l IH]; intros Hd; simpl.
  - constructor.
  - assert (IH' := IH (fun x Hx => Hd x (or_intror Hx))).
    destruct (f a) eqn:Fa; simpl.
    + rewrite (Hd a (or_introl eq_refl) Fa). now constructor.
    + destruct (g a); auto. now apply Permutation_cons_app.
Qed.

(** With barcodes listed once each, the barcode tier is the list of the
    records having one of the barcodes, up to order. *)
Lemma barcodeMatches_filter (barcodes : list string)
    (allItems : list (RawStoreItem.t num)) :
  NoDup barcodes ->
  Permutation (barcodeMatches barcodes allItems)
              (List.map toStorePrice (filter (hasBarcode barcodes) allItems)).
Proof.
  unfold barcodeMatches.
  induction 1 as [|b bs Hnotin Hnd IH]; simpl.
  - unfold hasBarcode; simpl.
    induction allItems as [|a l IHl]; simpl; auto.
  - rewrite IH. rewrite <- map_app. apply Permutation_map.
    symmetry.
    rewrite <- (filter_orb_disjoint
                  (fun item => String.eqb (RawStoreItem.itemCode item) b)
                  (hasBarcode bs)).
    + unfold hasBarcode. simpl. reflexivity.
    + intros x _ E. apply String.eqb_eq in E.
      destruct (hasBarcode bs x) eqn:Hb; auto.
      apply hasBarcode_In in Hb. rewrite E in Hb. contradiction.
Qed.

Lemma distinct_NoDup (l : list string) : distinct l = true -> NoDup l.
Proof.
  induction l as [|x l IH]; simpl; intros E.
  - constructor.
  - apply andb_true_iff in E. destruct E as (Hx & Hl).
    constructor; auto.
    intros Hin. apply negb_true_iff in Hx.
    assert (Ex : existsb (String.eqb x) l = true).
    { apply existsb_exists. exists x. split; auto. apply String.eqb_refl. }
    congruence.
Qed.

(** No catalog product lists a barcode twice. *)
Lemma catalog_barcodes_distinct (product : CatalogProduct.t) :
  In product productCatalog -> NoDup (CatalogProduct.barcodes product).
Proof.
  intros Hin. apply distinct_NoDup.
  assert (Hall : forallb (fun p => distinct (CatalogProduct.barcodes p))
                   productCatalog = true) by (vm_compute; reflexivity).
  rewrite forallb_forall in Hall. now apply Hall.
Qed.

Lemma findPricesForProduct_withSearchTerms_barcodes
    (product : CatalogProduct.t) (terms : list string) :
  CatalogProduct.barcodes (withSearchTerms product terms)
  = CatalogProduct.barcodes product.
Proof. reflexivity. Qed.

(** C7. Matcher precedence.  When some record carries one of the product's
    barcodes, the matcher returns the barcode tier and nothing else: its
    price points are those of the records having one of the barcodes (each
    once, when the barcodes are listed once each, as they are for every
    product of the catalog), and the result is the same whatever the search
    terms are, so the fuzzy tier has no part in it.  The fuzzy tier is what
    is returned when no record carries a barcode. *)
Theorem matcher_precedence (product : CatalogProduct.t)
    (allItems : list (RawStoreItem.t num)) :
  ((exists item, In item allItems /\
                 In (RawStoreItem.itemCode item) (CatalogProduct.barcodes product)) ->
   findPricesForProduct product allItems
     = barcodeMatches (CatalogProduct.barcodes product) allItems /\
   (forall sp, In sp (findPricesForProduct product allItems) <->
      exists item, In item allItems /\
        In (RawStoreItem.itemCode item) (CatalogProduct.barcodes product) /\
        sp = toStorePrice item) /\
   (NoDup (CatalogProduct.barcodes product) \/ In product productCatalog ->
      Permutation (findPricesForProduct product allItems)
        (List.map toStorePrice
           (filter (hasBarcode (CatalogProduct.barcodes product)) allItems))) /\
   (forall terms,
      findPricesForProduct (withSearchTerms product terms) allItems
      = findPricesForProduct product allItems)) /\
  ((forall item, In item allItems ->
      ~ In (RawStoreItem.itemCode item) (CatalogProduct.barcodes product)) ->
   findPricesForProduct product allItems
     = fuzzyMatches (CatalogProduct.searchTerms product) allItems).
Proof.
  split.
  - intros (item & Hin & Hb).
    assert (Hne : (List.length (barcodeMatches (CatalogProduct.barcodes product) allItems)
                   =? 0)%nat = false).
    { destruct (barcodeMatches _ _) as [|sp l] eqn:E; auto.
      assert (Hsp : In (toStorePrice item)
                      (barcodeMatches (CatalogProduct.barcodes product) allItems))
        by (apply In_barcodeMatches; eauto).
      rewrite E in Hsp. destruct Hsp. }
    assert (Hres : forall terms,
               findPricesForProduct (withSearchTerms product terms) allItems
               = barcodeMatches (CatalogProduct.barcodes product) allItems).
    { intros terms. unfold findPricesForProduct.
      rewrite findPricesForProduct_withSearchTerms_barcodes. now rewrite Hne. }
    assert (Hres0 : findPricesForProduct product allItems
                    = barcodeMatches (CatalogProduct.barcodes product) allItems).
    { unfold findPricesForProduct. now rewrite Hne. }
    repeat split.
    + exact Hres0.
    + rewrite Hres0. apply In_barcodeMatches.
    + rewrite Hres0. apply In_barcodeMatches.
    + intros Hnd. rewrite Hres0. apply barcodeMatches_filter.
      destruct Hnd as [Hnd|Hcat]; auto using catalog_barcodes_distinct.
    + intros terms. now rewrite Hres, Hres0.
  - intros Hnone.
    assert (E : barcodeMatches (CatalogProduct.barcodes product) allItems = []).
    { destruct (barcodeMatches _ _) as [|sp l] eqn:E; auto.
      assert (Hsp : In sp (barcodeMatches (CatalogProduct.barcodes product) allItems))
        by (rewrite E; now left).
      apply In_barcodeMatches in Hsp. destruct Hsp as (item & Hin & Hb & _).
      destruct (Hnone item Hin Hb). }
    unfold findPricesForProduct. rewrite E. reflexivity.
Qed.

End Matcher.

Lemma matcher_precedence_witness :
  findPricesForProduct (num := float) milkProduct milkShelf = [pricePoint 6.9] /\
  fuzzyMatches (num := float) (CatalogProduct.searchTerms milkProduct) milkShelf
    = [pricePoint 9.9; pricePoint 6.9].
Proof.
  split.
  - rewrite (proj1 (proj1 (matcher_precedence (num := float) milkProduct milkShelf)
                      (ex_intro _ (record "7290000066318" "Milk 3% carton" 6.9)
                         (conj (or_intror (or_introl eq_refl))
                               (or_introl eq_refl))))).
    reflexivity.
  - reflexivity.
Defined.

(** ** Cache and orchestrator *)

Section Orchestrator.
Context {num : Type} `{Number num}.

Lemma getFallbackProducts_length :
  List.length (getFallbackProducts (num := num)) = 35%nat.
Proof.
  unfold getFallbackProducts. rewrite length_map. reflexivity.
Qed.

Lemma getFallbackProducts_nonempty : getFallbackProducts (num := num) <> [].
Proof.
  intros E. pose proof getFallbackProducts_length as L.
  rewrite E in L. discriminate L.
Qed.

(** A locator that finds nothing fails the crawl. *)
Lemma crawlShufersal_no_urls (w : World num) (now : Z) :
  fetchPriceFileUrls w = Ok [] ->
  crawlShufersal w now
  = CrawlerResult.mk false "Shufersal" [] (Some "No price files found") now.
Proof.
  intros E. unfold crawlShufersal. rewrite E. reflexivity.
Qed.

(** A locator that throws fails the crawl with its message. *)
Lemma crawlShufersal_locator_throws (w : World num) (now : Z) (message : string) :
  fetchPriceFileUrls w = Err message ->
  crawlShufersal w now = CrawlerResult.mk false "Shufersal" [] (Some message) now.
Proof.
  intros E. unfold crawlShufersal. rewrite E. reflexivity.
Qed.

Lemma afterCrawl_failure (r : CrawlerResult.t num) (finished : Z)
    (st : CacheState.t num) :
  CrawlerResult.success r = false ->
  afterCrawl r finished st = (getFallbackProducts, st).
Proof.
  intros E. unfold afterCrawl. now rewrite E.
Qed.

Lemma afterCrawl_success (r : CrawlerResult.t num) (finished : Z)
    (st : CacheState.t num) :
  CrawlerResult.success r = true ->
  snd (afterCrawl r finished st)
  = CacheState.mk (matchCatalog (CrawlerResult.items r)) (Some finished).
Proof.
  intros E. unfold afterCrawl. now rewrite E.
Qed.

(** C10. A failed refresh does not touch the cache.  When the cache is not
    fresh, so that the crawl runs, and the crawl reports failure,
    [fetchAllPrices] returns the static fallback products and leaves
    [priceCache] and [lastCrawlTime] as they were; and whenever a call changes
    the state, the crawl ran and succeeded, and the new state is the catalog
    matched against the crawled records, stamped with the new instant. *)
Theorem refresh_failure_keeps_cache (w : World num) (now finished : Z)
    (st : CacheState.t num) :
  (cacheIsFresh now st = false ->
   CrawlerResult.success (crawlShufersal w now) = false ->
   fetchAllPrices w now finished st = (getFallbackProducts, st)) /\
  (snd (fetchAllPrices w now finished st) <> st ->
   cacheIsFresh now st = false /\
   CrawlerResult.success (crawlShufersal w now) = true /\
   snd (fetchAllPrices w now finished st)
   = CacheState.mk (matchCatalog (CrawlerResult.items (crawlShufersal w now)))
       (Some finished)).
Proof.
  unfold fetchAllPrices. split.
  - intros Hstale Hfail. rewrite Hstale. now apply afterCrawl_failure.
  - destruct (cacheIsFresh now st) eqn:Hfresh; simpl.
    + intros Hne. now destruct Hne.
    + destruct (CrawlerResult.success (crawlShufersal w now)) eqn:Hs.
      * intros _. repeat split. now apply afterCrawl_success.
      * rewrite afterCrawl_failure by assumption. intros Hne. now destruct Hne.
Qed.

(** C1, on the code.  The locator returns no URLs and the cache is not fresh:
    the handler, called without [fallback=true], answers with the static
    fallback products (there are 35) and with [source] set to crawled; the
    same products requested with [fallback=true] carry [source] fallback. *)
Theorem failed_crawl_is_tagged_crawled (w : World num)
    (now finished responded : Z) (st : CacheState.t num) :
  fetchPriceFileUrls w = Ok [] ->
  cacheIsFresh now st = false ->
  Route.products (fst (Route.GET None w now finished responded st))
    = getFallbackProducts /\
  Route.products (fst (Route.GET None w now finished responded st)) <> [] /\
  Route.source (fst (Route.GET None w now finished responded st)) = "crawled" /\
  Route.products (fst (Route.GET (Some "true") w now finished responded st))
    = getFallbackProducts /\
  Route.source (fst (Route.GET (Some "true") w now finished responded st))
    = "fallback".
Proof.
  intros Hurls Hstale.
  assert (E : fetchAllPrices w now finished st = (getFallbackProducts, st)).
  { unfold fetchAllPrices. rewrite Hstale.
    apply afterCrawl_failure. now rewrite crawlShufersal_no_urls. }
  unfold Route.GET. cbn [String.eqb]. rewrite E. cbn.
  repeat split. apply getFallbackProducts_nonempty.
Qed.

End Orchestrator.

Lemma refresh_failure_keeps_cache_witness :
  fetchAllPrices (num := Q) offlineWorld 7200000 7200500 milkState
  = (getFallbackProducts, milkState).
Proof.
  apply (proj1 (refresh_failure_keeps_cache (num := Q) offlineWorld
                  7200000 7200500 milkState)); reflexivity.
Defined.

Lemma failed_crawl_is_tagged_crawled_witness :
  Route.source
    (fst (Route.GET (num := float) None (listingWorld "<html><body>maintenance</body></html>")
            0 500 501 emptyState))
  = "crawled".
Proof.
  apply (failed_crawl_is_tagged_crawled (num := float)
           (listingWorld "<html><body>maintenance</body></html>")
           0 500 501 emptyState); reflexivity.
Defined.
(** ** Strings *)

Module StringFacts.

Lemma app_assoc (a b c : string) : ((a ++ b) ++ c = a ++ (b ++ c))%string.
Proof. induction a as [|x a IH]; simpl; congruence. Qed.

Lemma app_empty (a : string) : (a ++ "" = a)%string.
Proof. induction a as [|x a IH]; simpl; congruence. Qed.

Lemma length_app (a b : string) :
  String.length (a ++ b)%string = (String.length a + String.length b)%nat.
Proof. induction a as [|x a IH]; simpl; congruence. Qed.












End StringFacts.


(** ** The matcher of regular expressions *)

Module RegexFacts.

Lemma length_drop (n : nat) (s : string) :
  String.length (JsString.drop n s) = (String.length s - n)%nat.
Proof.
  revert s. induction n as [|n IH]; intros [|c s]; simpl; auto.
Qed.

Lemma prefix_length (p s : string) :
  String.prefix p s = true -> (String.length p <= String.length s)%nat.
Proof.
  revert s. induction p as [|a p IH]; intros s Hp; [simpl; lia|].
  destruct s as [|b s]; simpl in Hp; [discriminate|].
  destruct (ascii_dec a b); [|discriminate].
  apply IH in Hp. simpl. lia.
Qed.

Lemma prefix_take (p s : string) (n : nat) :
  String.prefix p s = true -> (String.length p <= n)%nat ->
  String.prefix p (JsString.take n s) = true.
Proof.
  revert s n. induction p as [|a p IH]; intros s n Hp Hn.
  - now destruct (JsString.take n s).
  - destruct s as [|b s]; simpl in Hp; [discriminate|].
    destruct (ascii_dec a b) as [->|]; [|discriminate].
    destruct n as [|n]; simpl in Hn; [lia|]. simpl.
    destruct (ascii_dec b b); [|congruence].
    apply IH; auto. lia.
Qed.

(** The continuation of a match is entered on a text that is not longer. *)
Lemma run_shrinks {A} (r : Regex.regex) :
  forall (s : string) (cap : option string)
         (k : string -> option string -> option A) (a : A),
    Regex.run r s cap k = Some a ->
    exists s' cap', k s' cap' = Some a /\ (String.length s' <= String.length s)%nat.
Proof.
  induction r as [p|p|bad|r1 IH1 r2 IH2|r1 IH1 r2 IH2|r1 IH1|r1 IH1];
    intros s cap k a Hrun; cbn [Regex.run] in Hrun.
  - destruct (String.prefix p s); [|discriminate].
    exists (JsString.drop (String.length p) s), cap. split; auto.
    rewrite length_drop. lia.
  - destruct (JsString.eqbI p (JsString.take (String.length p) s)); [|discriminate].
    exists (JsString.drop (String.length p) s), cap. split; auto.
    rewrite length_drop. lia.
  - destruct s as [|c s']; [discriminate|].
    destruct (bad (String c s')); [discriminate|].
    exists s', cap. split; auto. simpl. lia.
  - apply IH1 in Hrun. destruct Hrun as (s1 & c1 & Hrun & Hlen1).
    apply IH2 in Hrun. destruct Hrun as (s2 & c2 & Hk & Hlen2).
    exists s2, c2. split; auto. lia.
  - destruct (Regex.run r1 s cap k) as [a'|] eqn:E.
    + injection Hrun as ->. now apply IH1 in E.
    + now apply IH2 in Hrun.
  - revert Hrun. generalize (String.length s) at 1.
    intros n. revert s cap. induction n as [|n IHn]; intros s cap Hrun.
    + exists s, cap. auto.
    + match type of Hrun with
      | match ?X with _ => _ end = _ => destruct X as [a'|] eqn:E
      end.
      * injection Hrun as ->. apply IH1 in E.
        destruct E as (s1 & c1 & Hk & Hlen).
        destruct (String.length s1 <? String.length s)%nat; [|discriminate].
        apply IHn in Hk. destruct Hk as (s2 & c2 & Hk & Hlen2).
        exists s2, c2. split; auto. lia.
      * exists s, cap. auto.
  - apply IH1 in Hrun. destruct Hrun as (s1 & c1 & Hk & Hlen).
    eexists _, _. split; [exact Hk | exact Hlen].
Qed.

(** A match of a regular expression that opens with a literal opens with
    that literal. *)
Lemma matchHere_Lit_prefix (p : string) (r : Regex.regex) (s m : string)
    (cap : option string) :
  Regex.matchHere (Regex.Seq (Regex.Lit p) r) s = Some (m, cap) ->
  String.prefix p m = true.
Proof.
  unfold Regex.matchHere. cbn [Regex.run].
  destruct (String.prefix p s) eqn:Hp; [|discriminate].
  intros Hrun. apply run_shrinks in Hrun.
  destruct Hrun as (s' & c' & Hk & Hlen). injection Hk as <- _.
  rewrite length_drop in Hlen. apply prefix_length in Hp as Hpl.
  apply prefix_take; auto. lia.
Qed.

(** Every match of a global search is a match at some place of the text. *)
Lemma In_matchAllFrom (r : Regex.regex) (skip : nat) (s m : string) :
  In m (Regex.matchAllFrom r skip s) ->
  exists t cap, Regex.matchHere r t = Some (m, cap).
Proof.
  revert skip. induction s as [|c s IH]; intros skip Hin.
  - assert (Hin' : In m match Regex.matchHere r "" with
                        | Some (m0, _) => [m0]
                        | None => []
                        end) by (destruct skip; exact Hin).
    destruct (Regex.matchHere r "") as [[m0 cap]|] eqn:E; [|destruct Hin'].
    destruct Hin' as [<-|[]]. eauto.
  - destruct skip as [|n]; cbn [Regex.matchAllFrom] in Hin.
    + destruct (Regex.matchHere r (String c s)) as [[m0 cap]|] eqn:E.
      * destruct Hin as [<-|Hin]; eauto.
      * eauto.
    + eauto.
Qed.


End RegexFacts.


(** ** Links of the earlier listing page *)

Module LinkFacts.
Import StringFacts.












End LinkFacts.

(** ** File locator *)

Lemma existsb_eqb_In (u : string) (seen : list string) :
  existsb (String.eqb u) seen = true <-> In u seen.
Proof.
  rewrite existsb_exists. split.
  - intros (x & Hx & E). apply String.eqb_eq in E. now subst.
  - intros Hin. exists u. split; auto. apply String.eqb_refl.
Qed.

(** The values kept are those of the list not seen before. *)
Lemma In_uniqueFrom (urls seen : list string) (u : string) :
  In u (uniqueFrom seen urls) <-> In u urls /\ ~ In u seen.
Proof.
  revert seen. induction urls as [|x l IH]; intros seen; simpl.
  - tauto.
  - destruct (existsb (String.eqb x) seen) eqn:E.
    + apply existsb_eqb_In in E. rewrite IH. split.
      * intros (Hin & Hns). auto.
      * intros ([<-|Hin] & Hns); [contradiction | auto].
    + assert (Hx : ~ In x seen).
      { intros Hin. apply existsb_eqb_In in Hin. congruence. }
      simpl. rewrite IH. simpl. split.
      * intros [<-|(Hin & Hns)]; auto.
      * intros ([<-|Hin] & Hns); auto.
        destruct (string_dec x u) as [<-|Hne]; auto.
        right. split; auto. intros [E'|Hs]; auto.
Qed.


Lemma In_unique (urls : list string) (u : string) :
  In u (unique urls) <-> In u urls.
Proof.
  unfold unique. rewrite In_uniqueFrom. simpl. tauto.
Qed.

Section Locator.
Context {num : Type} `{Number num}.

(** The earlier locator answers [] whenever its [try] block throws. *)
Lemma fetchFileList_soft (w : World num) :
  listingFails w Legacy.SHUFERSAL_BASE_URL -> Legacy.fetchFileList w = [].
Proof.
  unfold listingFails, Legacy.fetchFileList, Legacy.fetchFileListTry.
  destruct (page w Legacy.SHUFERSAL_BASE_URL) as [m|ok status statusText text].
  - reflexivity.
  - intros [->|(message & ->)]; simpl; auto.
    destruct ok; reflexivity.
Qed.

(** The current locator throws on the same failures. *)
Lemma fetchPriceFileUrls_throws (w : World num) :
  listingFails w SHUFERSAL_URL ->
  exists message, fetchPriceFileUrls w = Err message.
Proof.
  unfold listingFails, fetchPriceFileUrls.
  destruct (page w SHUFERSAL_URL) as [m|ok status statusText text].
  - eauto.
  - intros [->|(message & ->)]; simpl; eauto.
    destruct ok; simpl; eauto.
Qed.

(** C3, amended.  When the listing fetch fails (the fetch rejects, the status
    is not ok, or the body cannot be read), the earlier locator
    [fetchFileList] returns an empty list, while [fetchPriceFileUrls] throws
    an error; [crawlShufersal] catches it and reports a failed crawl without
    records that carries the message.  A page that is read but holds no file
    link makes [fetchPriceFileUrls] return an empty list. *)
Theorem locator_failure_modes (w : World num) (now : Z) :
  (listingFails w Legacy.SHUFERSAL_BASE_URL -> Legacy.fetchFileList w = []) /\
  (listingFails w SHUFERSAL_URL ->
   exists message,
     fetchPriceFileUrls w = Err message /\
     crawlShufersal w now
     = CrawlerResult.mk false "Shufersal" [] (Some message) now) /\
  (forall status statusText html,
     page w SHUFERSAL_URL = Responded true status statusText (Ok html) ->
     Regex.matchAll urlRegex html = [] ->
     fetchPriceFileUrls w = Ok []).
Proof.
  split; [apply fetchFileList_soft|]. split.
  - intros Hf. destruct (fetchPriceFileUrls_throws w Hf) as (message & E).
    exists message. split; auto. now apply crawlShufersal_locator_throws.
  - intros status statusText html Hpage Hnone.
    unfold fetchPriceFileUrls. rewrite Hpage. simpl. now rewrite Hnone.
Qed.


End Locator.

(** C3, as stated, fails: the listing page answers 503 and
    [fetchPriceFileUrls] throws instead of returning an empty list. *)
Lemma locator_throws_on_bad_status :
  ~ locator_fails_softly (num := float).
Proof.
  intros Hsoft.
  specialize (Hsoft unavailableWorld (or_introl eq_refl)).
  vm_compute in Hsoft. discriminate Hsoft.
Qed.

Lemma locator_failure_modes_witness :
  Legacy.fetchFileList (num := float) unavailableWorld = [] /\
  exists message,
    fetchPriceFileUrls (num := float) unavailableWorld = Err message /\
    crawlShufersal unavailableWorld 0
    = CrawlerResult.mk false "Shufersal" [] (Some message) 0%Z.
Proof.
  split.
  - apply (proj1 (locator_failure_modes (num := float) unavailableWorld 0)).
    left. reflexivity.
  - apply (proj1 (proj2 (locator_failure_modes (num := float) unavailableWorld 0))).
    left. reflexivity.
Defined.



(** ** Calls in flight together *)

Section InFlight.
Context {num : Type} `{Number num}.

Lemma fold_set_size_pos {A V} (key : A -> string) (val : A -> V)
    (l : list A) (m : JsMap.t V) :
  (0 < JsMap.size m)%nat \/ l <> [] ->
  (0 < JsMap.size
         (fold_left (fun cache a => JsMap.set cache (key a) (val a)) l m))%nat.
Proof.
  revert m. induction l as [|a l IH]; intros m [Hm|Hl]; simpl; auto.
  - now destruct Hl.
  - apply IH. left. apply JsMapFacts.size_set_pos.
  - apply IH. left. apply JsMapFacts.size_set_pos.
Qed.

(** After a successful crawl the cache has an entry. *)
Lemma matchCatalog_nonempty (items : list (RawStoreItem.t num)) :
  (0 < JsMap.size (matchCatalog items))%nat.
Proof.
  unfold matchCatalog.
  apply (fold_set_size_pos CatalogProduct.id
           (fun catalogProduct => findPricesForProduct catalogProduct items)).
  right. unfold productCatalog. discriminate.
Qed.

(** The state left by a successful crawl is fresh for the next hour. *)
Lemma cacheIsFresh_after_success (r : CrawlerResult.t num) (finished now : Z)
    (st : CacheState.t num) :
  CrawlerResult.success r = true ->
  (now - finished < CACHE_DURATION_MS)%Z ->
  cacheIsFresh now (snd (afterCrawl r finished st)) = true.
Proof.
  intros Hs Hnow. rewrite afterCrawl_success by assumption.
  unfold cacheIsFresh. simpl CacheState.lastCrawlTime. simpl CacheState.priceCache.
  apply andb_true_intro. split.
  - now apply Z.ltb_lt.
  - apply Nat.ltb_lt. apply matchCatalog_nonempty.
Qed.

Lemma step_call_stale (s : EventLoop.Server num) (w : World num) (now : Z) :
  cacheIsFresh now (EventLoop.state s) = false ->
  EventLoop.step s (EventLoop.Call w now)
  = {| EventLoop.state := EventLoop.state s;
       EventLoop.inFlight := EventLoop.inFlight s ++ [crawlShufersal w now];
       EventLoop.crawlsStarted := S (EventLoop.crawlsStarted s) |}.
Proof.
  intros E. unfold EventLoop.step. now rewrite E.
Qed.

Lemma step_call_fresh (s : EventLoop.Server num) (w : World num) (now : Z) :
  cacheIsFresh now (EventLoop.state s) = true ->
  EventLoop.step s (EventLoop.Call w now) = s.
Proof.
  intros E. unfold EventLoop.step. now rewrite E.
Qed.

Lemma step_answer (s : EventLoop.Server num) (i : nat)
    (r : CrawlerResult.t num) (finished : Z) :
  nth_error (EventLoop.inFlight s) i = Some r ->
  EventLoop.step s (EventLoop.Answer i finished)
  = {| EventLoop.state := snd (afterCrawl r finished (EventLoop.state s));
       EventLoop.inFlight := EventLoop.removeAt i (EventLoop.inFlight s);
       EventLoop.crawlsStarted := EventLoop.crawlsStarted s |}.
Proof.
  intros E. unfold EventLoop.step. now rewrite E.
Qed.

Lemma run_two (s : EventLoop.Server num) (e1 e2 : EventLoop.Event num) :
  EventLoop.run [e1; e2] s = EventLoop.step (EventLoop.step s e1) e2.
Proof. reflexivity. Qed.

(** C9, amended.  [fetchAllPrices] has no guard on crawls in flight: a call
    that finds the cache not fresh starts a crawl of its own, whatever is in
    flight, so two such calls made one after the other start two crawls and
    leave the module state as it was; a call starts no crawl exactly when it
    finds the cache fresh, which is the case for an hour after the answer of
    a crawl that succeeded. *)
Theorem every_stale_call_starts_a_crawl (s : EventLoop.Server num)
    (w1 w2 : World num) (now1 now2 : Z) :
  cacheIsFresh now1 (EventLoop.state s) = false ->
  cacheIsFresh now2 (EventLoop.state s) = false ->
  (EventLoop.crawlsStarted
     (EventLoop.run [EventLoop.Call w1 now1; EventLoop.Call w2 now2] s)
   = S (S (EventLoop.crawlsStarted s)) /\
   EventLoop.inFlight
     (EventLoop.run [EventLoop.Call w1 now1; EventLoop.Call w2 now2] s)
   = EventLoop.inFlight s ++ [crawlShufersal w1 now1; crawlShufersal w2 now2] /\
   EventLoop.state
     (EventLoop.run [EventLoop.Call w1 now1; EventLoop.Call w2 now2] s)
   = EventLoop.state s) /\
  (forall (s' : EventLoop.Server num) (w : World num) (now : Z),
     cacheIsFresh now (EventLoop.state s') = true ->
     EventLoop.step s' (EventLoop.Call w now) = s') /\
  (forall (s' : EventLoop.Server num) (i : nat) (r : CrawlerResult.t num)
          (finished now : Z) (w : World num),
     nth_error (EventLoop.inFlight s') i = Some r ->
     CrawlerResult.success r = true ->
     (now - finished < CACHE_DURATION_MS)%Z ->
     EventLoop.crawlsStarted
       (EventLoop.run [EventLoop.Answer i finished; EventLoop.Call w now] s')
     = EventLoop.crawlsStarted s').
Proof.
  intros H1 H2. split; [|split].
  - rewrite run_two, (step_call_stale s w1 now1 H1).
    rewrite step_call_stale by exact H2.
    cbn [EventLoop.crawlsStarted EventLoop.inFlight EventLoop.state].
    repeat split. now rewrite <- app_assoc.
  - intros s' w now Hfresh. now apply step_call_fresh.
  - intros s' i r finished now w Hi Hs Hnow.
    rewrite run_two, (step_answer s' i r finished Hi).
    rewrite step_call_fresh; [reflexivity|].
    cbn [EventLoop.state]. now apply cacheIsFresh_after_success.
Qed.

End InFlight.

(** C9, as stated, fails: from process start, two calls made before any
    crawl has answered start two crawls. *)
Lemma two_calls_start_two_crawls :
  ~ single_flight (num := float).
Proof.
  intros Hsf.
  specialize (Hsf EventLoop.boot offlineWorld offlineWorld 0%Z 1%Z eq_refl eq_refl).
  vm_compute in Hsf. discriminate Hsf.
Qed.

Lemma every_stale_call_starts_a_crawl_witness :
  EventLoop.crawlsStarted
    (EventLoop.run
       [EventLoop.Call (num := float) offlineWorld 0; EventLoop.Call offlineWorld 1]
       EventLoop.boot)
  = 2%nat.
Proof.
  apply (proj1 (proj1 (every_stale_call_starts_a_crawl (num := float)
                         EventLoop.boot offlineWorld offlineWorld 0 1
                         eq_refl eq_refl))).
Defined.

(** ** Aggregator, in exact arithmetic *)

Section StatsExact.

Lemma gtb_exact_pos (p : Q) : gtb p (lit 0) = true <-> (0 < p)%Q.
Proof. unfold gtb. apply ltb_exact_true. Qed.

Lemma positivePrices_pos (prices : list (StorePrice.t Q)) (x : Q) :
  In x (positivePrices prices) -> (0 < x)%Q.
Proof.
  unfold positivePrices. rewrite filter_In. intros (_ & Hx).
  now apply gtb_exact_pos.
Qed.

(** The shape of the result. *)
Lemma calculatePriceStats_exact (prices : list (StorePrice.t Q)) :
  calculatePriceStats prices
  = match positivePrices prices with
    | [] => PriceStats.mk 0 0 0
    | v :: vs =>
        PriceStats.mk
          (roundToTenth (fold_left Qplus (v :: vs) 0
                         / inject_Z (Z.of_nat (List.length (v :: vs)))))
          (roundToTenth (Math_min v vs))
          (roundToTenth (Math_max v vs))
    end.
Proof.
  unfold calculatePriceStats. destruct prices as [|p prices]; [reflexivity|].
  cbn [List.length Nat.eqb]. fold (positivePrices (p :: prices)).
  destruct (positivePrices (p :: prices)); reflexivity.
Qed.

Lemma Math_min_least (vs : list Q) (v : Q) :
  In (Math_min v vs) (v :: vs) /\
  forall x, In x (v :: vs) -> (Math_min v vs <= x)%Q.
Proof.
  unfold Math_min. revert v. induction vs as [|a vs IH]; intros v.
  - simpl. split; auto. intros x [<-|[]]. apply Qle_refl.
  - cbn [fold_left]. destruct (ltb a v) eqn:L.
    + apply ltb_exact_true in L. destruct (IH a) as (Hin & Hall).
      split; [simpl in *; tauto|].
      intros x [<-|Hx]; auto.
      apply Qle_trans with a; [apply Hall; now left | now apply Qlt_le_weak].
    + apply ltb_exact_false in L. destruct (IH v) as (Hin & Hall).
      split; [simpl in *; tauto|].
      intros x [<-|[<-|Hx]].
      * apply Hall. now left.
      * apply Qle_trans with v; [apply Hall; now left | exact L].
      * apply Hall. now right.
Qed.

Lemma Math_max_greatest (vs : list Q) (v : Q) :
  In (Math_max v vs) (v :: vs) /\
  forall x, In x (v :: vs) -> (x <= Math_max v vs)%Q.
Proof.
  unfold Math_max. revert v. induction vs as [|a vs IH]; intros v.
  - simpl. split; auto. intros x [<-|[]]. apply Qle_refl.
  - cbn [fold_left]. destruct (ltb v a) eqn:L.
    + apply ltb_exact_true in L. destruct (IH a) as (Hin & Hall).
      split; [simpl in *; tauto|].
      intros x [<-|Hx]; auto.
      apply Qle_trans with a; [now apply Qlt_le_weak | apply Hall; now left].
    + apply ltb_exact_false in L. destruct (IH v) as (Hin & Hall).
      split; [simpl in *; tauto|].
      intros x [<-|[<-|Hx]].
      * apply Hall. now left.
      * apply Qle_trans with v; [exact L | apply Hall; now left].
      * apply Hall. now right.
Qed.

Lemma inject_Z_length_cons {A} (a : A) (l : list A) :
  (inject_Z (Z.of_nat (List.length (a :: l)))
   == inject_Z (Z.of_nat (List.length l)) + 1)%Q.
Proof.
  cbn [List.length]. rewrite Nat2Z.inj_succ. unfold Z.succ.
  rewrite inject_Z_plus. reflexivity.
Qed.

Lemma inject_Z_length_nonneg {A} (l : list A) :
  (0 <= inject_Z (Z.of_nat (List.length l)))%Q.
Proof.
  change 0%Q with (inject_Z 0). rewrite <- Zle_Qle. lia.
Qed.

(** The running sum, from below and from above. *)
Lemma sum_bounds (vs : list Q) (a lo hi : Q) :
  (forall x, In x vs -> lo <= x <= hi)%Q ->
  (a + lo * inject_Z (Z.of_nat (List.length vs)) <= fold_left Qplus vs a
   /\ fold_left Qplus vs a <= a + hi * inject_Z (Z.of_nat (List.length vs)))%Q.
Proof.
  revert a. induction vs as [|x vs IH]; intros a Hb.
  - simpl. split; ring_simplify; apply Qle_refl.
  - cbn [fold_left].
    destruct (IH (a + x)%Q (fun y Hy => Hb y (or_intror Hy))) as (Hlo & Hhi).
    destruct (Hb x (or_introl eq_refl)) as (Hxl & Hxh).
    rewrite inject_Z_length_cons.
    set (n := inject_Z (Z.of_nat (List.length vs))) in *.
    split.
    + eapply Qle_trans; [|exact Hlo]. ring_simplify. lra.
    + eapply Qle_trans; [exact Hhi|]. ring_simplify. lra.
Qed.

Lemma mean_between (v : Q) (vs : list Q) (lo hi : Q) :
  (forall x, In x (v :: vs) -> lo <= x <= hi)%Q ->
  (lo <= fold_left Qplus (v :: vs) 0 / inject_Z (Z.of_nat (List.length (v :: vs)))
   <= hi)%Q.
Proof.
  intros Hb. destruct (sum_bounds (v :: vs) 0 lo hi Hb) as (Hlo & Hhi).
  assert (Hn : (0 < inject_Z (Z.of_nat (List.length (v :: vs))))%Q).
  { rewrite inject_Z_length_cons.
    pose proof (inject_Z_length_nonneg vs). lra. }
  split.
  - apply Qle_shift_div_l; auto. lra.
  - apply Qle_shift_div_r; auto. lra.
Qed.

(** Rounding to a tenth keeps the order. *)
Lemma roundToTenth_monotone (x y : Q) :
  (x <= y)%Q -> (roundToTenth x <= roundToTenth y)%Q.
Proof.
  intros Hxy. unfold roundToTenth. cbn [div mul lit Math_round ExactNum].
  apply Qmult_le_compat_r; [|discriminate].
  rewrite <- Zle_Qle. apply Qfloor_resp_le. lra.
Qed.

(** In exact arithmetic every summary is ordered: low <= average <= high. *)
Lemma calculatePriceStats_exact_ordered (prices : list (StorePrice.t Q)) :
  (PriceStats.lowPrice (calculatePriceStats prices)
   <= PriceStats.averagePrice (calculatePriceStats prices))%Q /\
  (PriceStats.averagePrice (calculatePriceStats prices)
   <= PriceStats.highPrice (calculatePriceStats prices))%Q.
Proof.
  rewrite calculatePriceStats_exact.
  destruct (positivePrices prices) as [|v vs].
  - cbn. split; apply Qle_refl.
  - cbn [PriceStats.lowPrice PriceStats.averagePrice PriceStats.highPrice].
    destruct (Math_min_least vs v) as (_ & Hmin).
    destruct (Math_max_greatest vs v) as (_ & Hmax).
    destruct (mean_between v vs (Math_min v vs) (Math_max v vs)) as (Hlo & Hhi).
    { intros x Hx. split; auto. }
    split; now apply roundToTenth_monotone.
Qed.

(** The filter of the code is the filter of the specification. *)
Lemma positivePrices_filter (prices : list (StorePrice.t Q)) :
  positivePrices prices
  = filter (fun p => if Qlt_le_dec 0 p then true else false)
      (List.map (@StorePrice.price Q) prices).
Proof.
  unfold positivePrices. apply filter_ext. intros p.
  destruct (Qlt_le_dec 0 p) as [Hp|Hp].
  - now apply gtb_exact_pos.
  - destruct (gtb p (lit 0)) eqn:E; auto.
    apply gtb_exact_pos in E. exfalso. exact (Qlt_not_le _ _ E Hp).
Qed.

Lemma sum_left_right (vs : list Q) (a : Q) :
  (fold_left Qplus vs a == a + fold_right Qplus 0 vs)%Q.
Proof.
  revert a. induction vs as [|x vs IH]; intros a; simpl.
  - ring.
  - rewrite IH. ring.
Qed.

Lemma minimum_least (vs : list Q) (v : Q) :
  In (minimum v vs) (v :: vs) /\
  forall x, In x (v :: vs) -> (minimum v vs <= x)%Q.
Proof.
  unfold minimum. induction vs as [|a vs IH].
  - simpl. split; auto. intros x [<-|[]]. apply Qle_refl.
  - cbn [fold_right]. destruct IH as (Hin & Hall).
    set (m := fold_right Qmin v vs) in *.
    unfold Qmin, GenericMinMax.gmin. destruct (Qcompare a m) eqn:C.
    + apply Qeq_alt in C. split; [simpl; tauto|].
      intros x [<-|[<-|Hx]].
      * rewrite C. apply Hall. now left.
      * apply Qle_refl.
      * rewrite C. apply Hall. now right.
    + apply Qlt_alt in C. apply Qlt_le_weak in C. split; [simpl; tauto|].
      intros x [<-|[<-|Hx]].
      * apply Qle_trans with m; auto. apply Hall. now left.
      * apply Qle_refl.
      * apply Qle_trans with m; auto. apply Hall. now right.
    + apply Qgt_alt in C. apply Qlt_le_weak in C.
      split; [simpl in *; tauto|].
      intros x [<-|[<-|Hx]]; auto. apply Hall. now left. apply Hall. now right.
Qed.

Lemma maximum_greatest (vs : list Q) (v : Q) :
  In (maximum v vs) (v :: vs) /\
  forall x, In x (v :: vs) -> (x <= maximum v vs)%Q.
Proof.
  unfold maximum. induction vs as [|a vs IH].
  - simpl. split; auto. intros x [<-|[]]. apply Qle_refl.
  - cbn [fold_right]. destruct IH as (Hin & Hall).
    set (m := fold_right Qmax v vs) in *.
    unfold Qmax, GenericMinMax.gmax. destruct (Qcompare a m) eqn:C.
    + apply Qeq_alt in C. split; [simpl; tauto|].
      intros x [<-|[<-|Hx]].
      * rewrite C. apply Hall. now left.
      * apply Qle_refl.
      * rewrite C. apply Hall. now right.
    + apply Qlt_alt in C. apply Qlt_le_weak in C.
      split; [simpl in *; tauto|].
      intros x [<-|[<-|Hx]]; auto. apply Hall. now left. apply Hall. now right.
    + apply Qgt_alt in C. apply Qlt_le_weak in C. split; [simpl; tauto|].
      intros x [<-|[<-|Hx]].
      * apply Qle_trans with m; auto. apply Hall. now left.
      * apply Qle_refl.
      * apply Qle_trans with m; auto. apply Hall. now right.
Qed.

Lemma roundToTenth_Qeq (x y : Q) :
  (x == y)%Q -> (roundToTenth x == roundToTenth y)%Q.
Proof.
  intros E. apply Qle_antisym; apply roundToTenth_monotone; rewrite E; apply Qle_refl.
Qed.

(** On a positive number [Math.round(x * 10) / 10] rounds to one decimal
    place with ties away from zero. *)
Lemma roundToTenth_half_away (x : Q) :
  (0 < x)%Q -> (roundToTenth x == roundToOneDecimal x)%Q.
Proof.
  intros Hx. unfold roundToTenth, roundToOneDecimal, roundHalfAwayFromZero.
  cbn [div mul lit Math_round ExactNum].
  assert (Hpos : (0 < x * 10)%Q) by lra.
  assert (Hnum : (0 < Qnum (x * 10))%Z).
  { unfold Qlt in Hpos. cbn [Qnum Qden Qmult] in *. lia. }
  rewrite (Z.sgn_pos _ Hnum), Z.mul_1_l.
  assert (Habs : (Qabs (x * 10) == x * 10)%Q) by (apply Qabs_pos; lra).
  rewrite Habs. reflexivity.
Qed.

(** In exact arithmetic [calculatePriceStats] is [summarize]. *)
Lemma calculatePriceStats_exact_summarize (prices : list (StorePrice.t Q)) :
  sameStats (calculatePriceStats prices) (summarize prices).
Proof.
  rewrite calculatePriceStats_exact. unfold summarize.
  rewrite <- positivePrices_filter.
  pose proof (positivePrices_pos prices) as Hpos.
  destruct (positivePrices prices) as [|v vs].
  - repeat split; reflexivity.
  - destruct (Math_min_least vs v) as (Hmin_in & Hmin).
    destruct (Math_max_greatest vs v) as (Hmax_in & Hmax).
    destruct (minimum_least vs v) as (Hmin_in' & Hmin').
    destruct (maximum_greatest vs v) as (Hmax_in' & Hmax').
    assert (Emin : (Math_min v vs == minimum v vs)%Q)
      by (apply Qle_antisym; auto).
    assert (Emax : (Math_max v vs == maximum v vs)%Q)
      by (apply Qle_antisym; auto).
    assert (Emean : (fold_left Qplus (v :: vs) 0
                     / inject_Z (Z.of_nat (List.length (v :: vs)))
                     == mean v vs)%Q).
    { unfold mean. rewrite sum_left_right. now rewrite Qplus_0_l. }
    assert (Hmean : (0 < mean v vs)%Q).
    { rewrite <- Emean.
      destruct (mean_between v vs (Math_min v vs) (Math_max v vs)) as (Hlo & _).
      { intros x Hx. split; auto. }
      eapply Qlt_le_trans; [|exact Hlo]. now apply Hpos. }
    unfold sameStats.
    cbn [PriceStats.lowPrice PriceStats.averagePrice PriceStats.highPrice].
    split; [|split].
    + rewrite (roundToTenth_Qeq _ _ Emean). now apply roundToTenth_half_away.
    + rewrite (roundToTenth_Qeq _ _ Emin). apply roundToTenth_half_away.
      now apply Hpos.
    + rewrite (roundToTenth_Qeq _ _ Emax). apply roundToTenth_half_away.
      now apply Hpos.
Qed.

End StatsExact.

(** ** Aggregator, on IEEE doubles *)

(** Every entry of the fallback table, and the default, is ordered. *)
Lemma fallback_prices_ordered :
  forallb orderedFallback (JsMap.values (fallbackPrices (num := float))) = true /\
  orderedFallback (getFallbackPrice (num := float) "36") = true /\
  forallb orderedFallback (JsMap.values (fallbackPrices (num := Q))) = true /\
  orderedFallback (getFallbackPrice (num := Q) "36") = true.
Proof.
  repeat split; vm_compute; reflexivity.
Qed.

(** C6, on the code.  Three price points of 5.85 are summarized on doubles as
    average 5.8, low 5.9 and high 5.9: the sum 17.549999999999997 divided by
    3 is 5.849999999999999, which times 10 rounds to 58, while 5.85 times 10
    is 58.5 and rounds to 59.  So low <= average fails, here and on the
    product that a crawl of three such records yields.  The fallback table
    and its default are ordered. *)
Theorem average_below_low_on_doubles :
  calculatePriceStats (num := float) [pricePoint 5.85; pricePoint 5.85; pricePoint 5.85]
    = PriceStats.mk (lit 5.8) (lit 5.9) (lit 5.9) /\
  ordered (calculatePriceStats (num := float)
             [pricePoint 5.85; pricePoint 5.85; pricePoint 5.85]) = false /\
  (match fst (fetchAllPrices (num := float) (oneFileWorld threeTomatoes) 0 1 emptyState) with
   | tomatoes :: _ =>
       Product.id tomatoes = "1" /\
       Product.averagePrice tomatoes = lit 5.8 /\
       Product.lowPrice tomatoes = lit 5.9 /\
       ltb (Product.averagePrice tomatoes) (Product.lowPrice tomatoes) = true
   | [] => False
   end) /\
  forallb orderedFallback (JsMap.values (fallbackPrices (num := float))) = true /\
  orderedFallback (getFallbackPrice (num := float) "36") = true.
Proof.
  repeat split; vm_compute; reflexivity.
Qed.

(** C8, on the code.  On doubles the two examples of the specification come
    out as stated, and so does the sentinel; but three equal price points of
    5.85, whose mean, minimum and maximum are the same number, are summarized
    with average 5.8 and low and high 5.9, where [summarize] gives 5.9 three
    times. *)
Theorem summary_of_equal_prices_on_doubles :
  calculatePriceStats (num := float) [] = PriceStats.mk (lit 0) (lit 0) (lit 0) /\
  calculatePriceStats (num := float) [pricePoint 5; pricePoint 15]
    = PriceStats.mk (lit 10) (lit 5) (lit 15) /\
  calculatePriceStats (num := float) [pricePoint 5.85; pricePoint 5.85; pricePoint 5.85]
    = PriceStats.mk (lit 5.8) (lit 5.9) (lit 5.9) /\
  lit (num := float) 5.8 <> lit 5.9 /\
  sameStats (summarize [pricePoint 5.85; pricePoint 5.85; pricePoint 5.85])
            (PriceStats.mk 5.9 5.9 5.9).
Proof.
  repeat split; try (vm_compute; reflexivity).
  vm_compute. discriminate.
Qed.

(** In exact arithmetic the examples of the specification hold too. *)
Lemma summarize_examples_exact :
  sameStats (calculatePriceStats (num := Q) []) (PriceStats.mk 0 0 0) /\
  sameStats (calculatePriceStats (num := Q) [pricePoint 5; pricePoint 15])
            (PriceStats.mk 10 5 15).
Proof.
  repeat split; vm_compute; reflexivity.
Qed.
(** * Further properties *)

(** ** Rating, on doubles *)

Module Float64Facts.

Lemma Prim2SF_infinity : Prim2SF PrimFloat.infinity = S754_infinity false.
Proof. vm_compute. reflexivity. Qed.

Lemma SFeqb_finite_refl (s : bool) (m : positive) (e : Z) :
  SFeqb (S754_finite s m e) (S754_finite s m e) = true.
Proof.
  unfold SFeqb, SFcompare. rewrite Z.compare_refl, Pos.compare_cont_refl.
  now destruct s.
Qed.

(** A finite double is a zero or has a mantissa and an exponent; the others
    are NaN and the two infinities. *)
Lemma is_finite_cases (x : float) :
  PrimFloat.is_finite x = true ->
  (exists s, Prim2SF x = S754_zero s) \/
  (exists s m e, Prim2SF x = S754_finite s m e).
Proof.
  unfold PrimFloat.is_finite, PrimFloat.is_nan, PrimFloat.is_infinity.
  rewrite !FloatAxioms.eqb_spec, FloatAxioms.abs_spec, Prim2SF_infinity.
  destruct (Prim2SF x) as [s|s| |s m e]; eauto.
  - destruct s; simpl; discriminate.
  - simpl. discriminate.
Qed.

Lemma is_finite_false_cases (x : float) :
  PrimFloat.is_finite x = false ->
  Prim2SF x = S754_nan \/ exists s, Prim2SF x = S754_infinity s.
Proof.
  unfold PrimFloat.is_finite, PrimFloat.is_nan, PrimFloat.is_infinity.
  rewrite !FloatAxioms.eqb_spec, FloatAxioms.abs_spec, Prim2SF_infinity.
  destruct (Prim2SF x) as [s|s| |s m e]; eauto.
  - simpl. discriminate.
  - rewrite SFeqb_finite_refl. simpl. discriminate.
Qed.

(** Two numbers that are [===] and finite have the same sign, mantissa and
    exponent, or are both zeros. *)
Lemma eqb_finite_cases (x y : float) :
  PrimFloat.eqb x y = true -> PrimFloat.is_finite y = true ->
  (exists s s', Prim2SF x = S754_zero s /\ Prim2SF y = S754_zero s') \/
  (exists s m e, Prim2SF x = S754_finite s m e /\ Prim2SF y = S754_finite s m e).
Proof.
  intros E Hf. rewrite FloatAxioms.eqb_spec in E. unfold SFeqb in E.
  destruct (is_finite_cases y Hf) as [(s' & Hy)|(s' & m' & e' & Hy)];
    rewrite Hy in E.
  - destruct (Prim2SF x) as [s| s | |s m e]; simpl in E; try discriminate; eauto.
    + destruct s; discriminate.
    + destruct s; discriminate.
  - destruct (Prim2SF x) as [s| s | |s m e]; simpl in E; try discriminate.
    + destruct s'; discriminate.
    + destruct s; discriminate.
    + right. exists s', m', e'. split; auto.
      destruct s, s'; try discriminate;
        destruct (Z.compare e e') eqn:Ee; try discriminate;
        apply Z.compare_eq in Ee; subst e';
        destruct (Pos.compare_cont Eq m m') eqn:Em; try discriminate;
        apply Pos.compare_eq in Em; now subst m'.
Qed.

Lemma sub_equal_finite (x y : float) :
  PrimFloat.eqb x y = true -> PrimFloat.is_finite y = true ->
  exists s, Prim2SF (PrimFloat.sub x y) = S754_zero s.
Proof.
  intros E Hf. rewrite FloatAxioms.sub_spec.
  destruct (eqb_finite_cases x y E Hf)
    as [(s & s' & -> & ->)|(s & m & e & -> & ->)].
  - destruct s, s'; simpl; eauto.
  - exists false. unfold SF64sub, SFsub. rewrite Z.sub_diag. reflexivity.
Qed.

Lemma sub_equal_infinite (x y : float) :
  PrimFloat.eqb x y = true -> PrimFloat.is_finite y = false ->
  Prim2SF (PrimFloat.sub x y) = S754_nan.
Proof.
  intros E Hf. rewrite FloatAxioms.sub_spec. rewrite FloatAxioms.eqb_spec in E. unfold SFeqb in E.
  destruct (is_finite_false_cases y Hf) as [Hy|(s' & Hy)]; rewrite Hy in E |- *.
  - destruct (Prim2SF x); reflexivity.
  - destruct (Prim2SF x) as [s| s | |s m e]; simpl in E; try discriminate.
    + destruct s'; discriminate.
    + destruct s, s'; try discriminate; reflexivity.
    + destruct s'; discriminate.
Qed.

Lemma div_nan (x y : float) :
  Prim2SF y = S754_nan -> Prim2SF (PrimFloat.div x y) = S754_nan.
Proof.
  intros Hy. rewrite FloatAxioms.div_spec, Hy. now destruct (Prim2SF x).
Qed.

Lemma leb_nan (x y : float) :
  Prim2SF x = S754_nan -> PrimFloat.leb x y = false.
Proof.
  intros Hx. rewrite FloatAxioms.leb_spec, Hx. reflexivity.
Qed.

End Float64Facts.

(** X1. A product whose high and low prices are equal ([===]) rates every
    price average when the two are finite; when they are the same infinity
    the range is NaN and every price rates expensive. *)
Theorem rating_of_flat_range (price : float) (product : Product.t float) :
  eqb (Product.highPrice product) (Product.lowPrice product) = true ->
  getPriceRating price product
  = if PrimFloat.is_finite (Product.lowPrice product) then average else expensive.
Proof.
  intros E. unfold getPriceRating. cbn [sub eqb div leb FloatNum] in *.
  destruct (PrimFloat.is_finite (Product.lowPrice product)) eqn:Hf.
  - destruct (Float64Facts.sub_equal_finite _ _ E Hf) as (s & Hs).
    assert (Hz : PrimFloat.eqb
                   (PrimFloat.sub (Product.highPrice product) (Product.lowPrice product))
                   (lit 0) = true).
    { rewrite FloatAxioms.eqb_spec, Hs. vm_compute. reflexivity. }
    now rewrite Hz.
  - pose proof (Float64Facts.sub_equal_infinite _ _ E Hf) as Hn.
    assert (Hz : PrimFloat.eqb
                   (PrimFloat.sub (Product.highPrice product) (Product.lowPrice product))
                   (lit 0) = false).
    { rewrite FloatAxioms.eqb_spec, Hn. reflexivity. }
    rewrite Hz.
    rewrite !(Float64Facts.leb_nan _ _ (Float64Facts.div_nan _ _ Hn)).
    reflexivity.
Qed.

Lemma rating_of_flat_range_witness :
  getPriceRating (num := float) (lit 7) (productWithRange 5 5) = average.
Proof.
  exact (rating_of_flat_range (lit 7) (productWithRange 5 5) eq_refl).
Defined.

(** ** Fuzzy search and the matcher's bounds *)

Lemma includes_empty (s : string) : JsString.includes s "" = true.
Proof. destruct s; reflexivity. Qed.

Lemma In_firstn {A} (n : nat) (l : list A) (x : A) :
  In x (firstn n l) -> In x l.
Proof.
  revert l. induction n as [|n IH]; intros [|a l]; simpl; auto.
  - intros [].
  - intros [->|Hx]; auto.
Qed.

Section Search.
Context {num : Type} `{Number num}.

Lemma searchItems_In (items : list (RawStoreItem.t num)) (searchTerms : list string)
    (item : RawStoreItem.t num) :
  In item (searchItems items searchTerms) -> In item items.
Proof.
  unfold searchItems. intros Hin. apply filter_In in Hin. tauto.
Qed.

(** X4. [searchItems] keeps the records in their order and drops the others:
    without search terms nothing is found, and an empty search term finds
    every record, since every code includes the empty string. *)
Theorem searchItems_edge_terms (items : list (RawStoreItem.t num))
    (searchTerms : list string) :
  searchItems items [] = [] /\
  (In "" searchTerms -> searchItems items searchTerms = items) /\
  (forall item, In item (searchItems items searchTerms) -> In item items) /\
  (List.length (searchItems items searchTerms) <= List.length items)%nat.
Proof.
  unfold searchItems. repeat split.
  - induction items as [|a l IH]; simpl; auto.
  - intros Hin. induction items as [|a l IH]; simpl; auto.
    assert (E : existsb (fun term =>
                  String.eqb (RawStoreItem.itemCode a) term
                  || JsString.includes (RawStoreItem.itemCode a) term
                  || JsString.includes (JsString.toLowerCase (RawStoreItem.itemName a))
                       (JsString.toLowerCase term)) searchTerms = true).
    { apply existsb_exists. exists "". split; auto.
      rewrite includes_empty. now rewrite orb_true_r. }
    rewrite E. now rewrite IH.
  - intros item. apply (searchItems_In items searchTerms).
  - apply filter_length_le.
Qed.

Lemma fold_left_push {A} (f : A -> bool) (l acc : list A) :
  fold_left (fun results x => if f x then results ++ [x] else results) l acc
  = acc ++ filter f l.
Proof.
  revert acc. induction l as [|a l IH]; intros acc; simpl.
  - now rewrite app_nil_r.
  - rewrite IH. destruct (f a); auto.
    now rewrite <- app_assoc.
Qed.

(** X5. The two versions of [searchItems], the loop that pushes the matches
    and the filter, return the same list. *)
Theorem searchItems_versions_agree (items : list (RawStoreItem.t num))
    (searchTerms : list string) :
  LegacyCrawl.searchItems items searchTerms = searchItems items searchTerms.
Proof.
  unfold LegacyCrawl.searchItems, searchItems.
  apply (fold_left_push
           (fun item =>
              existsb (fun term =>
                String.eqb (RawStoreItem.itemCode item) term
                || JsString.includes (RawStoreItem.itemCode item) term
                || JsString.includes (JsString.toLowerCase (RawStoreItem.itemName item))
                     (JsString.toLowerCase term)) searchTerms)
           items []).
Qed.

(** X6. Every price point the matcher returns is the price point of a record
    of the input, and when no record carries a barcode of the product at most
    five are returned. *)
Theorem findPricesForProduct_bounds (product : CatalogProduct.t)
    (allItems : list (RawStoreItem.t num)) :
  (forall sp, In sp (findPricesForProduct product allItems) ->
     exists item, In item allItems /\ sp = toStorePrice item) /\
  (barcodeMatches (CatalogProduct.barcodes product) allItems = [] ->
   (List.length (findPricesForProduct product allItems) <= 5)%nat).
Proof.
  unfold findPricesForProduct.
  destruct (barcodeMatches (CatalogProduct.barcodes product) allItems) as [|sp0 l] eqn:E.
  - cbn [List.length Nat.eqb app]. split.
    + intros sp Hin. apply in_map_iff in Hin. destruct Hin as (x & <- & Hx).
      apply In_firstn in Hx. apply searchItems_In in Hx.
      apply in_map_iff in Hx. destruct Hx as (i & <- & Hi).
      exists i. split; auto.
    + intros _. rewrite length_map. apply firstn_le_length.
  - cbn [List.length Nat.eqb]. split.
    + intros sp Hin. rewrite <- E in Hin. apply In_barcodeMatches in Hin.
      destruct Hin as (item & Hi & _ & ->). eauto.
    + discriminate.
Qed.

End Search.

Lemma searchItems_edge_terms_witness :
  searchItems (num := float) milkShelf ["halva"; ""] = milkShelf.
Proof.
  apply (proj1 (proj2 (searchItems_edge_terms (num := float) milkShelf ["halva"; ""]))).
  right. left. reflexivity.
Defined.

Lemma findPricesForProduct_bounds_witness :
  (List.length (findPricesForProduct (num := float) milkProduct
                  [record "7290000099999" "Chocolate milk" 9.9]) <= 5)%nat.
Proof.
  apply (proj2 (findPricesForProduct_bounds (num := float) milkProduct
                  [record "7290000099999" "Chocolate milk" 9.9])).
  reflexivity.
Defined.

(** ** The map, continued *)

Module JsMapMore.

Lemma In_set {V} (m : JsMap.t V) (k : string) (v : V) (kv : string * V) :
  In kv (JsMap.set m k v) -> kv = (k, v) \/ In kv m.
Proof.
  induction m as [|[k' v'] m IH]; simpl.
  - intros [<-|[]]. now left.
  - destruct (String.eqb k' k) eqn:E; simpl.
    + apply String.eqb_eq in E. subst k'. intros [<-|Hin]; auto.
    + intros [<-|Hin]; auto. destruct (IH Hin); auto.
Qed.

Lemma In_keys_set {V} (m : JsMap.t V) (k : string) (v : V) (k0 : string) :
  In k0 (List.map fst (JsMap.set m k v)) -> k0 = k \/ In k0 (List.map fst m).
Proof.
  intros Hin. apply in_map_iff in Hin. destruct Hin as ([k1 v1] & <- & Hin).
  apply In_set in Hin. destruct Hin as [E|Hin].
  - inversion E. now left.
  - right. apply in_map_iff. exists (k1, v1). auto.
Qed.

Lemma NoDup_keys_set {V} (m : JsMap.t V) (k : string) (v : V) :
  NoDup (List.map fst m) -> NoDup (List.map fst (JsMap.set m k v)).
Proof.
  induction m as [|[k' v'] m IH]; simpl; intros Hnd.
  - constructor; auto.
  - inversion Hnd as [|? ? Hnotin Hnd']; subst.
    destruct (String.eqb k' k) eqn:E; simpl.
    + constructor; auto.
    + apply String.eqb_neq in E. constructor; auto.
      intros Hin. apply In_keys_set in Hin. destruct Hin; auto.
Qed.

Lemma get_None_keys {V} (m : JsMap.t V) (k : string) :
  JsMap.get m k = None <-> ~ In k (List.map fst m).
Proof.
  induction m as [|[k' v'] m IH]; simpl.
  - tauto.
  - destruct (String.eqb k' k) eqn:E.
    + apply String.eqb_eq in E. split; [discriminate | intros Hn; exfalso; auto].
    + apply String.eqb_neq in E. rewrite IH. tauto.
Qed.

(** Setting a key that is absent appends the entry. *)
Lemma set_absent {V} (m : JsMap.t V) (k : string) (v : V) :
  ~ In k (List.map fst m) -> JsMap.set m k v = m ++ [(k, v)].
Proof.
  induction m as [|[k' v'] m IH]; simpl; intros Hn; auto.
  destruct (String.eqb k' k) eqn:E.
  - apply String.eqb_eq in E. exfalso. auto.
  - rewrite IH; auto.
Qed.

(** With keys listed once, an entry of the list is what [get] finds. *)
Lemma get_In {V} (m : JsMap.t V) (k : string) (v : V) :
  NoDup (List.map fst m) -> In (k, v) m -> JsMap.get m k = Some v.
Proof.
  induction m as [|[k' v'] m IH]; simpl; intros Hnd Hin.
  - destruct Hin.
  - inversion Hnd as [|? ? Hnotin Hnd']; subst.
    destruct Hin as [E|Hin].
    + inversion E. subst. now rewrite String.eqb_refl.
    + destruct (String.eqb k' k) eqn:E.
      * apply String.eqb_eq in E. subst k'. exfalso. apply Hnotin.
        apply in_map_iff. exists (k, v). auto.
      * auto.
Qed.

Lemma get_Some_In {V} (m : JsMap.t V) (k : string) (v : V) :
  JsMap.get m k = Some v -> In (k, v) m.
Proof.
  induction m as [|[k' v'] m IH]; simpl; [discriminate|].
  destruct (String.eqb k' k) eqn:E.
  - apply String.eqb_eq in E. subst k'. intros [= ->]. now left.
  - auto.
Qed.

End JsMapMore.

(** ** The crawl *)

Section CrawlFacts.
Context {num : Type} `{Number num}.

Lemma wellKeyed_step (m : JsMap.t (RawStoreItem.t num))
    (seen : RawStoreItem.t num -> Prop) (x : RawStoreItem.t num) :
  wellKeyed m seen -> wellKeyed (dedupeStep m x) (fun v => seen v \/ v = x).
Proof.
  intros (Hnd & Hall).
  assert (Hset : wellKeyed (JsMap.set m (RawStoreItem.itemCode x) x)
                   (fun v => seen v \/ v = x)).
  { split.
    - now apply JsMapMore.NoDup_keys_set.
    - intros k v Hin. apply JsMapMore.In_set in Hin. destruct Hin as [E|Hin].
      + inversion E. subst. auto.
      + destruct (Hall k v Hin). auto. }
  assert (Hkeep : wellKeyed m (fun v => seen v \/ v = x)).
  { split; auto. intros k v Hin. destruct (Hall k v Hin). auto. }
  unfold dedupeStep.
  destruct (JsMap.get m (RawStoreItem.itemCode x)); auto.
  destruct (ltb _ _); auto.
Qed.

Lemma wellKeyed_fold (l : list (RawStoreItem.t num))
    (m : JsMap.t (RawStoreItem.t num)) (seen : RawStoreItem.t num -> Prop) :
  wellKeyed m seen ->
  wellKeyed (fold_left dedupeStep l m) (fun v => seen v \/ In v l).
Proof.
  revert m seen. induction l as [|x l IH]; intros m seen Hw; simpl.
  - destruct Hw as (Hnd & Hall). split; auto.
    intros k v Hin. destruct (Hall k v Hin). auto.
  - apply wellKeyed_step with (x := x) in Hw. apply IH in Hw.
    destruct Hw as (Hnd & Hall). split; auto.
    intros k v Hin. destruct (Hall k v Hin) as (Hk & [ [Hs | ->] | Hl ]); auto.
Qed.

Lemma wellKeyed_dedupe (l : list (RawStoreItem.t num)) :
  wellKeyed (dedupe l) (fun v => In v l).
Proof.
  unfold dedupe.
  destruct (wellKeyed_fold l JsMap.empty (fun _ => False)) as (Hnd & Hall).
  - split; [constructor | intros k v []].
  - split; auto. intros k v Hin. destruct (Hall k v Hin) as (Hk & [Hf|Hl]); auto.
    destruct Hf.
Qed.

(** The codes of the records kept are the keys. *)
Lemma codes_of_values (m : JsMap.t (RawStoreItem.t num))
    (seen : RawStoreItem.t num -> Prop) :
  wellKeyed m seen ->
  List.map (@RawStoreItem.itemCode num) (JsMap.values m) = List.map fst m.
Proof.
  intros (_ & Hall). unfold JsMap.values. rewrite map_map.
  apply map_ext_in. intros [k v] Hin. simpl. now destruct (Hall k v Hin).
Qed.

Lemma dedupe_codes_NoDup (l : list (RawStoreItem.t num)) :
  NoDup (List.map (@RawStoreItem.itemCode num) (JsMap.values (dedupe l))).
Proof.
  pose proof (wellKeyed_dedupe l) as Hw.
  rewrite (codes_of_values _ _ Hw). now destruct Hw.
Qed.

Lemma dedupe_values_In (l : list (RawStoreItem.t num)) (x : RawStoreItem.t num) :
  In x (JsMap.values (dedupe l)) -> In x l.
Proof.
  intros Hin. unfold JsMap.values in Hin. apply in_map_iff in Hin.
  destruct Hin as ([k v] & <- & Hin).
  destruct (wellKeyed_dedupe l) as (_ & Hall). now destruct (Hall k v Hin).
Qed.

Lemma dedupeStep_nonempty (m : JsMap.t (RawStoreItem.t num)) (x : RawStoreItem.t num) :
  (0 < JsMap.size (dedupeStep m x))%nat.
Proof.
  unfold dedupeStep.
  destruct (JsMap.get m (RawStoreItem.itemCode x)) as [e|] eqn:G.
  - destruct (ltb _ _); [apply JsMapFacts.size_set_pos|].
    destruct m; [discriminate G | simpl; lia].
  - apply JsMapFacts.size_set_pos.
Qed.

Lemma dedupe_nonempty (l : list (RawStoreItem.t num)) :
  l <> [] -> JsMap.values (dedupe l) <> [].
Proof.
  intros Hl Hv.
  assert (Hsize : forall l' m, (0 < JsMap.size m)%nat ->
            (0 < JsMap.size (fold_left dedupeStep l' m))%nat).
  { induction l' as [|y l' IH]; intros m Hm; simpl; auto.
    apply IH. apply dedupeStep_nonempty. }
  destruct l as [|x l]; [now destruct Hl|].
  unfold dedupe in Hv. simpl in Hv.
  pose proof (Hsize l (dedupeStep JsMap.empty x) (dedupeStep_nonempty _ _)) as Hpos.
  unfold JsMap.values in Hv. unfold JsMap.size in Hpos.
  destruct (fold_left dedupeStep l (dedupeStep JsMap.empty x)); simpl in *;
    [lia | discriminate].
Qed.

(** On records whose codes differ from the keys and from each other the
    loop appends them one by one. *)
Lemma fold_dedupeStep_fresh (l : list (RawStoreItem.t num))
    (m : JsMap.t (RawStoreItem.t num)) :
  NoDup (List.map fst m ++ List.map (@RawStoreItem.itemCode num) l) ->
  fold_left dedupeStep l m
  = m ++ List.map (fun x => (RawStoreItem.itemCode x, x)) l.
Proof.
  revert m. induction l as [|x l IH]; intros m Hnd; simpl.
  - now rewrite app_nil_r.
  - assert (Hx : ~ In (RawStoreItem.itemCode x) (List.map fst m)).
    { intros Hin. apply NoDup_remove_2 in Hnd. apply Hnd.
      apply in_or_app. now left. }
    assert (Hstep : dedupeStep m x = m ++ [(RawStoreItem.itemCode x, x)]).
    { unfold dedupeStep.
      rewrite (proj2 (JsMapMore.get_None_keys m _) Hx).
      now apply JsMapMore.set_absent. }
    rewrite Hstep, IH.
    + now rewrite <- app_assoc.
    + rewrite map_app. simpl. rewrite <- app_assoc. simpl.
      simpl in Hnd. exact Hnd.
Qed.

End CrawlFacts.

Section CrawlTheorems.
Context {num : Type} `{Number num}.

(** The download loop adds the records of the files in their order and
    counts the files that have records. *)
Lemma processFiles_spec (w : World num) (files : list string)
    (items : list (RawStoreItem.t num)) (n : nat) :
  processFiles w files items n
  = (items ++ flat_map (fileRecords w) files,
     (n + List.length (filter (fileCounts w) files))%nat).
Proof.
  revert items n. induction files as [|u files IH]; intros items n; simpl.
  - now rewrite app_nil_r, Nat.add_0_r.
  - unfold fileRecords at 1, fileCounts at 1.
    destruct (priceFile w u) as [parsed|e].
    + destruct parsed as [|p parsed]; simpl.
      * now rewrite IH.
      * rewrite IH. rewrite <- app_assoc. simpl. f_equal. lia.
    + now rewrite IH.
Qed.

(** The result of a crawl whose locator found URLs. *)
Lemma crawlShufersal_found (w : World num) (now : Z) (urls : list string) :
  fetchPriceFileUrls w = Ok urls -> urls <> [] ->
  crawlShufersal w now
  = CrawlerResult.mk
      ((0 <? List.length (filter (fileCounts w) (firstn 5 urls)))%nat
       && (0 <? List.length
                  (JsMap.values (dedupe (flat_map (fileRecords w) (firstn 5 urls)))))%nat)
      "Shufersal"
      (JsMap.values (dedupe (flat_map (fileRecords w) (firstn 5 urls))))
      None now.
Proof.
  intros E Hne. unfold crawlShufersal. rewrite E. cbn [bind].
  destruct urls as [|u urls]; [now destruct Hne|].
  cbn [List.length Nat.eqb].
  rewrite processFiles_spec. reflexivity.
Qed.

(** The result of a crawl whose locator found nothing or threw. *)
Lemma crawlShufersal_not_found (w : World num) (now : Z) :
  fetchPriceFileUrls w = Ok [] \/ (exists e, fetchPriceFileUrls w = Err e) ->
  CrawlerResult.success (crawlShufersal w now) = false /\
  CrawlerResult.items (crawlShufersal w now) = [].
Proof.
  intros [E|(e & E)]; unfold crawlShufersal; rewrite E; split; reflexivity.
Qed.

Lemma fetchPriceFileUrls_cases (w : World num) :
  (exists urls, fetchPriceFileUrls w = Ok urls /\ urls <> []) \/
  fetchPriceFileUrls w = Ok [] \/ (exists e, fetchPriceFileUrls w = Err e).
Proof.
  destruct (fetchPriceFileUrls w) as [[|u urls]|e]; eauto.
  left. exists (u :: urls). split; auto. discriminate.
Qed.

Lemma counted_when_records (w : World num) (files : list string) :
  flat_map (fileRecords w) files <> [] ->
  (0 < List.length (filter (fileCounts w) files))%nat.
Proof.
  induction files as [|u files IH]; simpl; intros Hne.
  - now destruct Hne.
  - unfold fileRecords in Hne at 1. unfold fileCounts at 1.
    destruct (priceFile w u) as [[|p parsed]|e]; simpl in *; auto; lia.
Qed.

(** X7. A crawl reports success exactly when it returns records. *)
Theorem crawl_success_iff_items (w : World num) (now : Z) :
  CrawlerResult.success (crawlShufersal w now) = true <->
  CrawlerResult.items (crawlShufersal w now) <> [].
Proof.
  destruct (fetchPriceFileUrls_cases w) as [(urls & E & Hne)|Hnone].
  - rewrite (crawlShufersal_found w now urls E Hne).
    cbn [CrawlerResult.success CrawlerResult.items].
    set (collected := flat_map (fileRecords w) (firstn 5 urls)).
    split.
    + intros Hs. apply andb_true_iff in Hs. destruct Hs as (_ & Hl).
      apply Nat.ltb_lt in Hl. intros Hv. rewrite Hv in Hl. simpl in Hl. lia.
    + intros Hv. apply andb_true_iff. split; apply Nat.ltb_lt.
      * apply counted_when_records. fold collected.
        intros Hc. rewrite Hc in Hv. now apply Hv.
      * destruct (JsMap.values (dedupe collected)); [now destruct Hv | simpl; lia].
  - destruct (crawlShufersal_not_found w now Hnone) as (-> & ->).
    split; [discriminate | intros Hn; now destruct Hn].
Qed.

Lemma In_flat_map_fileRecords (w : World num) (files : list string)
    (item : RawStoreItem.t num) :
  In item (flat_map (fileRecords w) files) ->
  exists url parsed, In url files /\ priceFile w url = Ok parsed /\ In item parsed.
Proof.
  intros Hin. apply in_flat_map in Hin. destruct Hin as (url & Hu & Hi).
  unfold fileRecords in Hi. destruct (priceFile w url) as [parsed|e] eqn:E.
  - exists url, parsed. auto.
  - destruct Hi.
Qed.

(** X8. The records a crawl returns have pairwise different codes, and each
    of them is a record of one of the first five files of the listing. *)
Theorem crawl_items_distinct_and_downloaded (w : World num) (now : Z) :
  NoDup (List.map (@RawStoreItem.itemCode num)
           (CrawlerResult.items (crawlShufersal w now))) /\
  forall item, In item (CrawlerResult.items (crawlShufersal w now)) ->
    exists urls url parsed,
      fetchPriceFileUrls w = Ok urls /\ In url (firstn 5 urls) /\
      priceFile w url = Ok parsed /\ In item parsed.
Proof.
  destruct (fetchPriceFileUrls_cases w) as [(urls & E & Hne)|Hnone].
  - rewrite (crawlShufersal_found w now urls E Hne).
    cbn [CrawlerResult.items]. split.
    + apply dedupe_codes_NoDup.
    + intros item Hin. apply dedupe_values_In in Hin.
      apply In_flat_map_fileRecords in Hin.
      destruct Hin as (url & parsed & Hu & Hp & Hi).
      exists urls, url, parsed. auto.
  - destruct (crawlShufersal_not_found w now Hnone) as (_ & ->).
    split; [constructor | intros item []].
Qed.

(** X9. Downloads are isolated: a file that fails, or has no records, leaves
    the download loop as if it were not in the list. *)
Theorem failed_download_is_skipped (w : World num) (before after : list string)
    (url : string) (items : list (RawStoreItem.t num)) (n : nat) :
  fileRecords w url = [] ->
  processFiles w (before ++ url :: after) items n
  = processFiles w (before ++ after) items n.
Proof.
  intros Hnone. rewrite !processFiles_spec.
  rewrite !flat_map_app, !filter_app. simpl. rewrite Hnone. simpl.
  assert (Hc : fileCounts w url = false).
  { unfold fileRecords in Hnone. unfold fileCounts.
    destruct (priceFile w url) as [parsed|e]; auto. now rewrite Hnone. }
  now rewrite Hc.
Qed.

Lemma flat_map_ext_In {A B} (f g : A -> list B) (l : list A) :
  (forall x, In x l -> f x = g x) -> flat_map f l = flat_map g l.
Proof.
  induction l as [|a l IH]; simpl; intros Hext; auto.
  rewrite (Hext a (or_introl eq_refl)), IH; auto.
Qed.

Lemma filter_ext_In {A} (f g : A -> bool) (l : list A) :
  (forall x, In x l -> f x = g x) -> filter f l = filter g l.
Proof.
  induction l as [|a l IH]; simpl; intros Hext; auto.
  rewrite (Hext a (or_introl eq_refl)), IH; auto.
Qed.

(** X10. At most five files are read: two worlds with the same listing page
    whose first five files have the same outcome give the same crawl. *)
Theorem crawl_reads_first_five (w w' : World num) (now : Z) (urls : list string) :
  fetchPriceFileUrls w = Ok urls ->
  page w' SHUFERSAL_URL = page w SHUFERSAL_URL ->
  (forall url, In url (firstn 5 urls) -> priceFile w' url = priceFile w url) ->
  crawlShufersal w' now = crawlShufersal w now.
Proof.
  intros E Hpage Hfiles.
  assert (E' : fetchPriceFileUrls w' = Ok urls).
  { unfold fetchPriceFileUrls in *. now rewrite Hpage. }
  destruct urls as [|u urls].
  - unfold crawlShufersal. now rewrite E, E'.
  - rewrite (crawlShufersal_found w now (u :: urls) E) by discriminate.
    rewrite (crawlShufersal_found w' now (u :: urls) E') by discriminate.
    assert (Hr : flat_map (fileRecords w') (firstn 5 (u :: urls))
                 = flat_map (fileRecords w) (firstn 5 (u :: urls))).
    { apply flat_map_ext_In. intros x Hx. unfold fileRecords. now rewrite Hfiles. }
    assert (Hc : filter (fileCounts w') (firstn 5 (u :: urls))
                 = filter (fileCounts w) (firstn 5 (u :: urls))).
    { apply filter_ext_In. intros x Hx. unfold fileCounts. now rewrite Hfiles. }
    now rewrite Hr, Hc.
Qed.

(** X11. When URLs are found but none of the first five files gives a
    record, because it fails or is empty, the crawl reports failure with no
    records and no error message. *)
Theorem crawl_fails_silently (w : World num) (now : Z) (urls : list string) :
  fetchPriceFileUrls w = Ok urls -> urls <> [] ->
  (forall url, In url (firstn 5 urls) -> fileRecords w url = []) ->
  crawlShufersal w now = CrawlerResult.mk false "Shufersal" [] None now.
Proof.
  intros E Hne Hnone.
  rewrite (crawlShufersal_found w now urls E Hne).
  assert (Hr : flat_map (fileRecords w) (firstn 5 urls) = []).
  { induction (firstn 5 urls) as [|u l IH]; simpl; auto.
    rewrite (Hnone u (or_introl eq_refl)). simpl.
    apply IH. intros x Hx. apply Hnone. now right. }
  rewrite Hr. cbn. now rewrite andb_false_r.
Qed.

(** X12. Records whose codes are pairwise different pass deduplication as
    they are, so deduplicating twice is deduplicating once. *)
Theorem dedupe_identity_on_distinct (l : list (RawStoreItem.t num)) :
  (NoDup (List.map (@RawStoreItem.itemCode num) l) ->
   JsMap.values (dedupe l) = l) /\
  JsMap.values (dedupe (JsMap.values (dedupe l))) = JsMap.values (dedupe l).
Proof.
  assert (Hid : forall l' : list (RawStoreItem.t num),
            NoDup (List.map (@RawStoreItem.itemCode num) l') ->
            JsMap.values (dedupe l') = l').
  { intros l' Hnd. unfold dedupe.
    rewrite (fold_dedupeStep_fresh l' JsMap.empty) by exact Hnd.
    unfold JsMap.values, JsMap.empty. simpl. rewrite map_map. simpl.
    apply map_id. }
  split; [apply Hid|].
  apply Hid. apply dedupe_codes_NoDup.
Qed.

End CrawlTheorems.

Lemma failed_download_is_skipped_witness :
  processFiles (num := float) (listingWorld fullAndIncrementalHtml)
    (["a.gz"] ++ "b.gz" :: ["c.gz"]) [] 0
  = processFiles (listingWorld fullAndIncrementalHtml) (["a.gz"] ++ ["c.gz"]) [] 0.
Proof.
  apply (failed_download_is_skipped (num := float)
           (listingWorld fullAndIncrementalHtml) ["a.gz"] ["c.gz"] "b.gz" [] 0).
  reflexivity.
Defined.

Lemma crawl_reads_first_five_witness :
  crawlShufersal (num := float) (sixFilesWorld true) 0
  = crawlShufersal (sixFilesWorld false) 0.
Proof.
  apply (crawl_reads_first_five (num := float) (sixFilesWorld false) (sixFilesWorld true) 0
           [ "https://pricesprodpublic.blob.core.windows.net/price/Price1-001-1.gz";
             "https://pricesprodpublic.blob.core.windows.net/price/Price1-002-1.gz";
             "https://pricesprodpublic.blob.core.windows.net/price/Price1-003-1.gz";
             "https://pricesprodpublic.blob.core.windows.net/price/Price1-004-1.gz";
             "https://pricesprodpublic.blob.core.windows.net/price/Price1-005-1.gz";
             "https://pricesprodpublic.blob.core.windows.net/price/Price1-006-1.gz" ]).
  - vm_compute. reflexivity.
  - reflexivity.
  - intros url Hin. cbn [firstn In] in Hin.
    repeat (destruct Hin as [<-|Hin]; [vm_compute; reflexivity|]). destruct Hin.
Defined.

Lemma crawl_fails_silently_witness :
  crawlShufersal (num := float) (listingWorld fullAndIncrementalHtml) 0
  = CrawlerResult.mk false "Shufersal" [] None 0%Z.
Proof.
  apply (crawl_fails_silently (num := float) (listingWorld fullAndIncrementalHtml) 0
           [ "https://pricesprodpublic.blob.core.windows.net/pricefull/PriceFull7290027600007-001-202401010300.gz?sv=1&sig=a";
             "https://pricesprodpublic.blob.core.windows.net/price/Price7290027600007-001-202401011200.gz?sv=1&sig=b" ]).
  - vm_compute. reflexivity.
  - discriminate.
  - intros url _. reflexivity.
Defined.

Lemma dedupe_identity_on_distinct_witness :
  JsMap.values (dedupe (num := float) milkShelf) = milkShelf.
Proof.
  apply (proj1 (dedupe_identity_on_distinct (num := float) milkShelf)).
  vm_compute. repeat constructor; simpl; intuition discriminate.
Defined.

(** ** The price service *)

Lemma catalog_ids_distinct : NoDup (List.map CatalogProduct.id productCatalog).
Proof.
  apply distinct_NoDup. vm_compute. reflexivity.
Qed.

Lemma fold_set_fresh {A V} (key : A -> string) (val : A -> V)
    (l : list A) (m : JsMap.t V) :
  NoDup (List.map fst m ++ List.map key l) ->
  fold_left (fun cache a => JsMap.set cache (key a) (val a)) l m
  = m ++ List.map (fun a => (key a, val a)) l.
Proof.
  revert m. induction l as [|x l IH]; intros m Hnd; simpl.
  - now rewrite app_nil_r.
  - assert (Hx : ~ In (key x) (List.map fst m)).
    { intros Hin. apply NoDup_remove_2 in Hnd. apply Hnd.
      apply in_or_app. now left. }
    rewrite (JsMapMore.set_absent m (key x) (val x) Hx), IH.
    + now rewrite <- app_assoc.
    + rewrite map_app. simpl. rewrite <- app_assoc. simpl.
      simpl in Hnd. exact Hnd.
Qed.

Section Service.
Context {num : Type} `{Number num}.

Lemma getFallbackProducts_ids :
  List.map (@Product.id num) getFallbackProducts
  = List.map CatalogProduct.id productCatalog.
Proof.
  unfold getFallbackProducts. rewrite map_map. reflexivity.
Qed.

Lemma buildProductsFromCache_ids (st : CacheState.t num) :
  List.map (@Product.id num) (buildProductsFromCache st)
  = List.map CatalogProduct.id productCatalog.
Proof.
  unfold buildProductsFromCache. rewrite map_map. reflexivity.
Qed.

Lemma fetchAllPrices_ids (w : World num) (now finished : Z) (st : CacheState.t num) :
  List.map (@Product.id num) (fst (fetchAllPrices w now finished st))
  = List.map CatalogProduct.id productCatalog.
Proof.
  unfold fetchAllPrices, afterCrawl.
  destruct (cacheIsFresh now st); cbn [fst].
  - apply buildProductsFromCache_ids.
  - destruct (CrawlerResult.success (crawlShufersal w now)); cbn [fst negb].
    + apply buildProductsFromCache_ids.
    + apply getFallbackProducts_ids.
Qed.

(** X13. Whatever the network, the cache and the query parameter are, the
    handler answers success with one product for each catalog entry, in the
    order of the catalog and under its id; so does [fetchAllPrices]. *)
Theorem products_follow_catalog (fallback : option string) (w : World num)
    (now finished responded : Z) (st : CacheState.t num) :
  List.map (@Product.id num) (fst (fetchAllPrices w now finished st))
    = List.map CatalogProduct.id productCatalog /\
  Route.success (fst (Route.GET fallback w now finished responded st)) = true /\
  List.map (@Product.id num)
    (Route.products (fst (Route.GET fallback w now finished responded st)))
    = List.map CatalogProduct.id productCatalog /\
  List.length (Route.products (fst (Route.GET fallback w now finished responded st)))
    = 35%nat.
Proof.
  assert (Hget : List.map (@Product.id num)
            (Route.products (fst (Route.GET fallback w now finished responded st)))
            = List.map CatalogProduct.id productCatalog).
  { unfold Route.GET.
    destruct (match fallback with Some v => String.eqb v "true" | None => false end).
    - cbn. apply getFallbackProducts_ids.
    - pose proof (fetchAllPrices_ids w now finished st) as Hids.
      destruct (fetchAllPrices w now finished st) as [products st']. cbn in *.
      exact Hids. }
  split; [apply fetchAllPrices_ids|]. split; [|split; [exact Hget|]].
  - unfold Route.GET.
    destruct (match fallback with Some v => String.eqb v "true" | None => false end);
      [reflexivity|].
    destruct (fetchAllPrices w now finished st); reflexivity.
  - rewrite <- (length_map (@Product.id num)), Hget. reflexivity.
Qed.

(** X14. After a crawl that succeeded, a call made less than an hour later
    is answered from the cache: it returns the products of the first call and
    leaves the state as it is, whatever the network has become. *)
Theorem second_call_is_served_from_cache (w w' : World num)
    (now finished now' finished' : Z) (st : CacheState.t num) :
  cacheIsFresh now st = false ->
  CrawlerResult.success (crawlShufersal w now) = true ->
  (now' - finished < CACHE_DURATION_MS)%Z ->
  fetchAllPrices w' now' finished' (snd (fetchAllPrices w now finished st))
  = fetchAllPrices w now finished st.
Proof.
  intros Hstale Hs Hnow.
  assert (E : fetchAllPrices w now finished st
              = afterCrawl (crawlShufersal w now) finished st).
  { unfold fetchAllPrices. now rewrite Hstale. }
  rewrite E.
  pose proof (cacheIsFresh_after_success (crawlShufersal w now) finished now' st Hs Hnow)
    as Hfresh.
  unfold fetchAllPrices at 1. rewrite Hfresh.
  unfold afterCrawl. rewrite Hs. reflexivity.
Qed.

Lemma matchCatalog_entries (items : list (RawStoreItem.t num)) :
  matchCatalog items
  = List.map (fun product =>
      (CatalogProduct.id product, findPricesForProduct product items))
      productCatalog.
Proof.
  unfold matchCatalog.
  rewrite (fold_set_fresh CatalogProduct.id
             (fun product => findPricesForProduct product items)).
  - reflexivity.
  - exact catalog_ids_distinct.
Qed.

(** X15. After a successful crawl the cache holds exactly the catalog ids, in
    the order of the catalog, and each id is mapped to what the matcher finds
    for that product among the crawled records. *)
Theorem cache_follows_catalog (r : CrawlerResult.t num) (finished : Z)
    (st : CacheState.t num) :
  CrawlerResult.success r = true ->
  List.map fst (CacheState.priceCache (snd (afterCrawl r finished st)))
    = List.map CatalogProduct.id productCatalog /\
  (forall product, In product productCatalog ->
     JsMap.get (CacheState.priceCache (snd (afterCrawl r finished st)))
       (CatalogProduct.id product)
     = Some (findPricesForProduct product (CrawlerResult.items r))) /\
  (forall id, ~ In id (List.map CatalogProduct.id productCatalog) ->
     JsMap.get (CacheState.priceCache (snd (afterCrawl r finished st))) id = None).
Proof.
  intros Hs. rewrite (afterCrawl_success r finished st Hs).
  cbn [CacheState.priceCache]. rewrite matchCatalog_entries.
  assert (Hkeys : List.map fst
            (List.map (fun product =>
               (CatalogProduct.id product,
                findPricesForProduct product (CrawlerResult.items r))) productCatalog)
            = List.map CatalogProduct.id productCatalog).
  { rewrite map_map. reflexivity. }
  split; [exact Hkeys|]. split.
  - intros product Hin. apply JsMapMore.get_In.
    + rewrite Hkeys. exact catalog_ids_distinct.
    + apply in_map_iff. exists product. auto.
  - intros id Hid. apply JsMapMore.get_None_keys. now rewrite Hkeys.
Qed.

(** Every product built from the cache has an average above zero as soon as
    the fallback averages are, and carries price points only when there are
    some. *)
Lemma buildProductsFromCache_positive (st : CacheState.t num) (p : Product.t num) :
  (forall id, gtb (FallbackPrice.average (getFallbackPrice (num := num) id)) (lit 0) = true) ->
  In p (buildProductsFromCache st) ->
  gtb (Product.averagePrice p) (lit 0) = true /\
  (Product.storePrices p = None \/
   exists l, Product.storePrices p = Some l /\ l <> []).
Proof.
  intros Hfb Hin. unfold buildProductsFromCache in Hin.
  apply in_map_iff in Hin. destruct Hin as (c & <- & _).
  cbn [Product.averagePrice Product.storePrices].
  set (storePrices := match JsMap.get (CacheState.priceCache st) (CatalogProduct.id c) with
                      | Some l => l
                      | None => []
                      end).
  destruct ((0 <? List.length storePrices)%nat
            && gtb (PriceStats.averagePrice (calculatePriceStats storePrices)) (lit 0))
    eqn:E.
  - apply andb_true_iff in E. destruct E as (Hl & Hg). split; auto.
    right. exists storePrices. split; auto.
    intros Hnil. rewrite Hnil in Hl. discriminate Hl.
  - split; auto.
Qed.

Lemma getFallbackProducts_positive (p : Product.t num) :
  (forall id, gtb (FallbackPrice.average (getFallbackPrice (num := num) id)) (lit 0) = true) ->
  In p getFallbackProducts ->
  gtb (Product.averagePrice p) (lit 0) = true /\
  (Product.storePrices p = None \/
   exists l, Product.storePrices p = Some l /\ l <> []).
Proof.
  intros Hfb Hin. unfold getFallbackProducts in Hin.
  apply in_map_iff in Hin. destruct Hin as (c & <- & _).
  cbn [Product.averagePrice Product.storePrices]. auto.
Qed.

Lemma fetchAllPrices_positive (w : World num) (now finished : Z)
    (st : CacheState.t num) (p : Product.t num) :
  (forall id, gtb (FallbackPrice.average (getFallbackPrice (num := num) id)) (lit 0) = true) ->
  In p (fst (fetchAllPrices w now finished st)) ->
  gtb (Product.averagePrice p) (lit 0) = true /\
  (Product.storePrices p = None \/
   exists l, Product.storePrices p = Some l /\ l <> []).
Proof.
  intros Hfb. unfold fetchAllPrices, afterCrawl.
  destruct (cacheIsFresh now st); cbn [fst].
  - now apply buildProductsFromCache_positive.
  - destruct (CrawlerResult.success (crawlShufersal w now)); cbn [fst negb].
    + now apply buildProductsFromCache_positive.
    + now apply getFallbackProducts_positive.
Qed.

Lemma fallback_average_positive :
  forallb (fun e => gtb (FallbackPrice.average e) (lit 0))
    (JsMap.values (fallbackPrices (num := num))) = true ->
  gtb (num := num) (lit 10) (lit 0) = true ->
  forall id, gtb (FallbackPrice.average (getFallbackPrice (num := num) id)) (lit 0) = true.
Proof.
  intros Htable Hdefault id. unfold getFallbackPrice.
  destruct (JsMap.get fallbackPrices id) as [e|] eqn:G.
  - apply JsMapMore.get_Some_In in G.
    rewrite forallb_forall in Htable. apply Htable.
    unfold JsMap.values. apply in_map_iff. exists (id, e). auto.
  - exact Hdefault.
Qed.

(** X17. Price points that are not above zero have no part in the summary:
    it is the summary of the positive ones. *)
Theorem stats_ignore_nonpositive_prices (prices : list (StorePrice.t num)) :
  calculatePriceStats prices
  = calculatePriceStats
      (filter (fun sp => gtb (StorePrice.price sp) (lit 0)) prices).
Proof.
  set (pos := fun sp : StorePrice.t num => gtb (StorePrice.price sp) (lit 0)).
  assert (Hvals : forall l : list (StorePrice.t num),
            filter (fun p => gtb p (lit 0)) (List.map (@StorePrice.price num) l)
            = List.map (@StorePrice.price num) (filter pos l)).
  { induction l as [|a l IH]; simpl; auto.
    unfold pos at 1. destruct (gtb (StorePrice.price a) (lit 0)); simpl; now rewrite IH. }
  assert (Hidem : filter pos (filter pos prices) = filter pos prices).
  { induction prices as [|a l IH]; simpl; auto.
    destruct (pos a) eqn:E; simpl; [rewrite E|]; now rewrite IH. }
  unfold calculatePriceStats.
  rewrite (Hvals (filter pos prices)), Hidem, (Hvals prices).
  destruct prices as [|a l]; [reflexivity|].
  cbn [List.length Nat.eqb].
  destruct (filter pos (a :: l)) as [|b l'] eqn:E; reflexivity.
Qed.

End Service.

(** X16. The all-zero summary never reaches a product: on doubles and in
    exact arithmetic, every product that [fetchAllPrices] returns has an
    average above zero, and carries price points only when there are some. *)
Theorem products_never_show_zero :
  (forall (w : World float) (now finished : Z) (st : CacheState.t float) p,
     In p (fst (fetchAllPrices w now finished st)) ->
     gtb (Product.averagePrice p) (lit 0) = true /\
     (Product.storePrices p = None \/
      exists l, Product.storePrices p = Some l /\ l <> [])) /\
  (forall (w : World Q) (now finished : Z) (st : CacheState.t Q) p,
     In p (fst (fetchAllPrices w now finished st)) ->
     (0 < Product.averagePrice p)%Q /\
     (Product.storePrices p = None \/
      exists l, Product.storePrices p = Some l /\ l <> [])).
Proof.
  split.
  - intros w now finished st p Hin.
    apply (fetchAllPrices_positive w now finished st p); auto.
    apply fallback_average_positive; vm_compute; reflexivity.
  - intros w now finished st p Hin.
    destruct (fetchAllPrices_positive w now finished st p) as (Hg & Hs); auto.
    + apply fallback_average_positive; vm_compute; reflexivity.
    + split; auto. now apply gtb_exact_pos.
Qed.

Lemma second_call_is_served_from_cache_witness :
  fetchAllPrices (num := float) offlineWorld 1000 2000
    (snd (fetchAllPrices (oneFileWorld threeTomatoes) 0 1 emptyState))
  = fetchAllPrices (oneFileWorld threeTomatoes) 0 1 emptyState.
Proof.
  apply (second_call_is_served_from_cache (num := float)
           (oneFileWorld threeTomatoes) offlineWorld 0 1 1000 2000 emptyState);
    vm_compute; reflexivity.
Defined.

Lemma cache_follows_catalog_witness :
  List.map fst
    (CacheState.priceCache
       (snd (afterCrawl (num := float)
               (crawlShufersal (oneFileWorld threeTomatoes) 0) 1 emptyState)))
  = List.map CatalogProduct.id productCatalog.
Proof.
  apply (proj1 (cache_follows_catalog (num := float)
                  (crawlShufersal (oneFileWorld threeTomatoes) 0) 1 emptyState
                  ltac:(vm_compute; reflexivity))).
Defined.

(** ** The parser *)

Section ParserFacts.
Context {num : Type} `{Number num}.
Variable parseFloat : string -> option num.

Lemma parseItem_valid (itemXml : string) (item : RawStoreItem.t num) :
  parseItem parseFloat itemXml = Some item ->
  RawStoreItem.itemCode item <> "" /\
  gtb (RawStoreItem.itemPrice item) (lit 0) = true /\
  (RawStoreItem.quantity item = lit 1 \/
   eqb (RawStoreItem.quantity item) (lit 0) = false) /\
  RawStoreItem.priceUpdateDate item <> None.
Proof.
  unfold parseItem.
  destruct (negb (String.eqb (getTagValue itemXml "ItemCode") "")
            && gtb (orNumber (parseFloat (getTagValue itemXml "ItemPrice")) (lit 0)) (lit 0))
    eqn:E; [|discriminate].
  intros [= <-]. cbn.
  apply andb_true_iff in E. destruct E as (Hc & Hp).
  apply negb_true_iff in Hc. apply String.eqb_neq in Hc.
  split; [exact Hc|]. split; [exact Hp|]. split; [|discriminate].
  unfold orNumber.
  destruct (parseFloat (JsText.orElse _ _)) as [v|]; [|now left].
  destruct (eqb v (lit 0)) eqn:Ez; cbn [orb]; [now left|].
  destruct (eqb v v); cbn [negb]; [now right | now left].
Qed.

Lemma In_parseXMLPrices (xmlContent : string) (item : RawStoreItem.t num) :
  In item (parseXMLPrices parseFloat xmlContent) ->
  exists itemXml, In itemXml (Regex.matchAll itemRegex xmlContent) /\
                  parseItem parseFloat itemXml = Some item.
Proof.
  unfold parseXMLPrices. intros Hin. apply in_flat_map in Hin.
  destruct Hin as (itemXml & Hx & Hi). exists itemXml. split; auto.
  destruct (parseItem parseFloat itemXml) as [i|]; [|destruct Hi].
  destruct Hi as [->|[]]. reflexivity.
Qed.

(** X18. Every record the parser emits has a code that is not empty and a
    price above zero; its quantity is 1 when the text gave none that counts,
    and never 0; its update date is a string, empty when absent.  No more
    records are emitted than there are item blocks. *)
Theorem parsed_records_are_valid (xmlContent : string) :
  (forall item, In item (parseXMLPrices parseFloat xmlContent) ->
     RawStoreItem.itemCode item <> "" /\
     gtb (RawStoreItem.itemPrice item) (lit 0) = true /\
     (RawStoreItem.quantity item = lit 1 \/
      eqb (RawStoreItem.quantity item) (lit 0) = false) /\
     RawStoreItem.priceUpdateDate item <> None) /\
  (List.length (parseXMLPrices parseFloat xmlContent)
   <= List.length (Regex.matchAll itemRegex xmlContent))%nat.
Proof.
  split.
  - intros item Hin. apply In_parseXMLPrices in Hin.
    destruct Hin as (itemXml & _ & Hp). now apply parseItem_valid in Hp.
  - unfold parseXMLPrices.
    induction (Regex.matchAll itemRegex xmlContent) as [|x l IH]; simpl; auto.
    rewrite length_app.
    destruct (parseItem parseFloat x); simpl; lia.
Qed.

Lemma matchHere_LitI_none (p : string) (r : Regex.regex) (s : string) :
  JsString.eqbI p (JsString.take (String.length p) s) = false ->
  Regex.matchHere (Regex.Seq (Regex.LitI p) r) s = None.
Proof.
  intros E. unfold Regex.matchHere. cbn [Regex.run]. now rewrite E.
Qed.

Lemma matchAllFrom_LitI_none (p : string) (r : Regex.regex) (skip : nat) (s : string) :
  JsText.includesI s p = false ->
  Regex.matchAllFrom (Regex.Seq (Regex.LitI p) r) skip s = [].
Proof.
  revert skip. induction s as [|c s IH]; intros skip Hn.
  - simpl in Hn. rewrite orb_false_r in Hn.
    destruct skip; cbn [Regex.matchAllFrom]; now rewrite matchHere_LitI_none.
  - cbn [JsText.includesI] in Hn. apply orb_false_iff in Hn.
    destruct Hn as (Hhere & Hrest).
    destruct skip; cbn [Regex.matchAllFrom].
    + rewrite matchHere_LitI_none by exact Hhere. now apply IH.
    + now apply IH.
Qed.

(** X19. A text in which no item element opens, in any letter case, parses
    to no records. *)
Theorem no_item_element_no_records (xmlContent : string) :
  JsText.includesI xmlContent "<Item>" = false ->
  parseXMLPrices parseFloat xmlContent = [].
Proof.
  intros Hn. unfold parseXMLPrices, Regex.matchAll, itemRegex.
  now rewrite matchAllFrom_LitI_none.
Qed.

(** X20. When the files are parsed by [parseXMLPrices], every record a crawl
    returns has a code that is not empty and a price above zero. *)
Theorem crawled_records_are_valid (pages : string -> Fetched)
    (download : string -> Result string) (now : Z) (item : RawStoreItem.t num) :
  In item (CrawlerResult.items (crawlShufersal (parsedWorld parseFloat pages download) now)) ->
  RawStoreItem.itemCode item <> "" /\
  gtb (RawStoreItem.itemPrice item) (lit 0) = true.
Proof.
  set (w := parsedWorld parseFloat pages download).
  destruct (fetchPriceFileUrls_cases w) as [(urls & E & Hne)|Hnone].
  - rewrite (crawlShufersal_found w now urls E Hne).
    cbn [CrawlerResult.items]. intros Hin.
    apply dedupe_values_In in Hin. apply In_flat_map_fileRecords in Hin.
    destruct Hin as (url & parsed & _ & Hp & Hi).
    unfold w, parsedWorld in Hp. cbn [priceFile] in Hp.
    destruct (download url) as [xmlContent|e]; [|discriminate].
    cbn [bind] in Hp. injection Hp as <-.
    apply In_parseXMLPrices in Hi. destruct Hi as (itemXml & _ & Hv).
    apply parseItem_valid in Hv. tauto.
  - destruct (crawlShufersal_not_found w now Hnone) as (_ & ->). intros [].
Qed.

End ParserFacts.

Lemma parsed_records_are_valid_witness :
  RawStoreItem.itemCode (record (num := Q) "7290000066318" "Milk 3%" 6.9) <> "" /\
  gtb (RawStoreItem.itemPrice (record (num := Q) "7290000066318" "Milk 3%" 6.9)) (lit 0) = true.
Proof.
  assert (Hin : In (RawStoreItem.mk "7290000066318" "Milk 3%" 6.9%Q "1.00" 1%Q None (Some ""))
                  (parseXMLPrices (num := Q) parseFloatDecimal sampleXml))
    by (vm_compute; left; reflexivity).
  destruct (proj1 (parsed_records_are_valid (num := Q) parseFloatDecimal sampleXml) _ Hin)
    as (Hc & Hp & _).
  split; [exact Hc | exact Hp].
Defined.

Lemma no_item_element_no_records_witness :
  parseXMLPrices (num := Q) parseFloatDecimal
    "<html><body><h1>503 Service Unavailable</h1></body></html>" = [].
Proof.
  apply (no_item_element_no_records (num := Q) parseFloatDecimal).
  vm_compute. reflexivity.
Defined.

Lemma crawled_records_are_valid_witness :
  RawStoreItem.itemCode
    (RawStoreItem.mk (num := Q) "7290000066318" "Milk 3%" 6.9 "1.00" 1 None (Some "")) <> "" /\
  gtb (RawStoreItem.itemPrice
         (RawStoreItem.mk (num := Q) "7290000066318" "Milk 3%" 6.9 "1.00" 1 None (Some "")))
      (lit 0) = true.
Proof.
  apply (crawled_records_are_valid (num := Q) parseFloatDecimal
           (fun _ => Responded true "200" "OK" (Ok sixFilesHtml))
           (fun _ => Ok sampleXml) 0).
  vm_compute. left. reflexivity.
Defined.

(** ** The locators, continued *)

(** A replacement leaves alone a head of the text in which the first
    character of the pattern does not occur. *)
Lemma replaceFrom_prefix (a : ascii) (pat rep p s : string) :
  hasChar a p = false -> String.prefix p s = true ->
  String.prefix p (JsString.replaceFrom (String a pat) rep 0 s) = true.
Proof.
  revert s. induction p as [|c p IH]; intros s Hc Hp.
  - now destruct (JsString.replaceFrom (String a pat) rep 0 s).
  - simpl in Hc. apply orb_false_iff in Hc. destruct Hc as (Hac & Hc).
    destruct s as [|b s]; simpl in Hp; [discriminate|].
    destruct (ascii_dec c b) as [<-|]; [|discriminate].
    cbn [JsString.replaceFrom String.prefix].
    destruct (ascii_dec a c) as [->|Hne].
    + rewrite Ascii.eqb_refl in Hac. discriminate.
    + simpl. destruct (ascii_dec c c); [|congruence]. now apply IH.
Qed.

Lemma replaceFrom_absent (a : ascii) (pat rep s : string) :
  hasChar a s = false -> JsString.replaceFrom (String a pat) rep 0 s = s.
Proof.
  induction s as [|c s IH]; intros Hc; [reflexivity|].
  simpl in Hc. apply orb_false_iff in Hc. destruct Hc as (Hac & Hc).
  cbn [JsString.replaceFrom String.prefix].
  destruct (ascii_dec a c) as [->|Hne].
  - rewrite Ascii.eqb_refl in Hac. discriminate.
  - now rewrite IH.
Qed.

Lemma decodeEntities_prefix (p s : string) :
  hasChar "&" p = false -> String.prefix p s = true ->
  String.prefix p (decodeEntities s) = true.
Proof.
  intros Hc Hp. unfold decodeEntities, JsString.replaceAll.
  now repeat apply replaceFrom_prefix.
Qed.

Lemma decodeEntities_absent (s : string) :
  hasChar "&" s = false -> decodeEntities s = s.
Proof.
  intros Hc. unfold decodeEntities, JsString.replaceAll.
  rewrite (replaceFrom_absent "&" "amp;" "&" s Hc).
  rewrite (replaceFrom_absent "&" "lt;" "<" s Hc).
  exact (replaceFrom_absent "&" "gt;" ">" s Hc).
Qed.

Lemma uniqueFrom_distinct (urls seen : list string) :
  NoDup urls -> (forall u, In u urls -> ~ In u seen) ->
  uniqueFrom seen urls = urls.
Proof.
  revert seen. induction urls as [|x l IH]; intros seen Hnd Hseen; simpl; auto.
  inversion Hnd as [|? ? Hx Hnd']; subst.
  destruct (existsb (String.eqb x) seen) eqn:E.
  - apply existsb_eqb_In in E. exfalso. exact (Hseen x (or_introl eq_refl) E).
  - f_equal. apply IH; auto.
    intros u Hu [<-|Hs]; auto. exact (Hseen u (or_intror Hu) Hs).
Qed.

Section LocatorFacts.
Context {num : Type} `{Number num}.

(** X21. Every URL the locator returns starts with the address of the blob
    host: no other host is ever handed to the download. *)
Theorem located_urls_are_on_blob_host (w : World num) (urls : list string)
    (url : string) :
  fetchPriceFileUrls w = Ok urls -> In url urls ->
  JsString.startsWith url blobHost = true.
Proof.
  unfold fetchPriceFileUrls.
  destruct (page w SHUFERSAL_URL) as [e|ok status statusText text]; [discriminate|].
  destruct ok; [|discriminate]. destruct text as [html|e]; [|discriminate].
  cbn [negb bind]. intros [= <-] Hin.
  apply (proj1 (In_unique _ _)) in Hin. apply in_map_iff in Hin.
  destruct Hin as (m & <- & Hm).
  unfold Regex.matchAll in Hm. apply RegexFacts.In_matchAllFrom in Hm.
  destruct Hm as (t & cap & Hm).
  unfold urlRegex in Hm. apply RegexFacts.matchHere_Lit_prefix in Hm.
  unfold JsString.startsWith, blobHost.
  apply decodeEntities_prefix; auto.
Qed.

(** X22. When the page is read and its URLs are pairwise different and hold
    no ampersand, the locator returns them as they stand on the page, in
    their order. *)
Theorem located_urls_as_on_page (w : World num) (status statusText html : string) :
  page w SHUFERSAL_URL = Responded true status statusText (Ok html) ->
  NoDup (Regex.matchAll urlRegex html) ->
  (forall m, In m (Regex.matchAll urlRegex html) -> hasChar "&" m = false) ->
  fetchPriceFileUrls w = Ok (Regex.matchAll urlRegex html).
Proof.
  intros Hpage Hnd Hamp. unfold fetchPriceFileUrls. rewrite Hpage. cbn [negb bind].
  assert (Hmap : List.map decodeEntities (Regex.matchAll urlRegex html)
                 = Regex.matchAll urlRegex html).
  { rewrite <- (map_id (Regex.matchAll urlRegex html)) at 2.
    apply map_ext_in. intros m Hm. now apply decodeEntities_absent, Hamp. }
  rewrite Hmap. unfold unique. rewrite uniqueFrom_distinct; auto.
Qed.

End LocatorFacts.

Lemma located_urls_are_on_blob_host_witness :
  JsString.startsWith
    "https://pricesprodpublic.blob.core.windows.net/price/Price7290027600007-001-202401011200.gz?sv=1&sig=b"
    blobHost = true.
Proof.
  apply (located_urls_are_on_blob_host (num := float)
           (listingWorld fullAndIncrementalHtml)
           [ "https://pricesprodpublic.blob.core.windows.net/pricefull/PriceFull7290027600007-001-202401010300.gz?sv=1&sig=a";
             "https://pricesprodpublic.blob.core.windows.net/price/Price7290027600007-001-202401011200.gz?sv=1&sig=b" ]).
  - vm_compute. reflexivity.
  - right. left. reflexivity.
Defined.

Lemma located_urls_as_on_page_witness :
  fetchPriceFileUrls (num := float) (sixFilesWorld false)
  = Ok (Regex.matchAll urlRegex sixFilesHtml).
Proof.
  apply (located_urls_as_on_page (num := float) (sixFilesWorld false) "200" "OK" sixFilesHtml).
  - reflexivity.
  - vm_compute. repeat constructor; simpl; intuition discriminate.
  - intros m Hm. vm_compute in Hm.
    repeat (destruct Hm as [<-|Hm]; [vm_compute; reflexivity|]). destruct Hm.
Defined.

(** ** The earlier locator and crawler *)


Section LegacyFacts.
Context {num : Type} `{Number num}.


Lemma legacy_processFiles_spec (w : World num) (files : list Legacy.ShufersalFileInfo)
    (items : list (RawStoreItem.t num)) :
  LegacyCrawl.processFiles w files items
  = items ++ flat_map (fun file => fileRecords w (Legacy.url file)) files.
Proof.
  revert items. induction files as [|f files IH]; intros items; simpl.
  - now rewrite app_nil_r.
  - unfold fileRecords at 1.
    destruct (priceFile w (Legacy.url f)) as [parsed|e]; rewrite IH.
    + now rewrite <- app_assoc.
    + reflexivity.
Qed.

(** X24. The earlier crawl never reports an error message; the records it
    returns have pairwise different codes, and each is a record of one of
    the first three files, which are the listed ones when the listing gave
    any and those of direct access otherwise. *)
Theorem legacy_crawl_result (w : World num) (now : Z) :
  CrawlerResult.error (LegacyCrawl.crawlShufersal w now) = None /\
  NoDup (List.map (@RawStoreItem.itemCode num)
           (CrawlerResult.items (LegacyCrawl.crawlShufersal w now))) /\
  forall item, In item (CrawlerResult.items (LegacyCrawl.crawlShufersal w now)) ->
    exists file parsed,
      In file (firstn 3 (match Legacy.fetchFileList w with
                         | [] => LegacyCrawl.directFiles w
                         | listed => listed
                         end)) /\
      priceFile w (Legacy.url file) = Ok parsed /\ In item parsed.
Proof.
  unfold LegacyCrawl.crawlShufersal.
  cbn [CrawlerResult.error CrawlerResult.items].
  split; [reflexivity|]. split; [apply dedupe_codes_NoDup|].
  intros item Hin. apply dedupe_values_In in Hin.
  rewrite legacy_processFiles_spec in Hin. cbn [app] in Hin.
  apply in_flat_map in Hin. destruct Hin as (file & Hf & Hi).
  unfold fileRecords in Hi.
  destruct (priceFile w (Legacy.url file)) as [parsed|e] eqn:E; [|destruct Hi].
  exists file, parsed. split; auto.
  destruct (Legacy.fetchFileList w) as [|f0 l]; auto.
Qed.

End LegacyFacts.


(** ** The barcode index *)

Lemma get_fold_set_same {V} (keys : list string) (v : V) (m : JsMap.t V) (k : string) :
  JsMap.get (fold_left (fun index key => JsMap.set index key v) keys m) k
  = if existsb (String.eqb k) keys then Some v else JsMap.get m k.
Proof.
  revert m. induction keys as [|b keys IH]; intros m; simpl; auto.
  rewrite IH. destruct (existsb (String.eqb k) keys).
  - now rewrite orb_true_r.
  - rewrite orb_false_r. destruct (String.eqb k b) eqn:E.
    + apply String.eqb_eq in E. subst. apply JsMapFacts.get_set_eq.
    + apply String.eqb_neq in E. apply JsMapFacts.get_set_ne. congruence.
Qed.

Lemma find_app {A} (f : A -> bool) (l1 l2 : list A) :
  find f (l1 ++ l2) = match find f l1 with
                      | Some x => Some x
                      | None => find f l2
                      end.
Proof.
  induction l1 as [|a l1 IH]; simpl; auto. destruct (f a); auto.
Qed.

Lemma get_barcodeIndex_from (catalog : list CatalogProduct.t)
    (m : JsMap.t CatalogProduct.t) (b : string) :
  JsMap.get
    (fold_left (fun index product =>
       fold_left (fun index' barcode => JsMap.set index' barcode product)
         (CatalogProduct.barcodes product) index) catalog m) b
  = match find (listsBarcode b) (rev catalog) with
    | Some product => Some product
    | None => JsMap.get m b
    end.
Proof.
  revert m. induction catalog as [|p catalog IH]; intros m; simpl; auto.
  rewrite IH, find_app. destruct (find (listsBarcode b) (rev catalog)); auto.
  simpl. rewrite get_fold_set_same. unfold listsBarcode.
  destruct (existsb (String.eqb b) (CatalogProduct.barcodes p)); auto.
Qed.

(** X25. The barcode index maps a barcode to the last product of the
    catalog that lists it, and to nothing when no product does. *)
Theorem barcode_index_last_wins (catalog : list CatalogProduct.t) (b : string) :
  JsMap.get (barcodeIndex catalog) b = find (listsBarcode b) (rev catalog).
Proof.
  unfold barcodeIndex. rewrite get_barcodeIndex_from.
  destruct (find (listsBarcode b) (rev catalog)); reflexivity.
Qed.

(** ** The page and the handler *)

Lemma filter_all {A} (f : A -> bool) (l : list A) :
  (forall x, In x l -> f x = true) -> filter f l = l.
Proof.
  induction l as [|a l IH]; simpl; intros Hall; auto.
  rewrite (Hall a (or_introl eq_refl)), IH; auto.
Qed.

Section PageFacts.
Context {num : Type} `{Number num}.

(** X26. On the page, an empty search with all categories shows every
    product; with a category selected every product shown is of that
    category; and what is shown is always a part of the products, in their
    order. *)
Theorem filteredProducts_selection (products : list (Product.t num))
    (searchQuery category : string) (selected : CategoryFilter) :
  filteredProducts products "" AllCategories = products /\
  (forall p, In p (filteredProducts products searchQuery (OneCategory category)) ->
     Product.category p = category) /\
  (forall p, In p (filteredProducts products searchQuery selected) -> In p products) /\
  filteredProducts (filteredProducts products searchQuery selected) searchQuery selected
  = filteredProducts products searchQuery selected.
Proof.
  unfold filteredProducts. repeat split.
  - apply filter_all. intros p _. now rewrite includes_empty.
  - intros p Hin. apply filter_In in Hin. destruct Hin as (_ & Hp).
    apply andb_true_iff in Hp. destruct Hp as (_ & Hc). now apply String.eqb_eq.
  - intros p Hin. apply filter_In in Hin. tauto.
  - apply filter_all. intros p Hin. apply filter_In in Hin. tauto.
Qed.

End PageFacts.

Lemma products_never_show_zero_witness :
  match getFallbackProducts (num := float) with
  | p :: _ => gtb (Product.averagePrice p) (lit 0) = true
  | [] => True
  end.
Proof.
  apply (proj1 products_never_show_zero offlineWorld 0%Z 1%Z emptyState).
  vm_compute. left. reflexivity.
Defined.

Lemma crawl_items_distinct_and_downloaded_witness :
  exists urls url parsed,
    fetchPriceFileUrls (num := float) (oneFileWorld threeTomatoes) = Ok urls /\
    In url (firstn 5 urls) /\
    priceFile (oneFileWorld threeTomatoes) url = Ok parsed /\
    In (record "7290000000111" "Tomato cherry" 5.85) parsed.
Proof.
  apply (proj2 (crawl_items_distinct_and_downloaded (num := float)
                  (oneFileWorld threeTomatoes) 0)).
  vm_compute. left. reflexivity.
Defined.

Lemma legacy_crawl_result_witness :
  CrawlerResult.error
    (LegacyCrawl.crawlShufersal (num := float) (listingWorld relativeLinkHtml) 0) = None.
Proof.
  apply (proj1 (legacy_crawl_result (num := float) (listingWorld relativeLinkHtml) 0)).
Defined.

Lemma filteredProducts_selection_witness :
  filteredProducts (getFallbackProducts (num := float)) "" AllCategories
  = getFallbackProducts.
Proof.
  apply (proj1 (filteredProducts_selection (getFallbackProducts (num := float))
                  "" "" AllCategories)).
Defined.

(** ** The fallback table *)

(** X27. The fallback table has an entry for every product of the catalog,
    so the default estimate is used for none of them. *)
Theorem fallback_table_covers_catalog {num : Type} `{Number num}
    (product : CatalogProduct.t) :
  In product productCatalog ->
  exists prices,
    JsMap.get (fallbackPrices (num := num)) (CatalogProduct.id product) = Some prices /\
    getFallbackPrice (CatalogProduct.id product) = prices.
Proof.
  intros Hin.
  assert (Hall : forallb (fun p =>
                   match JsMap.get (fallbackPrices (num := num)) (CatalogProduct.id p) with
                   | Some _ => true
                   | None => false
                   end) productCatalog = true) by (vm_compute; reflexivity).
  rewrite forallb_forall in Hall. specialize (Hall product Hin).
  unfold getFallbackPrice.
  destruct (JsMap.get fallbackPrices (CatalogProduct.id product)) as [prices|];
    [|discriminate].
  exists prices. auto.
Qed.

Lemma fallback_table_covers_catalog_witness :
  exists prices,
    JsMap.get (fallbackPrices (num := float)) (CatalogProduct.id milkProduct) = Some prices /\
    getFallbackPrice (CatalogProduct.id milkProduct) = prices.
Proof.
  apply (fallback_table_covers_catalog (num := float) milkProduct).
  vm_compute. do 12 right. left. reflexivity.
Defined.
